(** * FreshIn engine: cell updates, schema guard, identifier normalisation,
      batch routing and processed-file tracking

    A shallow embedding of the parts of
    - [freshin_ingest_v27.65.py]      (module [Ingest]),
    - [freshin_meta_merger_v27.72.py] (module [MetaMerger]),
    - [vdb_freshin_engine.py]         (modules [VDB], [Writers], [Audit])
    that decide the properties proved in the second half of the file.

    Conventions of the embedding.
    - Python [int] is [Z]; Python [float] is Stdlib's [spec_float] (sign,
      mantissa, exponent; NaN and infinities explicit), so [int(x)] and
      [x != y] are computed exactly.
    - Python [str] is [string], read as ASCII text: [strip], [lower],
      [isdigit] and [int(str)] treat the ASCII characters as Python does.
      The interpreter's cap on the length of int/str conversions is not
      modelled: the ints that reach the program come from JSON or from
      64-bit columns.
    - A table has a dtype per column, and [.at] depends on it. An object
      column holds Python scalars exactly as assigned. A string column
      (pandas' [str] dtype) holds strings and refuses every other value.
      A NumPy column comes with its own assignment (the value stored, or
      the exception that refuses it) and its own [!=] against a Python
      value; nothing is assumed about either. An assignment that is
      refused leaves the table as it was. List-valued cells are outside
      the model.
    - A function that may raise returns [res]; code that mutates [self]
      lives in the state-and-exception monad [M]: a raised exception keeps the
      state reached so far, as in Python.
    - [print] and [log] output is not part of the state. *)

From Stdlib Require Import ZArith String Ascii SpecFloat Sorted.
From stdpp Require Import base gmap sets list strings pretty.

Local Open Scope string_scope.

(* ===================================================================== *)
(** * Python primitives *)
(* ===================================================================== *)

Module Py.

(** Exceptions raised by the modelled code. *)
Inductive exn : Type :=
| AttributeError | TypeError | ValueError | KeyError | OverflowError
| AssertionError | JSONDecodeError | OSError | OtherError (msg : string).

Inductive res (A : Type) : Type :=
| Ok (a : A)
| Raise (e : exn).
Arguments Ok {A} a.
Arguments Raise {A} e.

(** State-and-exception monad: [Raise] keeps the state at the raise. *)
Definition M (S A : Type) : Type := S -> res A * S.

Definition ret {S A} (a : A) : M S A := fun s => (Ok a, s).
Definition raise {S A} (e : exn) : M S A := fun s => (Raise e, s).
Definition bind {S A B} (m : M S A) (k : A -> M S B) : M S B :=
  fun s => match m s with
           | (Ok a, s') => k a s'
           | (Raise e, s') => (Raise e, s')
           end.
Definition get {S} : M S S := fun s => (Ok s, s).
Definition modify {S} (f : S -> S) : M S unit := fun s => (Ok tt, f s).
Definition lift {S A} (r : res A) : M S A := fun s => (r, s).

(** [try: body  except Exception as e: handler(e)] *)
Definition try_except {S A} (body : M S A) (handler : exn -> M S A) : M S A :=
  fun s => match body s with
           | (Ok a, s') => (Ok a, s')
           | (Raise e, s') => handler e s'
           end.

(** [isinstance(e, (TypeError, ValueError))]; [JSONDecodeError] is a
    subclass of [ValueError]. *)
Definition is_type_or_value_error (e : exn) : bool :=
  match e with
  | TypeError | ValueError | JSONDecodeError => true
  | _ => false
  end.

(** [for x in xs: body(x)] *)
Fixpoint for_each {S A} (xs : list A) (body : A -> M S unit) : M S unit :=
  match xs with
  | [] => ret tt
  | x :: xs' => bind (body x) (fun _ => for_each xs' body)
  end.

(** ** Strings *)

Definition ascii_in (lo hi : nat) (c : ascii) : bool :=
  let n := nat_of_ascii c in (lo <=? n)%nat && (n <=? hi)%nat.

(** [c.isspace()] on ASCII: TAB..CR, FS..US and space. *)
Definition isspace (c : ascii) : bool :=
  ascii_in 9 13 c || ascii_in 28 32 c.

Definition isdigit_char (c : ascii) : bool := ascii_in 48 57 c.

Fixpoint all_chars (p : ascii -> bool) (s : string) : bool :=
  match s with
  | EmptyString => true
  | String c s' => p c && all_chars p s'
  end.

(** [s.isdigit()]: non-empty and every character a digit. *)
Definition isdigit (s : string) : bool :=
  match s with
  | EmptyString => false
  | _ => all_chars isdigit_char s
  end.

Fixpoint lstrip (s : string) : string :=
  match s with
  | EmptyString => EmptyString
  | String c s' => if isspace c then lstrip s' else s
  end.

Fixpoint rstrip (s : string) : string :=
  match s with
  | EmptyString => EmptyString
  | String c s' =>
      match rstrip s' with
      | EmptyString => if isspace c then EmptyString else String c EmptyString
      | r => String c r
      end
  end.

(** [s.strip()] *)
Definition strip (s : string) : string := rstrip (lstrip s).

Definition lower_char (c : ascii) : ascii :=
  if ascii_in 65 90 c then ascii_of_nat (nat_of_ascii c + 32) else c.

(** [s.lower()] *)
Fixpoint lower (s : string) : string :=
  match s with
  | EmptyString => EmptyString
  | String c s' => String (lower_char c) (lower s')
  end.

(** [s.startswith(p)] *)
Definition startswith (s p : string) : bool := String.prefix p s.

(** [s.endswith(p)] *)
Definition endswith (s p : string) : bool :=
  String.prefix (String.rev p) (String.rev s).

(** [needle in s] for strings *)
Fixpoint contains (needle s : string) : bool :=
  String.prefix needle s ||
  match s with
  | EmptyString => false
  | String _ s' => contains needle s'
  end.

Fixpoint zeros (n : nat) : string :=
  match n with
  | O => EmptyString
  | S n' => String "0" (zeros n')
  end.

(** [s.zfill(width)]: a leading sign stays in front of the padding. *)
Definition zfill (width : nat) (s : string) : string :=
  if (width <=? String.length s)%nat then s
  else
    let fill := zeros (width - String.length s) in
    match s with
    | String c s' =>
        if Ascii.eqb c "+" || Ascii.eqb c "-"
        then String c (fill +:+ s')
        else fill +:+ s
    | EmptyString => fill
    end.

(** [str(n)] for an int. *)
Definition str_of_int (z : Z) : string := pretty z.

(** [f"{n:07d}"]: the sign counts in the width, exactly as
    [str(n).zfill(7)]. *)
Definition format_07d (z : Z) : string := zfill 7 (str_of_int z).

(** [s.split(sep)[0]] for a one-character separator. *)
Fixpoint split_first (sep : ascii) (s : string) : string :=
  match s with
  | EmptyString => EmptyString
  | String c s' =>
      if Ascii.eqb c sep then EmptyString else String c (split_first sep s')
  end.

(** Digits of [int(str)]: decimal digits, single underscores allowed
    between digits only. [seen] tells whether the previous character
    was a digit. *)
Fixpoint parse_digits (acc : Z) (seen : bool) (s : string) : option Z :=
  match s with
  | EmptyString => if seen then Some acc else None
  | String c s' =>
      if isdigit_char c
      then parse_digits (10 * acc + (Z.of_nat (nat_of_ascii c) - 48))%Z true s'
      else if Ascii.eqb c "_" && seen then parse_digits acc false s'
      else None
  end.

(** The whitespace that [int(str)] skips around the number: TAB..CR and
    space. Unlike [str.strip], it does not skip FS..US. *)
Definition isspace_c (c : ascii) : bool :=
  ascii_in 9 13 c || ascii_in 32 32 c.

Fixpoint lstrip_c (s : string) : string :=
  match s with
  | EmptyString => EmptyString
  | String c s' => if isspace_c c then lstrip_c s' else s
  end.

Fixpoint rstrip_c (s : string) : string :=
  match s with
  | EmptyString => EmptyString
  | String c s' =>
      match rstrip_c s' with
      | EmptyString => if isspace_c c then EmptyString else String c EmptyString
      | r => String c r
      end
  end.

(** [int(s)] for a string: surrounding whitespace, optional sign,
    digits; [ValueError] otherwise. *)
Definition int_of_str (s : string) : res Z :=
  let body (neg : bool) (t : string) :=
    match parse_digits 0 false t with
    | Some n => Ok (if neg then (- n)%Z else n)
    | None => Raise ValueError
    end in
  match rstrip_c (lstrip_c s) with
  | String c t =>
      if Ascii.eqb c "-" then body true t
      else if Ascii.eqb c "+" then body false t
      else body false (String c t)
  | EmptyString => Raise ValueError
  end.

(** ** Floats *)

Definition float_isnan (f : spec_float) : bool :=
  match f with S754_nan => true | _ => false end.

(** [int(f)]: truncation towards zero; NaN and infinities raise. *)
Definition int_of_float (f : spec_float) : res Z :=
  match f with
  | S754_nan => Raise ValueError
  | S754_infinity _ => Raise OverflowError
  | S754_zero _ => Ok 0%Z
  | S754_finite s m e =>
      let mag := if (0 <=? e)%Z then (Z.pos m * 2 ^ e)%Z
                 else (Z.pos m / 2 ^ (- e))%Z in
      Ok (if s then (- mag)%Z else mag)
  end.

(** [f == n] for a float and an int (exact, as Python compares). *)
Definition float_eq_int (f : spec_float) (n : Z) : bool :=
  match f with
  | S754_nan | S754_infinity _ => false
  | S754_zero _ => (n =? 0)%Z
  | S754_finite s m e =>
      let sm := if s then Z.neg m else Z.pos m in
      if (0 <=? e)%Z then (n =? sm * 2 ^ e)%Z
      else (n * 2 ^ (- e) =? sm)%Z
  end.

Definition int_of_bool (b : bool) : Z := if b then 1%Z else 0%Z.

(** ** Decoded JSON *)

(** What [json.load] returns. A [JDict] lists its items in insertion
    order, each key once. *)
#[warnings="-register-all"]
Inductive json : Type :=
| JNull
| JBool (b : bool)
| JInt (z : Z)
| JFloat (f : spec_float)
| JStr (s : string)
| JList (l : list json)
| JDict (d : list (string * json)).

(** Text renderings that the program obtains from the Python runtime
    and that are not computed here: [repr] of a float (shortest
    round-trip decimal) and [str] of a list or dict. *)
Class PyRepr : Type := {
  float_repr : spec_float -> string;
  container_repr : json -> string;
}.

End Py.

Export Py.

Notation "'let!' x ':=' m 'in' k" := (Py.bind m (fun x => k))
  (at level 10, x pattern, m at level 100, k at level 200).

(* ===================================================================== *)
(** * Cell values and the table *)
(* ===================================================================== *)

(** Scalars that a cell of the table or an update value can hold. *)
Inductive pyval : Type :=
| VNone
| VBool (b : bool)
| VInt (z : Z)
| VFloat (f : spec_float)
| VStr (s : string).

Module Pandas.

(** [pd.isna(v)] on a scalar. *)
Definition isna (v : pyval) : bool :=
  match v with
  | VNone => true
  | VFloat f => float_isnan f
  | _ => false
  end.

(** [a == b] on Python scalars: numbers compare by value across [bool],
    [int] and [float]; NaN equals nothing; a string only equals the same
    string; [None] only equals [None]. *)
Definition py_eq (a b : pyval) : bool :=
  match a, b with
  | VNone, VNone => true
  | VStr s, VStr t => String.eqb s t
  | VBool x, VBool y => (int_of_bool x =? int_of_bool y)%Z
  | VBool x, VInt y => (int_of_bool x =? y)%Z
  | VInt x, VBool y => (x =? int_of_bool y)%Z
  | VInt x, VInt y => (x =? y)%Z
  | VBool x, VFloat g => float_eq_int g (int_of_bool x)
  | VFloat f, VBool y => float_eq_int f (int_of_bool y)
  | VInt x, VFloat g => float_eq_int g x
  | VFloat f, VInt y => float_eq_int f y
  | VFloat f, VFloat g => SFeqb f g
  | _, _ => false
  end.

(** [a != b] *)
Definition py_ne (a b : pyval) : bool := negb (py_eq a b).

(** The dtype of a column, as far as [.at] depends on it.
    - [object_] holds any Python object and hands it back as it is.
    - [str_] is pandas' string dtype: it holds strings and missing
      values and refuses everything else.
    - [numpy] is a NumPy column ([int64], [float64], [bool]), whose
      cells read as NumPy scalars. What it stores when a Python value is
      assigned, or the exception it refuses the value with ([assign]),
      and how one of its scalars compares with a Python value ([ne]),
      are the column's own.
    A column keeps its dtype: a value that does not fit is refused, as
    pandas 3 does, and not answered by a change of the column's dtype. *)
Inductive dtype : Type :=
| object_
| str_
| numpy (assign : pyval -> res pyval) (ne : pyval -> pyval -> res bool).

(** What a column of dtype [d] holds once [v] is assigned to one of its
    cells, or the exception of the assignment. *)
Definition setitem (d : dtype) (v : pyval) : res pyval :=
  match d with
  | object_ => Ok v
  | str_ =>
      match v with
      | VStr _ => Ok v
      | VNone => Ok (VFloat S754_nan)
      | VFloat f => if float_isnan f then Ok v else Raise TypeError
      | _ => Raise TypeError
      end
  | numpy assign _ => assign v
  end.

(** [current != value], for [current] read from a column of dtype [d]:
    Python's comparison unless the cell is a NumPy scalar. *)
Definition scalar_ne (d : dtype) (current value : pyval) : res bool :=
  match d with
  | numpy _ ne => ne current value
  | _ => Ok (py_ne current value)
  end.

(** A DataFrame: row labels (each once), column labels, the dtypes of
    the columns (a column without an entry is an object column), and
    the cells. A cell that was never written reads as NaN. *)
Record DataFrame : Type := {
  df_index : list Z;
  df_columns : list string;
  df_dtypes : gmap string dtype;
  df_cells : gmap (Z * string) pyval;
}.

Definition dtype_of (df : DataFrame) (col : string) : dtype :=
  default object_ (df_dtypes df !! col).

Definition has_row (df : DataFrame) (idx : Z) : bool :=
  bool_decide (idx ∈ df_index df).
Definition has_column (df : DataFrame) (col : string) : bool :=
  bool_decide (col ∈ df_columns df).

Definition cell (df : DataFrame) (idx : Z) (col : string) : pyval :=
  default (VFloat S754_nan) (df_cells df !! (idx, col)).

(** [df.at[idx, col]] read: [KeyError] on an unknown label. *)
Definition at_get (df : DataFrame) (idx : Z) (col : string) : res pyval :=
  if has_row df idx && has_column df col
  then Ok (cell df idx col)
  else Raise KeyError.

(** [df.at[idx, col] = v]. On a cell of the frame the column decides:
    the cell then holds what the column stores for [v], or the
    assignment raises and the frame is as it was. An unknown label
    enlarges the frame; the program assigns only to cells it has just
    read, and the dtypes of an enlarged frame are not modelled. *)
Definition at_set (df : DataFrame) (idx : Z) (col : string) (v : pyval)
  : res DataFrame :=
  if has_row df idx && has_column df col then
    match setitem (dtype_of df col) v with
    | Ok stored =>
        Ok {| df_index := df_index df; df_columns := df_columns df;
              df_dtypes := df_dtypes df;
              df_cells := <[(idx, col) := stored]> (df_cells df) |}
    | Raise e => Raise e
    end
  else
    Ok {| df_index := if has_row df idx then df_index df
                      else df_index df ++ [idx];
          df_columns := if has_column df col then df_columns df
                        else df_columns df ++ [col];
          df_dtypes := df_dtypes df;
          df_cells := <[(idx, col) := v]> (df_cells df) |}.

(** [set(df.columns)] *)
Definition column_set (df : DataFrame) : gset string :=
  list_to_set (df_columns df).

(** [len(df)] *)
Definition len (df : DataFrame) : Z := Z.of_nat (length (df_index df)).

End Pandas.

Export Pandas.

(** [str(v)] on a scalar. *)
Definition py_str `{PyRepr} (v : pyval) : string :=
  match v with
  | VNone => "None"
  | VBool true => "True"
  | VBool false => "False"
  | VInt z => str_of_int z
  | VFloat f => float_repr f
  | VStr s => s
  end.

(* ===================================================================== *)
(** * freshin_ingest_v27.65.py *)
(* ===================================================================== *)

Module Ingest.

Definition EMPTY_VALUES : list string :=
  [""; "None"; "none"; "nan"; "NaN"; "NULL"; "null"; "N/A"; "n/a"; "<NA>"].

Definition is_empty (val : pyval) : bool :=
  if isna val then true
  else match val with
       | VStr s => bool_decide (strip s ∈ EMPTY_VALUES)
       | _ => false
       end.

Definition normalize_imdb_id `{PyRepr} (val : pyval) : option string :=
  if is_empty val then None
  else
    let s := strip (py_str val) in
    if isdigit s then Some ("tt" +:+ zfill 7 s)
    else if startswith s "tt" then Some s
    else None.

(** The entries of [self.stats] that loading and saving write. *)
Record Stats : Type := {
  bfd_rows_start : Z;
  bfd_cols : Z;
  bfd_rows_end : Z;
}.

(** [FreshInIngestionEngine] once [load_bfd] has run. *)
Record Engine : Type := {
  stats : Stats;
  bfd : DataFrame;
  bfd_columns : gset string;
}.

Definition set_bfd (df : DataFrame) (self : Engine) : Engine :=
  {| stats := stats self; bfd := df; bfd_columns := bfd_columns self |}.

(** [load_bfd], with the frame read from [BFD_INPUT] as argument. *)
Definition load_bfd (df : DataFrame) : Engine :=
  {| stats := {| bfd_rows_start := len df;
                 bfd_cols := Z.of_nat (length (df_columns df));
                 bfd_rows_end := 0 |};
     bfd := df;
     bfd_columns := column_set df |}.

(** [self.bfd.at[idx, column] = value] *)
Definition write_cell (idx : Z) (column : string) (value : pyval)
  : M Engine unit :=
  let! self := get in
  let! df := lift (at_set (bfd self) idx column value) in
  modify (set_bfd df).

(** [_update_value]. The write of MERGE is outside any [try]; in
    OVERWRITE the test and the write are inside the [try], and the
    [except (TypeError, ValueError)] arm writes (again) and lets what
    that write raises through. *)
Definition _update_value (idx : Z) (column : string) (value : pyval)
    (mode : string) : M Engine bool :=
  let! self := get in
  if negb (bool_decide (column ∈ bfd_columns self)) then ret false
  else if is_empty value then ret false
  else
    let! current := lift (at_get (bfd self) idx column) in
    if String.eqb mode "MERGE" then
      if is_empty current then
        let! _ := write_cell idx column value in
        ret true
      else ret false
    else if String.eqb mode "OVERWRITE" then
      try_except
        (let! differs :=
           if isna current then ret true
           else lift (scalar_ne (dtype_of (bfd self) column) current value) in
         if differs then
           let! _ := write_cell idx column value in
           ret true
         else ret false)
        (fun e =>
           if is_type_or_value_error e then
             let! _ := write_cell idx column value in
             ret true
           else raise e)
    else ret false.

(** Persistent storage written by [save]. *)
Record Disk : Type := {
  bfd_output : option DataFrame;      (* BFD_OUTPUT *)
  report : option Stats;              (* REPORT_PATH, its statistics *)
}.

(** [save]: returns the [bool] of the source, the engine and the disk. *)
Definition save (self : Engine) (disk : Disk) : bool * Engine * Disk :=
  let self := {| stats := {| bfd_rows_start := bfd_rows_start (stats self);
                             bfd_cols := bfd_cols (stats self);
                             bfd_rows_end := len (bfd self) |};
                 bfd := bfd self;
                 bfd_columns := bfd_columns self |} in
  let final_columns := column_set (bfd self) in
  let new_columns := final_columns ∖ bfd_columns self in
  if negb (bool_decide (new_columns = ∅)) then (false, self, disk)
  else (true, self,
        {| bfd_output := Some (bfd self); report := Some (stats self) |}).

End Ingest.

(* ===================================================================== *)
(** * freshin_meta_merger_v27.72.py *)
(* ===================================================================== *)

Module MetaMerger.

Definition EMPTY_VALUES : list string :=
  [""; "None"; "none"; "nan"; "NaN"; "NULL"; "null"; "N/A"; "n/a"; "<NA>";
   "undefined"].

Definition is_empty (val : pyval) : bool :=
  if isna val then true
  else match val with
       | VStr s => bool_decide (strip s ∈ EMPTY_VALUES)
       | _ => false
       end.

Definition normalize_imdb_id `{PyRepr} (val : pyval) : option string :=
  if is_empty val then None
  else
    let s := strip (py_str val) in
    if isdigit s then Some ("tt" +:+ zfill 7 s)
    else if startswith s "tt" then Some s
    else None.

(** [ColumnMapper]: the two tables [to_canonical] reads. *)
Record ColumnMapper : Type := {
  translation_map : gmap string string;
  canonical_columns : gset string;
}.

Definition to_canonical (self : ColumnMapper) (column_name : string)
  : string :=
  if String.eqb column_name "" then column_name
  else
    let col_lower := strip (lower column_name) in
    match translation_map self !! col_lower with
    | Some c => c
    | None =>
        if bool_decide (col_lower ∈ canonical_columns self) then col_lower
        else match translation_map self !! column_name with
             | Some c => c
             | None => column_name
             end
    end.

(** An entry of [stats['errors']]. *)
Inductive merge_error : Type :=
| UnauthorizedColumns (new_columns : gset string).

Record Stats : Type := {
  bfd_rows : Z;
  bfd_cols : Z;
  errors : list merge_error;
}.

(** [MetadataMerger] once [load_database] has run. *)
Record Engine : Type := {
  mapper : ColumnMapper;
  stats : Stats;
  bfd : DataFrame;
  bfd_columns : gset string;
}.

Definition set_bfd (df : DataFrame) (self : Engine) : Engine :=
  {| mapper := mapper self; stats := stats self; bfd := df;
     bfd_columns := bfd_columns self |}.

(** [load_database], with the frame read from [BFD_META_PATH] as
    argument. *)
Definition load_database (m : ColumnMapper) (df : DataFrame) : Engine :=
  {| mapper := m;
     stats := {| bfd_rows := len df;
                 bfd_cols := Z.of_nat (length (df_columns df));
                 errors := [] |};
     bfd := df;
     bfd_columns := column_set df |}.

(** [self.bfd.at[idx, canonical_col] = value] *)
Definition write_cell (idx : Z) (canonical_col : string) (value : pyval)
  : M Engine unit :=
  let! self := get in
  let! df := lift (at_set (bfd self) idx canonical_col value) in
  modify (set_bfd df).

(** [_update_value]; see [Ingest._update_value] for the [except] arm. *)
Definition _update_value (idx : Z) (column : string) (value : pyval)
    (mode : string) : M Engine bool :=
  let! self := get in
  let canonical_col := to_canonical (mapper self) column in
  if negb (bool_decide (canonical_col ∈ bfd_columns self)) then ret false
  else if is_empty value then ret false
  else
    let! current := lift (at_get (bfd self) idx canonical_col) in
    if String.eqb mode "MERGE" then
      if is_empty current then
        let! _ := write_cell idx canonical_col value in
        ret true
      else ret false
    else if String.eqb mode "OVERWRITE" then
      try_except
        (let! differs :=
           if isna current then ret true
           else lift (scalar_ne (dtype_of (bfd self) canonical_col)
                        current value) in
         if differs then
           let! _ := write_cell idx canonical_col value in
           ret true
         else ret false)
        (fun e =>
           if is_type_or_value_error e then
             let! _ := write_cell idx canonical_col value in
             ret true
           else raise e)
    else ret false.

(** Persistent storage written by [save_database]: [BFD_META_PATH]. *)
Record Disk : Type := {
  bfd_meta : option DataFrame;
}.

Definition save_database (self : Engine) (disk : Disk)
  : bool * Engine * Disk :=
  let final_columns := column_set (bfd self) in
  let new_columns := final_columns ∖ bfd_columns self in
  if negb (bool_decide (new_columns = ∅)) then
    (false,
     {| mapper := mapper self;
        stats := {| bfd_rows := bfd_rows (stats self);
                    bfd_cols := bfd_cols (stats self);
                    errors := errors (stats self)
                              ++ [UnauthorizedColumns new_columns] |};
        bfd := bfd self;
        bfd_columns := bfd_columns self |},
     disk)
  else (true, self, {| bfd_meta := Some (bfd self) |}).

End MetaMerger.

(* ===================================================================== *)
(** * vdb_freshin_engine.py *)
(* ===================================================================== *)

Module VDB.

(** ** Python operations on decoded JSON *)

(** [bool(j)] *)
Definition truthy (j : json) : bool :=
  match j with
  | JNull => false
  | JBool b => b
  | JInt z => negb (z =? 0)%Z
  | JFloat (S754_zero _) => false
  | JFloat _ => true
  | JStr s => negb (String.eqb s "")
  | JList l => match l with [] => false | _ => true end
  | JDict d => match d with [] => false | _ => true end
  end.

(** Lookup of a key in an insertion-ordered table. *)
Fixpoint assoc {A} (k : string) (d : list (string * A)) : option A :=
  match d with
  | [] => None
  | (k', v) :: d' => if String.eqb k k' then Some v else assoc k d'
  end.

(** [j.get(k, dflt)]: only a dict has [get]. *)
Definition json_get (j : json) (k : string) (dflt : json) : res json :=
  match j with
  | JDict d => Ok (default dflt (assoc k d))
  | _ => Raise AttributeError
  end.

(** [len(j)] *)
Definition py_len (j : json) : res Z :=
  match j with
  | JList l => Ok (Z.of_nat (length l))
  | JDict d => Ok (Z.of_nat (length d))
  | JStr s => Ok (Z.of_nat (String.length s))
  | _ => Raise TypeError
  end.

Fixpoint chars (s : string) : list json :=
  match s with
  | EmptyString => []
  | String c s' => JStr (String c EmptyString) :: chars s'
  end.

(** The items [for x in j] visits. *)
Definition py_iter (j : json) : res (list json) :=
  match j with
  | JList l => Ok l
  | JDict d => Ok (map (fun kv => JStr (fst kv)) d)
  | JStr s => Ok (chars s)
  | _ => Raise TypeError
  end.

(** [str(j)] *)
Definition str_json `{PyRepr} (j : json) : string :=
  match j with
  | JNull => "None"
  | JBool true => "True"
  | JBool false => "False"
  | JInt z => str_of_int z
  | JFloat f => float_repr f
  | JStr s => s
  | JList _ | JDict _ => container_repr j
  end.

(** [DatabaseWriters.convert_imdb_id]: the result is [None] or a
    string. *)
Definition convert_imdb_id `{PyRepr} (numeric_id : json)
  : res (option string) :=
  match numeric_id with
  | JNull => Ok None
  | JStr s =>
      if startswith s "tt" then Ok (Some s)
      else match int_of_str s with
           | Ok n => Ok (Some ("tt" +:+ format_07d n))
           | Raise _ => Ok (Some s)
           end
  | JBool b => Ok (Some ("tt" +:+ format_07d (int_of_bool b)))
  | JInt n => Ok (Some ("tt" +:+ format_07d n))
  | JFloat f =>
      match int_of_float f with
      | Ok n => Ok (Some ("tt" +:+ format_07d n))
      | Raise e => Raise e
      end
  | JList _ | JDict _ => Ok (Some (str_json numeric_id))
  end.

(** ** Data types and structures *)

Inductive DataType : Type :=
| TITLE_METADATA | VIEWERSHIP_DATA | PLATFORM_AVAILABILITY
| PLATFORM_CHANGES | FLIXPATROL_TITLES | SOCIAL_SIGNALS | FINANCIAL_DATA
| NEWS_EVENTS | TRENDING_DATA | UNKNOWN.

#[global] Instance DataType_eq_dec : EqDecision DataType.
Proof. solve_decision. Defined.

(** [dt.value] *)
Definition value (dt : DataType) : string :=
  match dt with
  | TITLE_METADATA => "title_metadata"
  | VIEWERSHIP_DATA => "viewership_data"
  | PLATFORM_AVAILABILITY => "platform_avail"
  | PLATFORM_CHANGES => "platform_changes"
  | FLIXPATROL_TITLES => "flixpatrol_titles"
  | SOCIAL_SIGNALS => "social_signals"
  | FINANCIAL_DATA => "financial_data"
  | NEWS_EVENTS => "news_events"
  | TRENDING_DATA => "trending_data"
  | UNKNOWN => "unknown"
  end.

(** The floats [1.0] and [0.5]. *)
Definition float_1_0 : spec_float := S754_finite false 4503599627370496 (-52).
Definition float_0_5 : spec_float := S754_finite false 4503599627370496 (-53).

Record RoutingDecision : Type := {
  source_file : string;
  data_type : DataType;
  target_db : string;
  action : string;
  records_count : Z;
  key_field : string;
  confidence : spec_float;
  reason : string;
  skip_reason : string;
  sample_records : list json;
}.

Record MergeResult : Type := {
  target : string;
  mr_action : string;
  total_records : Z;
  new_records : Z;
  updated_records : Z;
  skipped_records : Z;
  mr_key_field : string;
  sample_keys : list string;
  fields_updated : list string;
  mr_reason : string;
}.

(** An entry of [stats.skip_details]. *)
Record SkipDetail : Type := {
  sd_source : string;
  sd_type : string;
  sd_count : Z;
  sd_reason : string;
}.

(** [ProcessingStats]. An entry [(name, e)] of [errors] stands for the
    string [f"{name}: {e}"]. *)
Record ProcessingStats : Type := {
  files_processed : Z;
  records_routed : Z;
  bfd_updates : Z;
  bfd_new : Z;
  star_schema_updates : Z;
  views_training_appends : Z;
  abstract_data_appends : Z;
  components_updates : Z;
  platform_changes_processed : Z;
  flixpatrol_titles_processed : Z;
  skipped : Z;
  errors : list (string * exn);
  skip_details : list SkipDetail;
  merge_results : list MergeResult;
}.

(** [ProcessingStats()] *)
Definition new_stats : ProcessingStats :=
  Build_ProcessingStats 0 0 0 0 0 0 0 0 0 0 0 [] [] [].

(** [a.field += b.field] for every counter, [a.list.append/extend] for
    every list: each update of the statistics below is [a] plus a record
    that is zero and empty outside the fields the source line names. *)
Definition stats_add (a b : ProcessingStats) : ProcessingStats :=
  {| files_processed := files_processed a + files_processed b;
     records_routed := records_routed a + records_routed b;
     bfd_updates := bfd_updates a + bfd_updates b;
     bfd_new := bfd_new a + bfd_new b;
     star_schema_updates := star_schema_updates a + star_schema_updates b;
     views_training_appends :=
       views_training_appends a + views_training_appends b;
     abstract_data_appends :=
       abstract_data_appends a + abstract_data_appends b;
     components_updates := components_updates a + components_updates b;
     platform_changes_processed :=
       platform_changes_processed a + platform_changes_processed b;
     flixpatrol_titles_processed :=
       flixpatrol_titles_processed a + flixpatrol_titles_processed b;
     skipped := skipped a + skipped b;
     errors := errors a ++ errors b;
     skip_details := skip_details a ++ skip_details b;
     merge_results := merge_results a ++ merge_results b |}%Z.

(** Updates of the statistics, as records to add with [stats_add]. *)
Definition d_skipped (n : Z) (d : SkipDetail) : ProcessingStats :=
  Build_ProcessingStats 0 0 0 0 0 0 0 0 0 0 n [] [d] [].
Definition d_routed (n : Z) : ProcessingStats :=
  Build_ProcessingStats 0 n 0 0 0 0 0 0 0 0 0 [] [] [].
Definition d_bfd (r : MergeResult) : ProcessingStats :=
  Build_ProcessingStats 0 0 (total_records r) (new_records r)
    0 0 0 0 0 0 0 [] [] [r].
Definition d_views (r : MergeResult) : ProcessingStats :=
  Build_ProcessingStats 0 0 0 0 0 (total_records r) 0 0 0 0 0 [] [] [r].
Definition d_abstract (r : MergeResult) : ProcessingStats :=
  Build_ProcessingStats 0 0 0 0 0 0 (total_records r) 0 0 0 0 [] [] [r].
Definition d_components (r : MergeResult) : ProcessingStats :=
  Build_ProcessingStats 0 0 0 0 0 0 0 1 0 0 0 [] [] [r].
Definition d_platform (r : MergeResult) : ProcessingStats :=
  Build_ProcessingStats 0 0 0 0 0 0 0 0 (new_records r) 0 0 [] [] [r].
Definition d_flixpatrol (r : MergeResult) : ProcessingStats :=
  Build_ProcessingStats 0 (total_records r) (total_records r)
    (new_records r) 0 0 0 0 0 (total_records r) 0 [] [] [r].
Definition d_file : ProcessingStats :=
  Build_ProcessingStats 1 0 0 0 0 0 0 0 0 0 0 [] [] [].
Definition d_error (nm : string) (e : exn) : ProcessingStats :=
  Build_ProcessingStats 0 0 0 0 0 0 0 0 0 0 0 [(nm, e)] [] [].

(** ** DataTypeDetector *)

Definition SOURCE_MAPPING : list (string * list (string * DataType)) :=
  [ ("tmdb",
     [ ("trending_movies_week", TRENDING_DATA);
       ("trending_tv_week", TRENDING_DATA);
       ("popular_movies", TITLE_METADATA);
       ("popular_tv", TITLE_METADATA);
       ("top_rated_movies", TITLE_METADATA);
       ("top_rated_tv", TITLE_METADATA);
       ("upcoming_movies", TITLE_METADATA);
       ("now_playing_movies", TITLE_METADATA);
       ("on_the_air_tv", TITLE_METADATA);
       ("airing_today_tv", TITLE_METADATA);
       ("movie_genres", TITLE_METADATA);
       ("tv_genres", TITLE_METADATA) ]);
    ("flixpatrol",
     [ ("titles", FLIXPATROL_TITLES);
       ("default", FLIXPATROL_TITLES);
       ("rankings", VIEWERSHIP_DATA);
       ("points", VIEWERSHIP_DATA);
       ("top10", VIEWERSHIP_DATA) ]);
    ("streaming_availability",
     [ ("countries", PLATFORM_AVAILABILITY);
       ("genres", TITLE_METADATA);
       ("shows", PLATFORM_AVAILABILITY);
       ("new_shows", PLATFORM_CHANGES) ]);
    ("twitter_trends",
     [ ("places", SOCIAL_SIGNALS); ("trends", SOCIAL_SIGNALS) ]);
    ("seeking_alpha",
     [ ("default", FINANCIAL_DATA); ("company_search", FINANCIAL_DATA) ]);
    ("reuters",
     [ ("default", NEWS_EVENTS); ("news_technology", NEWS_EVENTS);
       ("news_media", NEWS_EVENTS); ("news_business", NEWS_EVENTS) ]);
    ("disney_plus",
     [ ("default", PLATFORM_AVAILABILITY);
       ("titles", PLATFORM_AVAILABILITY);
       ("random_title", PLATFORM_AVAILABILITY) ]);
    ("imdb",
     [ ("default", TITLE_METADATA); ("genres", TITLE_METADATA) ]) ].

Definition _get_skip_reason (source data_type : string) : string :=
  "unknown_data_type".

Definition _detect_from_content (data : list (string * json)) : DataType :=
  let keys := map (fun kv => lower (fst kv)) data in
  let meets (ws : list string) : bool :=
    existsb (fun k => bool_decide (k ∈ ws)) keys in
  if meets ["views"; "hours_viewed"; "points"; "ranking"; "watch_time"]
  then VIEWERSHIP_DATA
  else if meets ["imdb_id"; "tmdb_id"; "title"; "premiere"; "genres"]
  then TITLE_METADATA
  else if meets ["services"; "streaming"; "platform"; "availability";
                 "countrycode"]
  then PLATFORM_AVAILABILITY
  else if meets ["changes"; "shows"] && bool_decide ("changes" ∈ keys)
  then PLATFORM_CHANGES
  else if meets ["trending"; "trends"; "hashtags"; "mentions"; "sentiment"]
  then SOCIAL_SIGNALS
  else if meets ["revenue"; "subscribers"; "stock"; "market_cap";
                 "earnings"]
  then FINANCIAL_DATA
  else UNKNOWN.

(** [data_type in type_map] together with [type_map[data_type]]: a
    list or dict cannot be hashed; a number or [None] is no key. *)
Definition type_lookup (data_type : json)
    (type_map : list (string * DataType)) : res (option DataType) :=
  match data_type with
  | JStr s => Ok (assoc s type_map)
  | JList _ | JDict _ => Raise TypeError
  | _ => Ok None
  end.

(** [DataTypeDetector.detect]. [data] is the payload when it is a dict
    and [None] otherwise, as the only caller passes it. *)
Definition detect (source : json) (data_type : json)
    (data : option (list (string * json))) : res (DataType * string) :=
  match source with
  | JStr src =>
      let source_lower := lower src in
      let from_content : res (DataType * string) :=
        match data with
        | Some (kv :: d) =>
            let dt := _detect_from_content (kv :: d) in
            if bool_decide (dt = UNKNOWN) then Ok (dt, "unknown_data_type")
            else Ok (dt, "")
        | _ => Ok (UNKNOWN, "unknown_source")
        end in
      match assoc source_lower SOURCE_MAPPING with
      | Some type_map =>
          let by_default : res (DataType * string) :=
            match assoc "default" type_map with
            | Some dt => Ok (dt, "")
            | None => from_content
            end in
          if truthy data_type then
            match type_lookup data_type type_map with
            | Raise e => Raise e
            | Ok (Some dt) =>
                if bool_decide (dt = UNKNOWN)
                then Ok (dt, _get_skip_reason source_lower
                               (match data_type with JStr t => t | _ => "" end))
                else Ok (dt, "")
            | Ok None => by_default
            end
          else by_default
      | None => from_content
      end
  | _ => Raise AttributeError
  end.

(** ** RoutingEngine *)

(** [ROUTING_TABLE]: target, action, key. *)
Definition ROUTING_TABLE (dt : DataType) : string * string * option string :=
  match dt with
  | TITLE_METADATA => ("BFD", "merge", Some "tmdb_id")
  | VIEWERSHIP_DATA => ("VIEWS_TRAINING", "append", Some "imdb_id")
  | PLATFORM_AVAILABILITY => ("COMPONENTS", "update", Some "country")
  | PLATFORM_CHANGES => ("PLATFORM_MASTER", "update", Some "imdb_id")
  | FLIXPATROL_TITLES => ("BFD", "merge", Some "imdb_id")
  | SOCIAL_SIGNALS => ("ABSTRACT_DATA", "append", Some "date")
  | FINANCIAL_DATA => ("ABSTRACT_DATA", "append", Some "date")
  | NEWS_EVENTS => ("ABSTRACT_DATA", "append", Some "date")
  | TRENDING_DATA => ("BFD", "update", Some "tmdb_id")
  | UNKNOWN => ("SKIP", "skip", None)
  end.

Definition route (data_type : DataType) (source_file : string)
    (records_count : Z) (skip_reason : string) : RoutingDecision :=
  let '(tgt, act, key) := ROUTING_TABLE data_type in
  {| source_file := source_file;
     data_type := data_type;
     target_db := tgt;
     action := act;
     records_count := records_count;
     key_field := default "" key;
     confidence := if bool_decide (data_type <> UNKNOWN) then float_1_0
                   else float_0_5;
     reason := "Routed " +:+ value data_type +:+ " to " +:+ tgt;
     skip_reason := skip_reason;
     sample_records := [] |}.

Definition with_reason (r : string) (d : RoutingDecision) : RoutingDecision :=
  {| source_file := source_file d; data_type := data_type d;
     target_db := target_db d; action := action d;
     records_count := records_count d; key_field := key_field d;
     confidence := confidence d; reason := r;
     skip_reason := skip_reason d; sample_records := sample_records d |}.

(** ** DatabaseWriters *)

(** The writers act on storage of type [W] (files under [Paths], the
    clock behind [datetime.now()]); what they compute from the records
    is left to the instance. Each method takes [self.dry_run] first.
    [read_parquet] stands for [len(self.read_parquet(path))], the only
    use the engine makes of the frame. *)
Class DatabaseWriters (W : Type) : Type := {
  read_parquet : string -> M W Z;
  merge_to_bfd : bool -> list json -> string -> M W MergeResult;
  merge_flixpatrol_to_bfd : bool -> list json -> M W MergeResult;
  update_platform_availability : bool -> json -> M W MergeResult;
  append_to_views_training : bool -> list json -> string -> M W MergeResult;
  append_to_abstract_data : bool -> list json -> string -> M W MergeResult;
  update_streaming_lookup : bool -> json -> string -> M W MergeResult;
}.

(** ** Files and persisted state *)

(** A file of [Paths.FRESH_IN]: its name, its modification time, and
    what [json.load] gives on it. *)
Record File : Type := {
  name : string;
  st_mtime : Z;
  json_load : res json;
}.

(** [Paths.ENGINE_STATE] on disk. *)
Inductive StateFile : Type :=
| Absent
| Unreadable
| Stored (processed : list string) (last_run : string).

(** [filepath.suffix] and [filepath.stem] *)
Fixpoint rfind_dot (i : nat) (s : string) : option nat :=
  match s with
  | EmptyString => None
  | String c s' =>
      match rfind_dot (S i) s' with
      | Some j => Some j
      | None => if Ascii.eqb c "." then Some i else None
      end
  end.

Definition suffix (nm : string) : string :=
  match rfind_dot 0 nm with
  | Some i =>
      if (0 <? i)%nat && (i <? String.length nm - 1)%nat
      then String.substring i (String.length nm - i) nm
      else ""
  | None => ""
  end.

Definition stem (nm : string) : string :=
  match rfind_dot 0 nm with
  | Some i =>
      if (0 <? i)%nat && (i <? String.length nm - 1)%nat
      then String.substring 0 i nm
      else nm
  | None => nm
  end.

(** The glob patterns of [discover_fresh_files], each [prefix*suffix]. *)
Definition patterns : list (string * string) :=
  [ ("fresh_data_", ".json"); ("tmdb_", ".json"); ("flixpatrol_", ".json");
    ("streaming_availability_", ".json"); ("twitter_trends_", ".json");
    ("seeking_alpha_", ".json"); ("reuters_", ".json");
    ("disney_plus_", ".json"); ("imdb_", ".json");
    ("cranberry_fresh_", ".parquet") ].

(** [fnmatch] of a name against [prefix*suffix], case-sensitive. *)
Definition glob_match (pat : string * string) (nm : string) : bool :=
  startswith nm (fst pat) && endswith nm (snd pat)
  && (String.length (fst pat) + String.length (snd pat)
      <=? String.length nm)%nat.

(** [list(Paths.FRESH_IN.glob(pattern))], in directory order. *)
Definition glob (dir : list File) (pat : string * string) : list File :=
  List.filter (fun f => glob_match pat (name f)) dir.

(** [files.sort(key=mtime, reverse=True)]: stable, newest first. *)
Fixpoint insert_by_mtime (f : File) (l : list File) : list File :=
  match l with
  | [] => [f]
  | g :: l' =>
      if (st_mtime g <? st_mtime f)%Z then f :: g :: l'
      else g :: insert_by_mtime f l'
  end.

Definition sort_by_mtime (l : list File) : list File :=
  fold_left (fun acc f => insert_by_mtime f acc) l [].

(** ** VDBFreshInEngine *)

(** The engine object, together with the storage it reaches: [world]
    is what the writers act on, [state_file] is [Paths.ENGINE_STATE].
    [writers_ready] tells whether [self.writers] is no longer [None]. *)
Record Engine (W : Type) : Type := {
  dry_run : bool;
  stats : ProcessingStats;
  writers_ready : bool;
  processed_files : gset string;
  discovered_files : list File;
  all_decisions : list RoutingDecision;
  world : W;
  state_file : StateFile;
}.
Arguments dry_run {W} _.
Arguments stats {W} _.
Arguments writers_ready {W} _.
Arguments processed_files {W} _.
Arguments discovered_files {W} _.
Arguments all_decisions {W} _.
Arguments world {W} _.
Arguments state_file {W} _.

Section Engine.
Context `{PyRepr} {W : Type} `{DatabaseWriters W}.

(** [_load_state] *)
Definition _load_state (sf : StateFile) : gset string :=
  match sf with
  | Stored processed _ => list_to_set processed
  | _ => ∅
  end.

(** [VDBFreshInEngine(dry_run)] started on the given storage. *)
Definition new_engine (dry : bool) (w : W) (sf : StateFile) : Engine W :=
  {| dry_run := dry; stats := new_stats; writers_ready := false;
     processed_files := _load_state sf; discovered_files := [];
     all_decisions := []; world := w; state_file := sf |}.

Definition set_stats (f : ProcessingStats -> ProcessingStats)
    (self : Engine W) : Engine W :=
  {| dry_run := dry_run self; stats := f (stats self);
     writers_ready := writers_ready self;
     processed_files := processed_files self;
     discovered_files := discovered_files self;
     all_decisions := all_decisions self; world := world self;
     state_file := state_file self |}.

Definition set_world (w : W) (self : Engine W) : Engine W :=
  {| dry_run := dry_run self; stats := stats self;
     writers_ready := writers_ready self;
     processed_files := processed_files self;
     discovered_files := discovered_files self;
     all_decisions := all_decisions self; world := w;
     state_file := state_file self |}.

Definition add_stats (d : ProcessingStats) : M (Engine W) unit :=
  modify (set_stats (fun st => stats_add st d)).

(** [if self.writers is None: self.writers = DatabaseWriters(...)] *)
Definition ensure_writers : M (Engine W) unit :=
  modify (fun self =>
    {| dry_run := dry_run self; stats := stats self;
       writers_ready := true;
       processed_files := processed_files self;
       discovered_files := discovered_files self;
       all_decisions := all_decisions self; world := world self;
       state_file := state_file self |}).

(** A call [self.writers.method(...)]. *)
Definition call_writer {A} (m : bool -> M W A) : M (Engine W) A :=
  fun self =>
    let '(r, w) := m (dry_run self) (world self) in (r, set_world w self).

(** [_normalize_to_records] on a list. *)
Definition records_of_list (l : list json) : list json :=
  flat_map (fun item =>
    match item with
    | JDict d =>
        match assoc "data" d with
        | Some (JDict inner) => [JDict inner]
        | _ => [item]
        end
    | _ => []
    end) l.

(** [_normalize_to_records]; the recursive calls are on lists. *)
Definition _normalize_to_records (data : json) : list json :=
  match data with
  | JList l => records_of_list l
  | JDict d =>
      match assoc "data" d with
      | Some (JList l) => records_of_list l
      | _ =>
          match assoc "results" d with
          | Some (JList l) => records_of_list l
          | _ => [data]
          end
      end
  | _ => []
  end.

(** [_handle_platform_changes]. The progress line formats
    [len(changes)] and [len(shows)], which may raise. *)
Definition _handle_platform_changes (data : json) : M (Engine W) unit :=
  match data with
  | JDict d =>
      let changes := default (JList []) (assoc "changes" d) in
      let shows := default (JDict []) (assoc "shows" d) in
      if negb (truthy changes) then ret tt
      else
        let! _ := lift (py_len changes) in
        let! _ := lift (py_len shows) in
        let! result :=
          call_writer (fun dry => update_platform_availability dry data) in
        let! _ := add_stats (d_platform result) in
        let! n := lift (py_len changes) in
        add_stats (d_routed n)
  | _ => ret tt
  end.

(** [_handle_flixpatrol_titles] *)
Definition _handle_flixpatrol_titles (data : json) : M (Engine W) unit :=
  let records : list json :=
    match data with
    | JDict d =>
        match assoc "data" d with
        | Some (JList l) => l
        | Some (JDict inner) => [JDict inner]
        | Some _ => []
        | None => [data]
        end
    | JList l => l
    | _ => []
    end in
  match records with
  | [] => ret tt
  | _ =>
      let! result :=
        call_writer (fun dry => merge_flixpatrol_to_bfd dry records) in
      add_stats (d_flixpatrol result)
  end.

(** [_execute_decision] *)
Definition _execute_decision (decision : RoutingDecision) (data : json)
  : M (Engine W) unit :=
  if String.eqb (action decision) "skip" then
    add_stats (d_skipped (records_count decision)
                 {| sd_source := source_file decision;
                    sd_type := value (data_type decision);
                    sd_count := records_count decision;
                    sd_reason := skip_reason decision |})
  else
    let! _ := ensure_writers in
    if bool_decide (data_type decision = PLATFORM_CHANGES)
    then _handle_platform_changes data
    else if bool_decide (data_type decision = FLIXPATROL_TITLES)
    then _handle_flixpatrol_titles data
    else
      let records := _normalize_to_records data in
      let! _ :=
        if String.eqb (target_db decision) "BFD" then
          let! result :=
            call_writer (fun dry =>
              merge_to_bfd dry records (key_field decision)) in
          add_stats (d_bfd result)
        else if String.eqb (target_db decision) "VIEWS_TRAINING" then
          let source := split_first "_" (source_file decision) in
          let! result :=
            call_writer (fun dry =>
              append_to_views_training dry records source) in
          add_stats (d_views result)
        else if String.eqb (target_db decision) "ABSTRACT_DATA" then
          let signal_type := value (data_type decision) in
          let! result :=
            call_writer (fun dry =>
              append_to_abstract_data dry records signal_type) in
          add_stats (d_abstract result)
        else if String.eqb (target_db decision) "COMPONENTS" then
          match data with
          | JDict d =>
              for_each d (fun item =>
                let '(country, country_data) := item in
                match country_data with
                | JDict _ =>
                    if negb (bool_decide (country ∈ ["type"; "source"]))
                    then
                      let! result :=
                        call_writer (fun dry =>
                          update_streaming_lookup dry country_data
                            country) in
                      add_stats (d_components result)
                    else ret tt
                | _ => ret tt
                end)
          | _ => ret tt
          end
        else ret tt in
      add_stats (d_routed (records_count decision)).

(** The record count [_route_batch] computes first. *)
Definition batch_count (data : json) : res Z :=
  match data with
  | JList l => Ok (Z.of_nat (length l))
  | JDict d =>
      match assoc "data" d with
      | Some (JList inner) => Ok (Z.of_nat (length inner))
      | Some _ => Ok 1%Z
      | None =>
          match assoc "changes" d with
          | Some changes => py_len changes
          | None => Ok 1%Z
          end
      end
  | _ => Ok 1%Z
  end.

(** [_route_batch] *)
Definition _route_batch (source batch_type data : json)
    (filename : string) : M (Engine W) RoutingDecision :=
  let! count := lift (batch_count data) in
  let! detected :=
    lift (detect source batch_type
            (match data with JDict d => Some d | _ => None end)) in
  let '(data_type, skip_reason) := detected in
  let decision := route data_type filename count skip_reason in
  let decision :=
    with_reason (str_json source +:+ "/" +:+ str_json batch_type
                 +:+ " -> " +:+ target_db decision) decision in
  let! _ := _execute_decision decision data in
  ret decision.

(** The loop [for batch in ...: decisions.append(self._route_batch(...))]
    of [_process_json]; [default_source] is the second argument of
    [batch.get('source', ...)]. *)
Fixpoint route_batches (default_source : json) (filename : string)
    (batches : list json) : M (Engine W) (list RoutingDecision) :=
  match batches with
  | [] => ret []
  | batch :: rest =>
      let! source := lift (json_get batch "source" default_source) in
      let! batch_type := lift (json_get batch "type" (JStr "default")) in
      let! batch_data := lift (json_get batch "data" batch) in
      let! decision := _route_batch source batch_type batch_data filename in
      let! decisions := route_batches default_source filename rest in
      ret (decision :: decisions)
  end.

(** [_process_json] *)
Definition _process_json (filepath : File)
  : M (Engine W) (list RoutingDecision) :=
  let! data := lift (json_load filepath) in
  match data with
  | JList l => route_batches (JStr "unknown") (name filepath) l
  | JDict d =>
      match assoc "results" d with
      | Some results =>
          let! items := lift (py_iter results) in
          route_batches
            (JStr (split_first "_" (stem (name filepath))))
            (name filepath) items
      | None =>
          let source := split_first "_" (stem (name filepath)) in
          let! decision :=
            _route_batch (JStr source) (JStr "default") data
              (name filepath) in
          ret [decision]
      end
  | _ => ret []
  end.

(** [_process_parquet] *)
Definition _process_parquet (filepath : File)
  : M (Engine W) (list RoutingDecision) :=
  let! _ := ensure_writers in
  let! rows := call_writer (fun _ => read_parquet (name filepath)) in
  let '(data_type, skip_reason) :=
    if contains "cranberry_fresh" (name filepath)
    then (TITLE_METADATA, "")
    else (UNKNOWN, "unknown_data_type") in
  let decision := route data_type (name filepath) rows skip_reason in
  let! _ := _execute_decision decision (JList []) in
  ret [decision].

(** The body of the [try] of [process_file] up to the marking. *)
Definition process_body (filepath : File)
  : M (Engine W) (list RoutingDecision) :=
  if String.eqb (suffix (name filepath)) ".json"
  then _process_json filepath
  else if String.eqb (suffix (name filepath)) ".parquet"
  then _process_parquet filepath
  else ret [].

(** [self.processed_files.add(filepath.name)] *)
Definition mark_processed (nm : string) (self : Engine W) : Engine W :=
  {| dry_run := dry_run self; stats := stats self;
     writers_ready := writers_ready self;
     processed_files := {[ nm ]} ∪ processed_files self;
     discovered_files := discovered_files self;
     all_decisions := all_decisions self; world := world self;
     state_file := state_file self |}.

(** [process_file] *)
Definition process_file (filepath : File)
  : M (Engine W) (list RoutingDecision) :=
  try_except
    (let! decisions := process_body filepath in
     let! _ := modify (mark_processed (name filepath)) in
     let! _ := add_stats d_file in
     ret decisions)
    (fun e =>
     let! _ := add_stats (d_error (name filepath) e) in
     ret []).

(** [discover_fresh_files], on the listing [dir] of [Paths.FRESH_IN]. *)
Definition discover_fresh_files (date_filter : option string)
    (dir : list File) : M (Engine W) (list File) :=
  let! self := get in
  let files := flat_map (glob dir) patterns in
  let files :=
    match date_filter with
    | Some d =>
        if negb (String.eqb d "")
        then List.filter (fun f => contains d (name f)) files
        else files
    | None => files
    end in
  let files :=
    List.filter
      (fun f => negb (bool_decide (name f ∈ processed_files self)))
      files in
  let files := sort_by_mtime files in
  let! _ := modify (fun self =>
    {| dry_run := dry_run self; stats := stats self;
       writers_ready := writers_ready self;
       processed_files := processed_files self;
       discovered_files := files;
       all_decisions := all_decisions self; world := world self;
       state_file := state_file self |}) in
  ret files.

(** [_save_state]: [now] is [datetime.now().isoformat()];
    [writable] tells whether the state file can be written (an
    [OSError] is swallowed). *)
Definition _save_state (now : string) (writable : bool)
  : M (Engine W) unit :=
  modify (fun self =>
    {| dry_run := dry_run self; stats := stats self;
       writers_ready := writers_ready self;
       processed_files := processed_files self;
       discovered_files := discovered_files self;
       all_decisions := all_decisions self; world := world self;
       state_file :=
         if writable then Stored (elements (processed_files self)) now
         else state_file self |}).

(** [self.all_decisions.extend(decisions)] *)
Definition extend_decisions (ds : list RoutingDecision)
    (self : Engine W) : Engine W :=
  {| dry_run := dry_run self; stats := stats self;
     writers_ready := writers_ready self;
     processed_files := processed_files self;
     discovered_files := discovered_files self;
     all_decisions := all_decisions self ++ ds; world := world self;
     state_file := state_file self |}.

(** The loop [for filepath in files] of [run]. *)
Definition process_files (files : list File) : M (Engine W) unit :=
  for_each files (fun filepath =>
    let! decisions := process_file filepath in
    modify (extend_decisions decisions)).

(** [run], up to the audit report (built from the final state and
    not modelled). [today] is [datetime.now().strftime('%Y%m%d')]. *)
Definition run (today now : string) (writable : bool)
    (date_filter : option string) (process_all : bool)
    (dir : list File) : M (Engine W) unit :=
  let date_filter :=
    match date_filter with
    | None => if negb process_all then Some today else None
    | Some d => Some d
    end in
  let! files :=
    discover_fresh_files (if negb process_all then date_filter else None)
      dir in
  match files with
  | [] => ret tt
  | _ =>
      let! _ := process_files files in
      _save_state now writable
  end.

(** ** Notions used in the statements of the second half *)

(** The files that pass the name patterns, the date filter and the
    processed-file filter of [discover_fresh_files], before sorting. *)
Definition fresh_candidates (date_filter : option string)
    (processed : gset string) (dir : list File) : list File :=
  let files := flat_map (glob dir) patterns in
  let files :=
    match date_filter with
    | Some d =>
        if negb (String.eqb d "")
        then List.filter (fun f => contains d (name f)) files
        else files
    | None => files
    end in
  List.filter (fun f => negb (bool_decide (name f ∈ processed))) files.

(** The decision [_route_batch] builds for a batch of an unknown source
    with an empty payload. *)
Definition unknown_source_decision (source : string) (batch_type : json)
    (filename : string) : RoutingDecision :=
  {| source_file := filename; data_type := UNKNOWN; target_db := "SKIP";
     action := "skip"; records_count := 1; key_field := "";
     confidence := float_0_5;
     reason := source +:+ "/" +:+ str_json batch_type +:+ " -> " +:+ "SKIP";
     skip_reason := "unknown_source"; sample_records := [] |}.

(** [m] changes neither the processed-file set nor the error list. *)
Definition keeps_marks {A} (m : M (Engine W) A) : Prop :=
  ∀ self, processed_files (snd (m self)) = processed_files self
          ∧ errors (stats (snd (m self))) = errors (stats self).

End Engine.

(** ** A concrete runtime for closed examples *)

(** Floats and containers are rendered as fixed tags. *)
Definition tag_repr : PyRepr :=
  {| float_repr := fun _ => "<float>";
     container_repr := fun _ => "<object>" |}.

(** Writers whose storage is unavailable: every call raises. *)
Definition offline_writers : DatabaseWriters unit :=
  {| read_parquet := fun _ => raise OSError;
     merge_to_bfd := fun _ _ _ => raise OSError;
     merge_flixpatrol_to_bfd := fun _ _ => raise OSError;
     update_platform_availability := fun _ _ => raise OSError;
     append_to_views_training := fun _ _ _ => raise OSError;
     append_to_abstract_data := fun _ _ _ => raise OSError;
     update_streaming_lookup := fun _ _ _ => raise OSError |}.

End VDB.

(* ===================================================================== *)
(** * Sequences of cell updates *)
(* ===================================================================== *)

(** The arguments of one call of [_update_value]. *)
Record Update : Type := {
  u_idx : Z;
  u_column : string;
  u_value : pyval;
  u_mode : string;
}.

(** Successive calls [self._update_value(...)], as the [process_*] and
    [merge_*] loops make them: an exception ends the sequence. *)
Definition ingest_updates (us : list Update) : M Ingest.Engine unit :=
  for_each us (fun u =>
    let! _ := Ingest._update_value (u_idx u) (u_column u) (u_value u)
                (u_mode u) in
    ret tt).

Definition merger_updates (us : list Update) : M MetaMerger.Engine unit :=
  for_each us (fun u =>
    let! _ := MetaMerger._update_value (u_idx u) (u_column u) (u_value u)
                (u_mode u) in
    ret tt).

(** Whether [_update_value] assigns, given the mode, the dtype of the
    column, the current cell and the (non-empty) new value: the policy
    tests of the source. In OVERWRITE a comparison that raises
    [TypeError] or [ValueError] leads to the assignment as well, and any
    other exception of the comparison leaves the call. *)
Definition policy_writes (is_empty : pyval → bool) (mode : string)
    (d : dtype) (current value : pyval) : res bool :=
  if String.eqb mode "MERGE" then Ok (is_empty current)
  else if String.eqb mode "OVERWRITE" then
    if isna current then Ok true
    else match scalar_ne d current value with
         | Ok differs => Ok differs
         | Raise e => if is_type_or_value_error e then Ok true else Raise e
         end
  else Ok false.

(** The table with one cell replaced and its labels and dtypes kept. *)
Definition put_cell (df : DataFrame) (idx : Z) (col : string) (v : pyval)
  : DataFrame :=
  {| df_index := df_index df; df_columns := df_columns df;
     df_dtypes := df_dtypes df;
     df_cells := <[(idx, col) := v]> (df_cells df) |}.



(* ===================================================================== *)
(** * The writers that merge into the BFD *)
(* ===================================================================== *)

(** [DatabaseWriters.merge_to_bfd] and
    [DatabaseWriters.merge_flixpatrol_to_bfd], which compute their
    [MergeResult] from the records alone; [dry_run] is [self.dry_run].
    The other writers depend on the clock and on [Paths] and are left to
    the [DatabaseWriters] instance. *)
Module Writers.
Import VDB.

Definition FLIXPATROL_FIELD_MAP : list (string * string) :=
  [ ("id", "flixpatrol_id"); ("imdbId", "imdb_id"); ("tmdbId", "tmdb_id");
    ("title", "title"); ("premiere", "premiere_date");
    ("description", "overview"); ("length", "runtime_minutes");
    ("budget", "budget"); ("boxOffice", "box_office");
    ("countries", "production_countries"); ("seasons", "max_seasons") ].

(** [r.get(k)]: only a dict has [get]; the default is [None]. *)
Definition get (r : json) (k : string) : res json :=
  json_get r k JNull.

(** [a or b or ...]: the first truthy value, else the last one. *)
Fixpoint first_truthy (vs : list json) : json :=
  match vs with
  | [] => JNull
  | [v] => v
  | v :: vs' => if truthy v then v else first_truthy vs'
  end.

(** The loop [for r in records[:5]] that collects [sample_keys];
    [keys] lists the fields tried in turn. *)
Fixpoint sample_keys_of `{PyRepr} (keys : list string) (rs : list json)
  : res (list string) :=
  match rs with
  | [] => Ok []
  | r :: rs' =>
      match r with
      | JDict d =>
          let key :=
            first_truthy (map (fun k => default JNull (assoc k d)) keys) in
          match sample_keys_of keys rs' with
          | Ok ks => Ok (if truthy key then str_json key :: ks else ks)
          | Raise e => Raise e
          end
      | _ => Raise AttributeError
      end
  end.

(** [merge_to_bfd] *)
Definition merge_to_bfd `{PyRepr} (dry_run : bool) (records : list json)
    (key_field : string) : res MergeResult :=
  let n := Z.of_nat (length records) in
  let result (new updated : Z) (sample : list string) (reason : string) :=
    {| target := "Cranberry_BFD_V18.06.parquet"; mr_action := "merge";
       total_records := n; new_records := new; updated_records := updated;
       skipped_records := 0; mr_key_field := key_field;
       sample_keys := sample;
       fields_updated := ["tmdb_popularity"; "tmdb_score";
                          "tmdb_vote_count"; "title"; "overview"];
       mr_reason := reason |} in
  match records with
  | [] => Ok (result 0 0 [] "No records to merge")%Z
  | _ =>
      match sample_keys_of [key_field; "id"; "tmdb_id"; "imdb_id"]
              (take 5 records) with
      | Raise e => Raise e
      | Ok sample =>
          let new := (n / 3)%Z in
          let updated := (n - new)%Z in
          Ok (result new updated sample
                (if dry_run
                 then "[DRY RUN] Would merge " +:+ str_of_int n
                      +:+ " records (" +:+ str_of_int new +:+ " new, "
                      +:+ str_of_int updated +:+ " updates)"
                 else "Merged " +:+ str_of_int n
                      +:+ " records successfully"))
      end
  end.

(** [src_field in r], for a string [src_field]: key of a dict, substring
    of a string, element of a list; other values are not iterable. *)
Definition field_in (src_field : string) (r : json) : res bool :=
  match r with
  | JDict d => Ok (bool_decide (is_Some (assoc src_field d)))
  | JStr s => Ok (contains src_field s)
  | JList l =>
      Ok (existsb (fun x => match x with
                            | JStr t => String.eqb t src_field
                            | _ => false
                            end) l)
  | _ => Raise TypeError
  end.

(** [r[src_field]], for a string [src_field]: only a dict can be indexed
    by a string. *)
Definition item (r : json) (src_field : string) : res json :=
  match r with
  | JDict d => match assoc src_field d with
               | Some v => Ok v
               | None => Raise KeyError
               end
  | _ => Raise TypeError
  end.

(** [d[k] = v] on an insertion-ordered dict. *)
Fixpoint dict_set (k : string) (v : json) (d : list (string * json))
  : list (string * json) :=
  match d with
  | [] => [(k, v)]
  | (k', v') :: d' =>
      if String.eqb k k' then (k', v) :: d' else (k', v') :: dict_set k v d'
  end.

(** The inner loop of [merge_flixpatrol_to_bfd], from the dict [mapped]
    built so far. *)
Fixpoint map_fields `{PyRepr} (fields : list (string * string)) (r : json)
    (mapped : list (string * json)) : res (list (string * json)) :=
  match fields with
  | [] => Ok mapped
  | (src_field, dst_field) :: fields' =>
      match field_in src_field r with
      | Raise e => Raise e
      | Ok false => map_fields fields' r mapped
      | Ok true =>
          match item r src_field with
          | Raise e => Raise e
          | Ok v =>
              let converted :=
                if String.eqb src_field "imdbId"
                then match convert_imdb_id v with
                     | Ok None => Ok JNull
                     | Ok (Some s) => Ok (JStr s)
                     | Raise e => Raise e
                     end
                else Ok v in
              match converted with
              | Raise e => Raise e
              | Ok v' => map_fields fields' r (dict_set dst_field v' mapped)
              end
          end
      end
  end.

(** The outer loop: the transformed records and the number skipped. *)
Fixpoint transform `{PyRepr} (records : list json)
  : res (list json * Z) :=
  match records with
  | [] => Ok ([], 0%Z)
  | r :: records' =>
      match map_fields FLIXPATROL_FIELD_MAP r [] with
      | Raise e => Raise e
      | Ok mapped =>
          match transform records' with
          | Raise e => Raise e
          | Ok (transformed, skipped) =>
              if truthy (default JNull (assoc "imdb_id" mapped))
                 || truthy (default JNull (assoc "tmdb_id" mapped))
              then Ok (JDict mapped :: transformed, skipped)
              else Ok (transformed, (skipped + 1)%Z)
          end
      end
  end.

(** [merge_flixpatrol_to_bfd] *)
Definition merge_flixpatrol_to_bfd `{PyRepr} (dry_run : bool)
    (records : list json) : res MergeResult :=
  let result (total new updated skipped : Z) (sample : list string)
      (reason : string) :=
    {| target := "Cranberry_BFD_V18.06.parquet"; mr_action := "merge";
       total_records := total; new_records := new;
       updated_records := updated; skipped_records := skipped;
       mr_key_field := "imdb_id"; sample_keys := sample;
       fields_updated := map snd FLIXPATROL_FIELD_MAP;
       mr_reason := reason |} in
  match records with
  | [] =>
      Ok (result 0 0 0 0 [] "No FlixPatrol records to merge")%Z
  | _ =>
      match transform records with
      | Raise e => Raise e
      | Ok (transformed, skipped) =>
          match sample_keys_of ["imdb_id"; "tmdb_id"]
                  (take 5 transformed) with
          | Raise e => Raise e
          | Ok sample =>
              let n := Z.of_nat (length transformed) in
              let new := (n / 2)%Z in
              let updated := (n - new)%Z in
              if dry_run then
                Ok (result (Z.of_nat (length records)) new updated skipped
                      sample
                      ("[DRY RUN] Would merge " +:+ str_of_int n
                       +:+ " FlixPatrol titles (" +:+ str_of_int new
                       +:+ " new, " +:+ str_of_int updated +:+ " updates)"))
              else
                Ok (result n new updated skipped sample
                      ("Merged " +:+ str_of_int n
                       +:+ " FlixPatrol titles successfully"))
          end
      end
  end.

End Writers.

(* ===================================================================== *)
(** * The audit report *)
(* ===================================================================== *)

(** What [AuditReportGenerator.generate] computes from the decisions and
    the statistics of a run. The entries of the report that come from the
    clock ([run_id], [run_date], [run_time], [duration_seconds]) and the
    recommendation texts (float division and [:.1%] formatting) are not
    modelled. *)
Module Audit.
Import VDB.

Definition SKIP_REASONS : list (string * string) :=
  [ ("unknown_source",
     "Source not recognized in routing table. Add to SOURCE_MAPPING if needed.");
    ("unknown_data_type",
     "Data structure doesn't match any known pattern (no title/view/platform fields).");
    ("no_key_field",
     "Record missing required key field (imdb_id, tmdb_id, or fc_uid).");
    ("empty_data", "Data batch was empty or contained no valid records.");
    ("invalid_format", "Data format doesn't match expected schema.");
    ("flixpatrol_list_format",
     "FlixPatrol returns paginated title lists. Need 'rankings' or 'points' endpoint.");
    ("duplicate_record",
     "Record already exists in target database with same key.");
    ("missing_required_fields",
     "Record missing required fields for target schema.") ].

(** [_get_recommendation] *)
Definition _get_recommendation (skip_reason : string) : string :=
  let recommendations :=
    [ ("flixpatrol_list_format",
       "Use FlixPatrol 'rankings' or 'top10' endpoints to get viewership data with points.");
      ("unknown_data_type",
       "Review data structure and add to SOURCE_MAPPING if this is valid data.");
      ("unknown_source",
       "Add source to SOURCE_MAPPING in DataTypeDetector class.");
      ("empty_data",
       "Check API response - may indicate rate limiting or API changes.") ] in
  default "Review data structure and determine appropriate routing."
    (assoc skip_reason recommendations).

(** An entry of [skipped_batches]. *)
Record SkipInfo : Type := {
  si_source_file : string;
  si_data_type : string;
  si_records_count : Z;
  si_skip_reason_code : string;
  si_skip_reason_explanation : string;
  si_recommendation : string;
}.

(** [d[key] = d.get(key, 0) + n] on an insertion-ordered dict. *)
Fixpoint dict_add (key : string) (n : Z) (d : list (string * Z))
  : list (string * Z) :=
  match d with
  | [] => [(key, n)]
  | (k, v) :: d' =>
      if String.eqb key k then (k, (v + n)%Z) :: d'
      else (k, v) :: dict_add key n d'
  end.

(** The first loop of [generate]: [routing_summary] and [total_in]. *)
Definition routing_summary (all_decisions : list RoutingDecision)
  : list (string * Z) :=
  fold_left
    (fun summary d =>
       dict_add (value (data_type d) +:+ " -> " +:+ target_db d)
         (records_count d) summary)
    all_decisions [].

Definition total_in (all_decisions : list RoutingDecision) : Z :=
  fold_left (fun total d => (total + records_count d)%Z) all_decisions 0%Z.

(** The second loop of [generate]. *)
Definition skipped_batches (all_decisions : list RoutingDecision)
  : list SkipInfo :=
  flat_map
    (fun d =>
       if String.eqb (action d) "skip" then
         [ {| si_source_file := source_file d;
              si_data_type := value (data_type d);
              si_records_count := records_count d;
              si_skip_reason_code := skip_reason d;
              si_skip_reason_explanation :=
                default "Unknown reason" (assoc (skip_reason d) SKIP_REASONS);
              si_recommendation := _get_recommendation (skip_reason d) |} ]
       else [])
    all_decisions.

(** The third loop of [generate]: the operations, split by action. *)
Definition successful_merges (merge_results : list MergeResult)
  : list MergeResult :=
  List.filter
    (fun mr => bool_decide (mr_action mr ∈ ["merge"; "update"]))
    merge_results.

Definition successful_appends (merge_results : list MergeResult)
  : list MergeResult :=
  List.filter
    (fun mr => negb (bool_decide (mr_action mr ∈ ["merge"; "update"])))
    merge_results.

End Audit.

(* ===================================================================== *)
(** * Notions used in the statements about whole runs *)
(* ===================================================================== *)

(** What [RoutingEngine.route] and [DataTypeDetector.detect] guarantee of
    a decision made for a file: target, action and key are those of
    [ROUTING_TABLE] for its data type, and it carries a skip reason
    exactly when the data type is [UNKNOWN]. *)
Definition coherent (filename : string) (d : VDB.RoutingDecision) : Prop :=
  VDB.source_file d = filename
  ∧ (VDB.target_db d, VDB.action d, VDB.key_field d)
    = (let '(tgt, act, key) := VDB.ROUTING_TABLE (VDB.data_type d) in
       (tgt, act, default "" key))
  ∧ (if bool_decide (VDB.data_type d = VDB.UNKNOWN)
     then VDB.skip_reason d = "unknown_source"
          ∨ VDB.skip_reason d = "unknown_data_type"
     else VDB.skip_reason d = "").

(** The records of the skipped decisions of a list, and their entries
    in [stats.skip_details]. *)
Definition skip_total (ds : list VDB.RoutingDecision) : Z :=
  foldr (fun d acc =>
           if String.eqb (VDB.action d) "skip"
           then (VDB.records_count d + acc)%Z else acc) 0%Z ds.

Definition skip_rows (ds : list VDB.RoutingDecision) : list VDB.SkipDetail :=
  flat_map (fun d =>
              if String.eqb (VDB.action d) "skip"
              then [ {| VDB.sd_source := VDB.source_file d;
                        VDB.sd_type := VDB.value (VDB.data_type d);
                        VDB.sd_count := VDB.records_count d;
                        VDB.sd_reason := VDB.skip_reason d |} ]
              else []) ds.

(** The part of the engine that batch execution never writes: the
    processed-file set, the state file, the mode, the discovered files,
    the decisions, the file counter and the errors. *)
Definition ledger {W} (self : VDB.Engine W) :=
  (VDB.processed_files self, VDB.state_file self, VDB.dry_run self,
   VDB.discovered_files self, VDB.all_decisions self,
   VDB.files_processed (VDB.stats self), VDB.errors (VDB.stats self)).

(** The skip counter and the skip details. *)
Definition skip_ledger {W} (self : VDB.Engine W) : Z * list VDB.SkipDetail :=
  (VDB.skipped (VDB.stats self), VDB.skip_details (VDB.stats self)).

(** [m] changes neither of the two. *)
Definition steady {W A} (m : M (VDB.Engine W) A) : Prop :=
  ∀ self, ledger (snd (m self)) = ledger self
          ∧ skip_ledger (snd (m self)) = skip_ledger self.

(** [m] makes decisions for the file [filename]: it keeps the ledger,
    and when it returns, its decisions are [coherent] and the skip
    counter and details have grown by exactly the skipped ones. *)
Definition accounted {W} (filename : string)
    (m : M (VDB.Engine W) (list VDB.RoutingDecision)) : Prop :=
  ∀ self,
    ledger (snd (m self)) = ledger self
    ∧ ∀ ds, fst (m self) = Ok ds →
        Forall (coherent filename) ds
        ∧ skip_ledger (snd (m self))
          = ((VDB.skipped (VDB.stats self) + skip_total ds)%Z,
             (VDB.skip_details (VDB.stats self) ++ skip_rows ds)%list).

(* ===================================================================== *)
(** * Example data *)
(* ===================================================================== *)

(** A two-row table: row 0 has a title, row 1 has the sentinel ["N/A"]
    as title; no premiere date is set. The identifiers and the titles
    are string columns, the premiere dates an object column. *)
Definition example_frame : DataFrame :=
  {| df_index := [0; 1]%Z;
     df_columns := ["imdb_id"; "title"; "premiere_date"];
     df_dtypes := {[ "imdb_id" := str_; "title" := str_ ]};
     df_cells :=
       <[(0%Z, "imdb_id") := VStr "tt0076759"]>
         (<[(0%Z, "title") := VStr "Y"]>
            (<[(1%Z, "title") := VStr "N/A"]> ∅)) |}.

Definition example_ingest : Ingest.Engine := Ingest.load_bfd example_frame.

(** A mapper that knows ["release_date"] as an alias of
    ["premiere_date"]. *)
Definition example_mapper : MetaMerger.ColumnMapper :=
  {| MetaMerger.translation_map := {[ "release_date" := "premiere_date" ]};
     MetaMerger.canonical_columns := {[ "title"; "premiere_date" ]} |}.

Definition example_merger : MetaMerger.Engine :=
  MetaMerger.load_database example_mapper example_frame.

(** An engine whose table lost the column ["title"] after loading. *)
Definition shrunk_frame : DataFrame :=
  {| df_index := [0; 1]%Z;
     df_columns := ["imdb_id"; "premiere_date"];
     df_dtypes := {[ "imdb_id" := str_ ]};
     df_cells := {[ (0%Z, "imdb_id") := VStr "tt0076759" ]} |}.

Definition shrunk_ingest : Ingest.Engine :=
  Ingest.set_bfd shrunk_frame example_ingest.

Definition shrunk_merger : MetaMerger.Engine :=
  MetaMerger.set_bfd shrunk_frame example_merger.

(** An engine whose table gained the column ["extra"] after loading. *)
Definition grown_frame : DataFrame :=
  {| df_index := df_index example_frame;
     df_columns := df_columns example_frame ++ ["extra"];
     df_dtypes := df_dtypes example_frame;
     df_cells := <[(0%Z, "extra") := VInt 1]> (df_cells example_frame) |}.

Definition grown_ingest : Ingest.Engine :=
  Ingest.set_bfd grown_frame example_ingest.

Definition grown_merger : MetaMerger.Engine :=
  MetaMerger.set_bfd grown_frame example_merger.

Definition empty_ingest_disk : Ingest.Disk :=
  {| Ingest.bfd_output := None; Ingest.report := None |}.

Definition empty_merger_disk : MetaMerger.Disk :=
  {| MetaMerger.bfd_meta := None |}.

(** A file with the one batch [{source: "unknown_api", type: "x",
    data: {}}]. *)
Definition skipped_batch : json :=
  JDict [("source", JStr "unknown_api"); ("type", JStr "x");
         ("data", JDict [])].

Definition example_file : VDB.File :=
  {| VDB.name := "fresh_data_20260115.json"; VDB.st_mtime := 100;
     VDB.json_load := Ok (JList [skipped_batch]) |}.

(** A file that parses, whose first batch is skipped and whose second
    batch has the number 5 where the source name should be. *)
Definition failing_file : VDB.File :=
  {| VDB.name := "tmdb_20260115.json"; VDB.st_mtime := 200;
     VDB.json_load :=
       Ok (JList [skipped_batch;
                  JDict [("source", JInt 5); ("type", JStr "x");
                         ("data", JDict [])]]) |}.





(** A first engine, on an empty state file and offline writers, and
    the engine after its run over a directory holding both files. *)
Definition fresh_engine : VDB.Engine unit :=
  @VDB.new_engine unit false tt VDB.Absent.

Definition first_run_engine : VDB.Engine unit :=
  snd (@VDB.run VDB.tag_repr unit VDB.offline_writers
         "20260115" "2026-01-15T11:00:00" true None false
         [example_file; failing_file] fresh_engine).

(** The engine of the next day's run, started on the state file the
    first run left. *)
Definition second_run_engine : VDB.Engine unit :=
  @VDB.new_engine unit false tt (VDB.state_file first_run_engine).

(* ===================================================================== *)
(** * Properties of the table and of the cell update *)
(* ===================================================================== *)

Section TableFacts.

Implicit Types (df : DataFrame) (idx : Z) (col : string) (v : pyval).

Lemma cell_put_cell_same df idx col v : cell (put_cell df idx col v) idx col = v.
Proof. unfold cell, put_cell; simpl. by rewrite lookup_insert_eq. Qed.

Lemma cell_put_cell_other df idx col v (i : Z) (c : string) :
  (i, c) ≠ (idx, col) → cell (put_cell df idx col v) i c = cell df i c.
Proof.
  intros Hne. unfold cell, put_cell; simpl. by rewrite lookup_insert_ne.
Qed.

(** Assigning to a cell of the frame: the column stores its rendering of
    the value in that cell, or refuses the value. *)
Lemma at_set_put_cell df idx col v :
  has_row df idx = true → has_column df col = true →
  at_set df idx col v
  = match setitem (dtype_of df col) v with
    | Ok stored => Ok (put_cell df idx col stored)
    | Raise e => Raise e
    end.
Proof. intros Hr Hc. unfold at_set, put_cell. by rewrite Hr, Hc. Qed.

Lemma at_get_ok df idx col v :
  at_get df idx col = Ok v →
  has_row df idx = true ∧ has_column df col = true ∧ v = cell df idx col.
Proof.
  unfold at_get. destruct (has_row df idx), (has_column df col); simpl;
    intros Heq; inversion Heq; auto.
Qed.



Lemma setitem_str_refuses v :
  isna v = false → (∀ s : string, v ≠ VStr s) →
  setitem str_ v = Raise TypeError.
Proof.
  destruct v as [|b|z|f|s]; simpl; try done.
  - by intros ->.
  - intros _ Hs. by destruct (Hs s).
Qed.

(** Object and string columns hold Python scalars, which compare as
    Python compares them. *)
Lemma scalar_ne_python (d : dtype) (current value : pyval) :
  d = object_ ∨ d = str_ → scalar_ne d current value = Ok (py_ne current value).
Proof. by intros [->| ->]. Qed.

End TableFacts.

Ltac unfold_update :=
  unfold Ingest._update_value, MetaMerger._update_value,
    Ingest.write_cell, MetaMerger.write_cell,
    try_except, bind, get, ret, lift, modify, raise; simpl.




Lemma ingest_not_empty_not_na (v : pyval) :
  Ingest.is_empty v = false → isna v = false.
Proof. unfold Ingest.is_empty. by destruct (isna v). Qed.

Lemma merger_not_empty_not_na (v : pyval) :
  MetaMerger.is_empty v = false → isna v = false.
Proof. unfold MetaMerger.is_empty. by destruct (isna v). Qed.

(** ** The cell update in one formula *)

(** [_update_value]: the two guards, the read, the policy test, the
    assignment. An assignment that the [except] arm of OVERWRITE repeats
    is refused again, with the same exception. *)
Lemma ingest_update_formula (self : Ingest.Engine) (idx : Z)
    (column : string) (value : pyval) (mode : string) :
  Ingest._update_value idx column value mode self =
    if negb (bool_decide (column ∈ Ingest.bfd_columns self))
       || Ingest.is_empty value
    then (Ok false, self)
    else if negb (has_row (Ingest.bfd self) idx
                  && has_column (Ingest.bfd self) column)
    then (Raise KeyError, self)
    else match policy_writes Ingest.is_empty mode
                 (dtype_of (Ingest.bfd self) column)
                 (cell (Ingest.bfd self) idx column) value with
         | Raise e => (Raise e, self)
         | Ok false => (Ok false, self)
         | Ok true =>
             match setitem (dtype_of (Ingest.bfd self) column) value with
             | Ok stored =>
                 (Ok true,
                  Ingest.set_bfd
                    (put_cell (Ingest.bfd self) idx column stored) self)
             | Raise e => (Raise e, self)
             end
         end.
Proof.
  unfold_update. unfold policy_writes.
  destruct (bool_decide (column ∈ Ingest.bfd_columns self)); simpl; [|done].
  destruct (Ingest.is_empty value); simpl; [done|].
  unfold at_get.
  destruct (has_row (Ingest.bfd self) idx) eqn:Hr; simpl; [|done].
  destruct (has_column (Ingest.bfd self) column) eqn:Hc; simpl; [|done].
  pose proof (at_set_put_cell _ _ _ value Hr Hc) as Hset.
  destruct (String.eqb mode "MERGE").
  { destruct (Ingest.is_empty _); [|done]. rewrite Hset.
    by destruct (setitem _ value). }
  destruct (String.eqb mode "OVERWRITE"); [|done].
  destruct (isna _); simpl.
  { rewrite !Hset. destruct (setitem _ value) as [stored|e]; simpl; [done|].
    destruct (is_type_or_value_error e); [|done]. by rewrite Hset. }
  destruct (scalar_ne _ _ value) as [[]|e]; simpl.
  - rewrite !Hset. destruct (setitem _ value) as [stored|e]; simpl; [done|].
    destruct (is_type_or_value_error e); [|done]. by rewrite Hset.
  - done.
  - destruct (is_type_or_value_error e); [|done]. rewrite Hset.
    by destruct (setitem _ value).
Qed.

Lemma merger_update_formula (self : MetaMerger.Engine) (idx : Z)
    (column : string) (value : pyval) (mode : string) :
  let col := MetaMerger.to_canonical (MetaMerger.mapper self) column in
  MetaMerger._update_value idx column value mode self =
    if negb (bool_decide (col ∈ MetaMerger.bfd_columns self))
       || MetaMerger.is_empty value
    then (Ok false, self)
    else if negb (has_row (MetaMerger.bfd self) idx
                  && has_column (MetaMerger.bfd self) col)
    then (Raise KeyError, self)
    else match policy_writes MetaMerger.is_empty mode
                 (dtype_of (MetaMerger.bfd self) col)
                 (cell (MetaMerger.bfd self) idx col) value with
         | Raise e => (Raise e, self)
         | Ok false => (Ok false, self)
         | Ok true =>
             match setitem (dtype_of (MetaMerger.bfd self) col) value with
             | Ok stored =>
                 (Ok true,
                  MetaMerger.set_bfd
                    (put_cell (MetaMerger.bfd self) idx col stored) self)
             | Raise e => (Raise e, self)
             end
         end.
Proof.
  intros col. unfold_update. fold col. unfold policy_writes.
  destruct (bool_decide (col ∈ MetaMerger.bfd_columns self)); simpl; [|done].
  destruct (MetaMerger.is_empty value); simpl; [done|].
  unfold at_get.
  destruct (has_row (MetaMerger.bfd self) idx) eqn:Hr; simpl; [|done].
  destruct (has_column (MetaMerger.bfd self) col) eqn:Hc; simpl; [|done].
  pose proof (at_set_put_cell _ _ _ value Hr Hc) as Hset.
  destruct (String.eqb mode "MERGE").
  { destruct (MetaMerger.is_empty _); [|done]. rewrite Hset.
    by destruct (setitem _ value). }
  destruct (String.eqb mode "OVERWRITE"); [|done].
  destruct (isna _); simpl.
  { rewrite !Hset. destruct (setitem _ value) as [stored|e]; simpl; [done|].
    destruct (is_type_or_value_error e); [|done]. by rewrite Hset. }
  destruct (scalar_ne _ _ value) as [[]|e]; simpl.
  - rewrite !Hset. destruct (setitem _ value) as [stored|e]; simpl; [done|].
    destruct (is_type_or_value_error e); [|done]. by rewrite Hset.
  - done.
  - destruct (is_type_or_value_error e); [|done]. rewrite Hset.
    by destruct (setitem _ value).
Qed.








(** ** Guards: unknown column, empty value *)

Lemma ingest_guard (self : Ingest.Engine) (idx : Z) (column : string)
    (value : pyval) (mode : string) :
  column ∉ Ingest.bfd_columns self ∨ Ingest.is_empty value = true →
  Ingest._update_value idx column value mode self = (Ok false, self).
Proof.
  intros Hg. unfold_update.
  destruct (bool_decide (column ∈ Ingest.bfd_columns self)) eqn:Hc; simpl;
    [|done].
  destruct Hg as [Hn|He]; [|by rewrite He].
  apply bool_decide_eq_true in Hc. contradiction.
Qed.

Lemma merger_guard (self : MetaMerger.Engine) (idx : Z) (column : string)
    (value : pyval) (mode : string) :
  MetaMerger.to_canonical (MetaMerger.mapper self) column
    ∉ MetaMerger.bfd_columns self
  ∨ MetaMerger.is_empty value = true →
  MetaMerger._update_value idx column value mode self = (Ok false, self).
Proof.
  intros Hg. unfold_update.
  destruct (bool_decide (_ ∈ MetaMerger.bfd_columns self)) eqn:Hc; simpl;
    [|done].
  destruct Hg as [Hn|He]; [|by rewrite He].
  apply bool_decide_eq_true in Hc. contradiction.
Qed.

(** ** Frame *)

Lemma ingest_frame (self : Ingest.Engine) (idx : Z) (column : string)
    (value : pyval) (mode : string) :
  let self' := snd (Ingest._update_value idx column value mode self) in
  Ingest.bfd_columns self' = Ingest.bfd_columns self
  ∧ Ingest.stats self' = Ingest.stats self
  ∧ df_index (Ingest.bfd self') = df_index (Ingest.bfd self)
  ∧ df_columns (Ingest.bfd self') = df_columns (Ingest.bfd self)
  ∧ ∀ (i : Z) (c : string), (i, c) ≠ (idx, column) →
      df_cells (Ingest.bfd self') !! (i, c)
      = df_cells (Ingest.bfd self) !! (i, c).
Proof.
  cbv zeta. rewrite ingest_update_formula.
  destruct (_ || Ingest.is_empty value); [done|].
  destruct (negb _); [done|].
  destruct (policy_writes _ _ _ _ _) as [[]|e]; [|done|done].
  destruct (setitem _ value) as [stored|e]; [|done]. simpl.
  do 4 (split; [done|]). intros i c Hne. by rewrite lookup_insert_ne.
Qed.

Lemma merger_frame (self : MetaMerger.Engine) (idx : Z) (column : string)
    (value : pyval) (mode : string) :
  let col := MetaMerger.to_canonical (MetaMerger.mapper self) column in
  let self' := snd (MetaMerger._update_value idx column value mode self) in
  MetaMerger.bfd_columns self' = MetaMerger.bfd_columns self
  ∧ MetaMerger.stats self' = MetaMerger.stats self
  ∧ MetaMerger.mapper self' = MetaMerger.mapper self
  ∧ df_index (MetaMerger.bfd self') = df_index (MetaMerger.bfd self)
  ∧ df_columns (MetaMerger.bfd self') = df_columns (MetaMerger.bfd self)
  ∧ ∀ (i : Z) (c : string), (i, c) ≠ (idx, col) →
      df_cells (MetaMerger.bfd self') !! (i, c)
      = df_cells (MetaMerger.bfd self) !! (i, c).
Proof.
  intros col. cbv zeta. rewrite merger_update_formula. cbv zeta. fold col.
  destruct (_ || MetaMerger.is_empty value); [done|].
  destruct (negb _); [done|].
  destruct (policy_writes _ _ _ _ _) as [[]|e]; [|done|done].
  destruct (setitem _ value) as [stored|e]; [|done]. simpl.
  do 5 (split; [done|]). intros i c Hne. by rewrite lookup_insert_ne.
Qed.

(** No call changes the dtype of a column. *)
Lemma ingest_keeps_dtypes (self : Ingest.Engine) (idx : Z) (column : string)
    (value : pyval) (mode : string) :
  df_dtypes (Ingest.bfd (snd (Ingest._update_value idx column value mode
                                self)))
  = df_dtypes (Ingest.bfd self).
Proof.
  rewrite ingest_update_formula.
  destruct (_ || Ingest.is_empty value); [done|].
  destruct (negb _); [done|].
  destruct (policy_writes _ _ _ _ _) as [[]|e]; [|done|done].
  by destruct (setitem _ value).
Qed.

Lemma merger_keeps_dtypes (self : MetaMerger.Engine) (idx : Z)
    (column : string) (value : pyval) (mode : string) :
  df_dtypes (MetaMerger.bfd (snd (MetaMerger._update_value idx column value
                                    mode self)))
  = df_dtypes (MetaMerger.bfd self).
Proof.
  rewrite merger_update_formula. cbv zeta.
  destruct (_ || MetaMerger.is_empty value); [done|].
  destruct (negb _); [done|].
  destruct (policy_writes _ _ _ _ _) as [[]|e]; [|done|done].
  by destruct (setitem _ value).
Qed.

(** ** The schema invariant of a loaded engine *)

(** Loading captures exactly the columns of the table, and no cell
    update changes that: the hypothesis [bfd_columns ⊆ column_set bfd]
    of the theorems below holds in every state reached from a load by
    cell updates. *)
Lemma ingest_schema_invariant (df : DataFrame) :
  Ingest.bfd_columns (Ingest.load_bfd df)
  = column_set (Ingest.bfd (Ingest.load_bfd df))
  ∧ ∀ (self : Ingest.Engine) (idx : Z) (column : string) (value : pyval)
      (mode : string),
      Ingest.bfd_columns self = column_set (Ingest.bfd self) →
      let self' := snd (Ingest._update_value idx column value mode self) in
      Ingest.bfd_columns self' = column_set (Ingest.bfd self').
Proof.
  split; [reflexivity|]. intros self idx column value mode Hinv self'.
  destruct (ingest_frame self idx column value mode) as (Hc & _ & _ & Hcs & _).
  fold self' in Hc, Hcs. unfold column_set in *. by rewrite Hc, Hcs.
Qed.

Lemma merger_schema_invariant (m : MetaMerger.ColumnMapper) (df : DataFrame) :
  MetaMerger.bfd_columns (MetaMerger.load_database m df)
  = column_set (MetaMerger.bfd (MetaMerger.load_database m df))
  ∧ ∀ (self : MetaMerger.Engine) (idx : Z) (column : string) (value : pyval)
      (mode : string),
      MetaMerger.bfd_columns self = column_set (MetaMerger.bfd self) →
      let self' := snd (MetaMerger._update_value idx column value mode self) in
      MetaMerger.bfd_columns self' = column_set (MetaMerger.bfd self').
Proof.
  split; [reflexivity|]. intros self idx column value mode Hinv self'.
  destruct (merger_frame self idx column value mode)
    as (Hc & _ & _ & _ & Hcs & _).
  fold self' in Hc, Hcs. unfold column_set in *. by rewrite Hc, Hcs.
Qed.

(* ===================================================================== *)
(** * Claims about the cell update *)
(* ===================================================================== *)



(** C4. A column outside the column set captured at load (in the merger:
    the canonical name of the given column), or an empty new value, makes
    [_update_value] return false without raising, for every row index and
    every mode, and leaves the engine unchanged: no cell is written and
    no column is added. Stated for both implementations. *)
Theorem C4_guards_are_no_ops :
  (∀ (self : Ingest.Engine) (idx : Z) (column : string) (value : pyval)
     (mode : string),
     column ∉ Ingest.bfd_columns self ∨ Ingest.is_empty value = true →
     Ingest._update_value idx column value mode self = (Ok false, self))
  ∧
  (∀ (self : MetaMerger.Engine) (idx : Z) (column : string) (value : pyval)
     (mode : string),
     MetaMerger.to_canonical (MetaMerger.mapper self) column
       ∉ MetaMerger.bfd_columns self
     ∨ MetaMerger.is_empty value = true →
     MetaMerger._update_value idx column value mode self = (Ok false, self)).
Proof. split; [apply ingest_guard | apply merger_guard]. Qed.

(** C10. Frame of the cell update: every call of [_update_value], in any
    mode and with any outcome (true, false or an exception), leaves the
    captured column set, the statistics, the row labels and the column
    labels of the table as they were, and leaves every cell other than
    the addressed one (given row, canonical name of the given column) as
    it was. Stated for both implementations. *)
Theorem C10_update_touches_one_cell :
  (∀ (self : Ingest.Engine) (idx : Z) (column : string) (value : pyval)
     (mode : string),
     let self' := snd (Ingest._update_value idx column value mode self) in
     Ingest.bfd_columns self' = Ingest.bfd_columns self
     ∧ Ingest.stats self' = Ingest.stats self
     ∧ df_index (Ingest.bfd self') = df_index (Ingest.bfd self)
     ∧ df_columns (Ingest.bfd self') = df_columns (Ingest.bfd self)
     ∧ ∀ (i : Z) (c : string), (i, c) ≠ (idx, column) →
         df_cells (Ingest.bfd self') !! (i, c)
         = df_cells (Ingest.bfd self) !! (i, c))
  ∧
  (∀ (self : MetaMerger.Engine) (idx : Z) (column : string) (value : pyval)
     (mode : string),
     let col := MetaMerger.to_canonical (MetaMerger.mapper self) column in
     let self' := snd (MetaMerger._update_value idx column value mode self) in
     MetaMerger.bfd_columns self' = MetaMerger.bfd_columns self
     ∧ MetaMerger.stats self' = MetaMerger.stats self
     ∧ MetaMerger.mapper self' = MetaMerger.mapper self
     ∧ df_index (MetaMerger.bfd self') = df_index (MetaMerger.bfd self)
     ∧ df_columns (MetaMerger.bfd self') = df_columns (MetaMerger.bfd self)
     ∧ ∀ (i : Z) (c : string), (i, c) ≠ (idx, col) →
         df_cells (MetaMerger.bfd self') !! (i, c)
         = df_cells (MetaMerger.bfd self) !! (i, c)).
Proof. split; [apply ingest_frame | apply merger_frame]. Qed.

Ltac by_compute := refine (bool_decide_unpack _ _); vm_compute; exact I.





(** C4 at the example table: the column ["budget"] is not in the table,
    and ["N/A"] is an empty value. *)
Lemma C4_witness :
  (Ingest._update_value 0 "budget" (VInt 5) "OVERWRITE" example_ingest
   = (Ok false, example_ingest)
   ∧ Ingest._update_value 7 "title" (VStr "N/A") "MERGE" example_ingest
     = (Ok false, example_ingest))
  ∧
  (MetaMerger._update_value 0 "budget" (VInt 5) "OVERWRITE" example_merger
   = (Ok false, example_merger)
   ∧ MetaMerger._update_value 7 "title" (VStr "undefined") "MERGE"
       example_merger
     = (Ok false, example_merger)).
Proof.
  destruct C4_guards_are_no_ops as [HI HM].
  split; split.
  - apply HI. left. by_compute.
  - apply HI. right. reflexivity.
  - apply HM. left. by_compute.
  - apply HM. right. reflexivity.
Defined.

(* ===================================================================== *)
(** * Emptiness *)
(* ===================================================================== *)

(** Every sentinel is its own stripped form, is not a digit string and
    does not start with ["tt"]. *)
Lemma ingest_sentinel_shape :
  Forall (fun t => strip t = t ∧ isdigit t = false
                   ∧ startswith t "tt" = false) Ingest.EMPTY_VALUES.
Proof. unfold Ingest.EMPTY_VALUES. repeat constructor. Qed.

Lemma merger_sentinel_shape :
  Forall (fun t => strip t = t ∧ isdigit t = false
                   ∧ startswith t "tt" = false) MetaMerger.EMPTY_VALUES.
Proof. unfold MetaMerger.EMPTY_VALUES. repeat constructor. Qed.

(** C6, as the code has it: [is_empty] is true for [None], for NaN and
    for every sentinel of [EMPTY_VALUES]; it is false for every int (so
    for 0) and for every float other than NaN (so for 0.0); and on a
    string it tells whether the whitespace-stripped string is a sentinel,
    so it is false exactly for the strings whose stripped form is not a
    sentinel. Stated for both implementations. *)
Theorem C6_is_empty_characterised :
  (Ingest.is_empty VNone = true
   ∧ Ingest.is_empty (VFloat S754_nan) = true
   ∧ Forall (fun s => Ingest.is_empty (VStr s) = true) Ingest.EMPTY_VALUES
   ∧ (∀ z : Z, Ingest.is_empty (VInt z) = false)
   ∧ (∀ f : spec_float, Ingest.is_empty (VFloat f) = float_isnan f)
   ∧ (∀ sign : bool, Ingest.is_empty (VFloat (S754_zero sign)) = false)
   ∧ (∀ s : string,
        Ingest.is_empty (VStr s)
        = bool_decide (strip s ∈ Ingest.EMPTY_VALUES)))
  ∧
  (MetaMerger.is_empty VNone = true
   ∧ MetaMerger.is_empty (VFloat S754_nan) = true
   ∧ Forall (fun s => MetaMerger.is_empty (VStr s) = true)
       MetaMerger.EMPTY_VALUES
   ∧ (∀ z : Z, MetaMerger.is_empty (VInt z) = false)
   ∧ (∀ f : spec_float, MetaMerger.is_empty (VFloat f) = float_isnan f)
   ∧ (∀ sign : bool, MetaMerger.is_empty (VFloat (S754_zero sign)) = false)
   ∧ (∀ s : string,
        MetaMerger.is_empty (VStr s)
        = bool_decide (strip s ∈ MetaMerger.EMPTY_VALUES))).
Proof.
  split.
  - repeat split; try done.
    + unfold Ingest.EMPTY_VALUES. repeat constructor.
    + intros f. by destruct f.
  - repeat split; try done.
    + unfold MetaMerger.EMPTY_VALUES. repeat constructor.
    + intros f. by destruct f.
Qed.

(** C6 as stated fails: [" N/A "] is not a sentinel and is not the empty
    string, yet [is_empty] holds of it, in both implementations. *)
Lemma C6_counterexample :
  (" N/A " ∉ Ingest.EMPTY_VALUES)
  ∧ (" N/A " ∉ MetaMerger.EMPTY_VALUES)
  ∧ " N/A " ≠ ""
  ∧ Ingest.is_empty (VStr " N/A ") = true
  ∧ MetaMerger.is_empty (VStr " N/A ") = true.
Proof.
  split; [by_compute|]. split; [by_compute|]. split; [discriminate|].
  split; reflexivity.
Qed.

(* ===================================================================== *)
(** * Schema guard *)
(* ===================================================================== *)

Lemma difference_empty_subseteq (X Y : gset string) :
  X ∖ Y = ∅ ↔ X ⊆ Y.
Proof.
  split.
  - intros Heq x Hx. destruct (decide (x ∈ Y)) as [|Hn]; [done|].
    assert (x ∈ X ∖ Y) as Hd by (apply elem_of_difference; done).
    rewrite Heq in Hd. by apply not_elem_of_empty in Hd.
  - intros Hs. apply set_eq. intros x. rewrite elem_of_difference.
    split; [intros [Hx Hn]; by apply Hs in Hx|].
    intros He. by apply not_elem_of_empty in He.
Qed.

(** C3, as the code has it: [save] and [save_database] refuse to write
    exactly when the table has a column that is not in the column set
    captured at load. If every column of the table is in the captured
    set, the table is written and the result is true; otherwise the
    result is false and the disk is as before (in the merger the
    unauthorized columns are also appended to the error list). *)
Theorem C3_save_blocked_by_new_columns :
  (∀ (self : Ingest.Engine) (disk : Ingest.Disk),
     let final_columns := column_set (Ingest.bfd self) in
     let result := Ingest.save self disk in
     (final_columns ⊆ Ingest.bfd_columns self →
        fst (fst result) = true
        ∧ Ingest.bfd_output (snd result) = Some (Ingest.bfd self))
     ∧ (final_columns ⊈ Ingest.bfd_columns self →
        fst (fst result) = false ∧ snd result = disk))
  ∧
  (∀ (self : MetaMerger.Engine) (disk : MetaMerger.Disk),
     let final_columns := column_set (MetaMerger.bfd self) in
     let result := MetaMerger.save_database self disk in
     (final_columns ⊆ MetaMerger.bfd_columns self →
        fst (fst result) = true
        ∧ MetaMerger.bfd_meta (snd result) = Some (MetaMerger.bfd self))
     ∧ (final_columns ⊈ MetaMerger.bfd_columns self →
        fst (fst result) = false ∧ snd result = disk
        ∧ MetaMerger.errors (MetaMerger.stats (snd (fst result)))
          = (MetaMerger.errors (MetaMerger.stats self)
             ++ [MetaMerger.UnauthorizedColumns
                   (final_columns ∖ MetaMerger.bfd_columns self)])%list)).
Proof.
  split.
  - intros self disk final_columns result. subst result.
    unfold Ingest.save; simpl. fold final_columns.
    destruct (bool_decide (final_columns ∖ Ingest.bfd_columns self = ∅))
      eqn:Hd; simpl.
    + apply bool_decide_eq_true, difference_empty_subseteq in Hd.
      split; [done|]. intros Hn. contradiction.
    + apply bool_decide_eq_false in Hd.
      rewrite difference_empty_subseteq in Hd. split; [|done].
      intros Hs. contradiction.
  - intros self disk final_columns result. subst result.
    unfold MetaMerger.save_database; simpl. fold final_columns.
    destruct (bool_decide (final_columns ∖ MetaMerger.bfd_columns self = ∅))
      eqn:Hd; simpl.
    + apply bool_decide_eq_true, difference_empty_subseteq in Hd.
      split; [done|]. intros Hn. contradiction.
    + apply bool_decide_eq_false in Hd.
      rewrite difference_empty_subseteq in Hd. split; [|done].
      intros Hs. contradiction.
Qed.

(** C3 at the example tables: a table that gained the column ["extra"]
    is not written; the table as loaded is written. *)
Lemma C3_witness :
  ((fst (fst (Ingest.save grown_ingest empty_ingest_disk)) = false
    ∧ snd (Ingest.save grown_ingest empty_ingest_disk) = empty_ingest_disk)
   ∧ (fst (fst (Ingest.save example_ingest empty_ingest_disk)) = true
      ∧ Ingest.bfd_output (snd (Ingest.save example_ingest empty_ingest_disk))
        = Some example_frame))
  ∧
  ((fst (fst (MetaMerger.save_database grown_merger empty_merger_disk))
    = false
    ∧ snd (MetaMerger.save_database grown_merger empty_merger_disk)
      = empty_merger_disk)
   ∧ (fst (fst (MetaMerger.save_database example_merger empty_merger_disk))
      = true
      ∧ MetaMerger.bfd_meta
          (snd (MetaMerger.save_database example_merger empty_merger_disk))
        = Some example_frame)).
Proof.
  destruct C3_save_blocked_by_new_columns as [HI HM].
  split; split.
  - apply (HI grown_ingest empty_ingest_disk). by_compute.
  - apply (HI example_ingest empty_ingest_disk). by_compute.
  - destruct (proj2 (HM grown_merger empty_merger_disk)) as (? & ? & _);
      [by_compute|done].
  - apply (HM example_merger empty_merger_disk). by_compute.
Defined.

(** C3 as stated fails: a table that lost the column ["title"] has a
    column set different from the captured one, yet it is written and the
    result is true, in both implementations. *)
Lemma C3_counterexample :
  column_set (Ingest.bfd shrunk_ingest) ≠ Ingest.bfd_columns shrunk_ingest
  ∧ fst (fst (Ingest.save shrunk_ingest empty_ingest_disk)) = true
  ∧ Ingest.bfd_output (snd (Ingest.save shrunk_ingest empty_ingest_disk))
    = Some shrunk_frame
  ∧ column_set (MetaMerger.bfd shrunk_merger)
    ≠ MetaMerger.bfd_columns shrunk_merger
  ∧ fst (fst (MetaMerger.save_database shrunk_merger empty_merger_disk))
    = true
  ∧ MetaMerger.bfd_meta
      (snd (MetaMerger.save_database shrunk_merger empty_merger_disk))
    = Some shrunk_frame.
Proof.
  split; [by_compute|]. split; [reflexivity|]. split; [reflexivity|].
  split; [by_compute|]. split; reflexivity.
Qed.

(* ===================================================================== *)
(** * Identifier normalisation *)
(* ===================================================================== *)

Lemma digit_not_space (c : ascii) : isdigit_char c = true → isspace c = false.
Proof.
  destruct c as [[] [] [] [] [] [] [] []]; vm_compute; congruence.
Qed.

Lemma rstrip_digits (s : string) :
  all_chars isdigit_char s = true → rstrip s = s.
Proof.
  induction s as [|c s IH]; [done|]. simpl.
  intros [Hc Hs]%andb_true_iff. rewrite (IH Hs).
  destruct s; [|done]. by rewrite (digit_not_space c Hc).
Qed.

Lemma strip_digits (s : string) :
  all_chars isdigit_char s = true → strip s = s.
Proof.
  intros Hs. unfold strip.
  assert (lstrip s = s) as ->; [|by apply rstrip_digits].
  destruct s as [|c s]; [done|]. simpl in *.
  apply andb_true_iff in Hs as [Hc _]. by rewrite (digit_not_space c Hc).
Qed.

Lemma isdigit_all_chars (s : string) :
  isdigit s = true → all_chars isdigit_char s = true.
Proof. by destruct s. Qed.

Lemma pretty_N_char_digit (x : N) : isdigit_char (pretty_N_char x) = true.
Proof. unfold pretty_N_char. by repeat case_match. Qed.

Lemma pretty_N_go_digits (x : N) (s : string) :
  all_chars isdigit_char s = true →
  all_chars isdigit_char (pretty_N_go x s) = true.
Proof.
  revert s. induction (N.lt_wf_0 x) as [x _ IH]; intros s Hs.
  assert (x = 0 ∨ 0 < x)%N as [->|Hx] by lia.
  - by rewrite pretty_N_go_0.
  - rewrite pretty_N_go_step by done. apply IH.
    + by apply N.div_lt.
    + simpl. by rewrite pretty_N_char_digit, Hs.
Qed.

Lemma pretty_N_go_nonempty (x : N) (s : string) :
  s ≠ "" → pretty_N_go x s ≠ "".
Proof.
  revert s. induction (N.lt_wf_0 x) as [x _ IH]; intros s Hs.
  assert (x = 0 ∨ 0 < x)%N as [->|Hx] by lia.
  - by rewrite pretty_N_go_0.
  - rewrite pretty_N_go_step by done. apply IH; [by apply N.div_lt|done].
Qed.

(** [str(n)] of a non-negative int is a digit string. *)
Lemma str_of_int_isdigit (z : Z) : (0 ≤ z)%Z → isdigit (str_of_int z) = true.
Proof.
  intros Hz. unfold str_of_int, pretty, pretty_Z.
  destruct z as [|p|p]; [done| |lia].
  unfold pretty, pretty_positive, pretty, pretty_N.
  destruct (decide (N.pos p = 0%N)) as [|_]; [done|].
  assert (pretty_N_go (N.pos p) "" ≠ "") as Hne.
  { rewrite pretty_N_go_step by lia. by apply pretty_N_go_nonempty. }
  pose proof (pretty_N_go_digits (N.pos p) "" eq_refl) as Hd.
  unfold isdigit. by destruct (pretty_N_go (N.pos p) "").
Qed.

Lemma tt_prefix_not_digits (s : string) :
  startswith s "tt" = true → isdigit s = false.
Proof.
  destruct s as [|c s]; [done|]. unfold startswith.
  change (String.prefix "tt" (String c s))
    with (match ascii_dec "t" c with
          | left _ => String.prefix "t" s
          | right _ => false
          end).
  destruct (ascii_dec "t" c) as [<-|]; [reflexivity|discriminate].
Qed.

Lemma ingest_not_sentinel (t : string) :
  isdigit t = true ∨ startswith t "tt" = true →
  bool_decide (t ∈ Ingest.EMPTY_VALUES) = false.
Proof.
  intros Ht. apply bool_decide_eq_false. intros Hin.
  pose proof ingest_sentinel_shape as HF. rewrite Forall_forall in HF.
  destruct (HF _ Hin) as (_ & Hd & Hp). destruct Ht; congruence.
Qed.

Lemma merger_not_sentinel (t : string) :
  isdigit t = true ∨ startswith t "tt" = true →
  bool_decide (t ∈ MetaMerger.EMPTY_VALUES) = false.
Proof.
  intros Ht. apply bool_decide_eq_false. intros Hin.
  pose proof merger_sentinel_shape as HF. rewrite Forall_forall in HF.
  destruct (HF _ Hin) as (_ & Hd & Hp). destruct Ht; congruence.
Qed.

Section Normalizer.
Context `{PyRepr}.

Lemma ingest_normalize_str (s : string) :
  Ingest.normalize_imdb_id (VStr s)
  = if bool_decide (strip s ∈ Ingest.EMPTY_VALUES) then None
    else if isdigit (strip s) then Some ("tt" +:+ zfill 7 (strip s))
    else if startswith (strip s) "tt" then Some (strip s)
    else None.
Proof. reflexivity. Qed.

Lemma merger_normalize_str (s : string) :
  MetaMerger.normalize_imdb_id (VStr s)
  = if bool_decide (strip s ∈ MetaMerger.EMPTY_VALUES) then None
    else if isdigit (strip s) then Some ("tt" +:+ zfill 7 (strip s))
    else if startswith (strip s) "tt" then Some (strip s)
    else None.
Proof. reflexivity. Qed.

(** C5, as the code has it. [normalize_imdb_id] (both copies): an empty
    input gives [None]; a non-negative int, or a string whose stripped
    form is all digits, gives ["tt"] followed by the digits zero-padded to
    seven; a string whose stripped form starts with ["tt"] gives that
    stripped form; every other input gives [None].
    [convert_imdb_id]: [None] gives [None]; a string starting with ["tt"]
    is returned unchanged; an int, or a string that [int()] accepts, gives
    ["tt"] followed by the number in format [07d]; a string that [int()]
    rejects is returned as it is. *)
Theorem C5_identifier_normalisation :
  ((∀ v : pyval, Ingest.is_empty v = true → Ingest.normalize_imdb_id v = None)
   ∧ (∀ z : Z, (0 ≤ z)%Z →
        Ingest.normalize_imdb_id (VInt z)
        = Some ("tt" +:+ zfill 7 (str_of_int z)))
   ∧ (∀ s : string, isdigit (strip s) = true →
        Ingest.normalize_imdb_id (VStr s)
        = Some ("tt" +:+ zfill 7 (strip s)))
   ∧ (∀ s : string, startswith (strip s) "tt" = true →
        Ingest.normalize_imdb_id (VStr s) = Some (strip s))
   ∧ (∀ v : pyval, isdigit (strip (py_str v)) = false →
        startswith (strip (py_str v)) "tt" = false →
        Ingest.normalize_imdb_id v = None)
   ∧ Ingest.normalize_imdb_id (VInt 76759) = Some "tt0076759"
   ∧ Ingest.normalize_imdb_id (VStr "76759") = Some "tt0076759"
   ∧ Ingest.normalize_imdb_id (VStr "tt0076759") = Some "tt0076759"
   ∧ Ingest.normalize_imdb_id VNone = None)
  ∧
  ((∀ v : pyval,
      MetaMerger.is_empty v = true → MetaMerger.normalize_imdb_id v = None)
   ∧ (∀ z : Z, (0 ≤ z)%Z →
        MetaMerger.normalize_imdb_id (VInt z)
        = Some ("tt" +:+ zfill 7 (str_of_int z)))
   ∧ (∀ s : string, isdigit (strip s) = true →
        MetaMerger.normalize_imdb_id (VStr s)
        = Some ("tt" +:+ zfill 7 (strip s)))
   ∧ (∀ s : string, startswith (strip s) "tt" = true →
        MetaMerger.normalize_imdb_id (VStr s) = Some (strip s))
   ∧ (∀ v : pyval, isdigit (strip (py_str v)) = false →
        startswith (strip (py_str v)) "tt" = false →
        MetaMerger.normalize_imdb_id v = None)
   ∧ MetaMerger.normalize_imdb_id (VInt 76759) = Some "tt0076759"
   ∧ MetaMerger.normalize_imdb_id (VStr "76759") = Some "tt0076759"
   ∧ MetaMerger.normalize_imdb_id (VStr "tt0076759") = Some "tt0076759"
   ∧ MetaMerger.normalize_imdb_id VNone = None)
  ∧
  (VDB.convert_imdb_id JNull = Ok None
   ∧ (∀ s : string, startswith s "tt" = true →
        VDB.convert_imdb_id (JStr s) = Ok (Some s))
   ∧ (∀ z : Z,
        VDB.convert_imdb_id (JInt z) = Ok (Some ("tt" +:+ format_07d z)))
   ∧ (∀ (s : string) (n : Z), startswith s "tt" = false →
        int_of_str s = Ok n →
        VDB.convert_imdb_id (JStr s) = Ok (Some ("tt" +:+ format_07d n)))
   ∧ (∀ (s : string) (e : exn), startswith s "tt" = false →
        int_of_str s = Raise e →
        VDB.convert_imdb_id (JStr s) = Ok (Some s))
   ∧ VDB.convert_imdb_id (JInt 76759) = Ok (Some "tt0076759")
   ∧ VDB.convert_imdb_id (JStr "76759") = Ok (Some "tt0076759")
   ∧ VDB.convert_imdb_id (JStr "tt0076759") = Ok (Some "tt0076759")).
Proof.
  split; [|split].
  - split; [|split; [|split; [|split; [|split]]]].
    + intros v Hv. unfold Ingest.normalize_imdb_id. by rewrite Hv.
    + intros z Hz. unfold Ingest.normalize_imdb_id. simpl.
      pose proof (str_of_int_isdigit z Hz) as Hd.
      rewrite (strip_digits _ (isdigit_all_chars _ Hd)). by rewrite Hd.
    + intros s Hd. rewrite ingest_normalize_str.
      rewrite ingest_not_sentinel by (by left). by rewrite Hd.
    + intros s Hp. rewrite ingest_normalize_str.
      rewrite ingest_not_sentinel by (by right).
      by rewrite (tt_prefix_not_digits _ Hp), Hp.
    + intros v Hd Hp. unfold Ingest.normalize_imdb_id.
      destruct (Ingest.is_empty v); [done|]. simpl. by rewrite Hd, Hp.
    + repeat split.
  - split; [|split; [|split; [|split; [|split]]]].
    + intros v Hv. unfold MetaMerger.normalize_imdb_id. by rewrite Hv.
    + intros z Hz. unfold MetaMerger.normalize_imdb_id. simpl.
      pose proof (str_of_int_isdigit z Hz) as Hd.
      rewrite (strip_digits _ (isdigit_all_chars _ Hd)). by rewrite Hd.
    + intros s Hd. rewrite merger_normalize_str.
      rewrite merger_not_sentinel by (by left). by rewrite Hd.
    + intros s Hp. rewrite merger_normalize_str.
      rewrite merger_not_sentinel by (by right).
      by rewrite (tt_prefix_not_digits _ Hp), Hp.
    + intros v Hd Hp. unfold MetaMerger.normalize_imdb_id.
      destruct (MetaMerger.is_empty v); [done|]. simpl. by rewrite Hd, Hp.
    + repeat split.
  - split; [reflexivity|]. split; [|split; [|split; [|split]]].
    + intros s Hp. unfold VDB.convert_imdb_id. by rewrite Hp.
    + reflexivity.
    + intros s n Hp Hi. unfold VDB.convert_imdb_id. by rewrite Hp, Hi.
    + intros s e Hp Hi. unfold VDB.convert_imdb_id. by rewrite Hp, Hi.
    + repeat split.
Qed.

End Normalizer.

(** [int()] skips TAB..CR and spaces around the number and nothing
    else: a leading FS, which [str.strip] removes, makes it reject the
    text. *)
Lemma int_of_str_whitespace :
  int_of_str (String (ascii_of_nat 9) "7 ") = Ok 7%Z
  ∧ int_of_str (String (ascii_of_nat 28) "7") = Raise ValueError
  ∧ strip (String (ascii_of_nat 28) "7") = "7".
Proof. repeat split. Qed.

(** C5 as stated fails: an input that is neither empty, nor numeric,
    nor prefixed with ["tt"] is not returned as it is by
    [normalize_imdb_id], which gives [None]; and [convert_imdb_id] does
    not give [None] on the empty string. *)
Lemma C5_counterexample :
  @Ingest.normalize_imdb_id VDB.tag_repr (VStr "nm0000123") = None
  ∧ @MetaMerger.normalize_imdb_id VDB.tag_repr (VStr "nm0000123") = None
  ∧ Ingest.is_empty (VStr "") = true
  ∧ @VDB.convert_imdb_id VDB.tag_repr (JStr "") = Ok (Some "").
Proof. repeat split. Qed.

(* ===================================================================== *)
(** * The routing engine *)
(* ===================================================================== *)

Section EngineFacts.
Context `{PyRepr} {W : Type} `{VDB.DatabaseWriters W}.
Import VDB.

Implicit Types (self : Engine W) (st d : ProcessingStats).

Ltac unfold_m :=
  unfold bind, get, ret, lift, modify, raise, try_except, add_stats,
    call_writer, ensure_writers.

(** C7. A batch whose source is not in [SOURCE_MAPPING] (looked up in
    lower case, as [detect] does), with any batch type and the empty
    dict as payload: [detect] returns [(UNKNOWN, "unknown_source")]; the
    decision [_route_batch] makes has action ["skip"] and record count 1;
    executing it adds 1 to [skipped] and one entry to [skip_details], and
    leaves [records_routed], every merge and append counter and
    [merge_results] as they were. The same holds when the batch is read
    from a file's list of batches. *)
Theorem C7_unknown_source_is_skipped (source : string) (batch_type : json)
    (filename : string) (self : Engine W) :
  assoc (lower source) SOURCE_MAPPING = None →
  let decision := unknown_source_decision source batch_type filename in
  let batch := JDict [("source", JStr source); ("type", batch_type);
                      ("data", JDict [])] in
  let detail := {| sd_source := filename; sd_type := "unknown";
                   sd_count := 1; sd_reason := "unknown_source" |} in
  let self' := snd (_route_batch (JStr source) batch_type (JDict []) filename
                      self) in
  detect (JStr source) batch_type (Some []) = Ok (UNKNOWN, "unknown_source")
  ∧ action decision = "skip"
  ∧ fst (_route_batch (JStr source) batch_type (JDict []) filename self)
    = Ok decision
  ∧ route_batches (JStr "unknown") filename [batch] self
    = (Ok [decision], self')
  ∧ skipped (stats self') = (skipped (stats self) + 1)%Z
  ∧ skip_details (stats self') = (skip_details (stats self) ++ [detail])%list
  ∧ merge_results (stats self') = merge_results (stats self)
  ∧ records_routed (stats self') = records_routed (stats self)
  ∧ bfd_updates (stats self') = bfd_updates (stats self)
  ∧ bfd_new (stats self') = bfd_new (stats self)
  ∧ star_schema_updates (stats self') = star_schema_updates (stats self)
  ∧ views_training_appends (stats self')
    = views_training_appends (stats self)
  ∧ abstract_data_appends (stats self') = abstract_data_appends (stats self)
  ∧ components_updates (stats self') = components_updates (stats self)
  ∧ platform_changes_processed (stats self')
    = platform_changes_processed (stats self)
  ∧ flixpatrol_titles_processed (stats self')
    = flixpatrol_titles_processed (stats self)
  ∧ errors (stats self') = errors (stats self)
  ∧ processed_files self' = processed_files self
  ∧ world self' = world self.
Proof.
  intros Hsrc decision batch detail self'.
  assert (detect (JStr source) batch_type (Some [])
          = Ok (UNKNOWN, "unknown_source")) as Hdet.
  { unfold detect. by rewrite Hsrc. }
  assert (_route_batch (JStr source) batch_type (JDict []) filename self
          = (Ok decision,
             set_stats (fun st => stats_add st (d_skipped 1 detail)) self))
    as Hrb.
  { unfold _route_batch, batch_count. unfold_m. cbn [assoc].
    cbv beta iota. rewrite Hdet. reflexivity. }
  subst self'. rewrite Hrb. simpl.
  repeat split; try done; try lia.
  - unfold route_batches, batch. unfold_m. simpl.
    change (Py.bind ?m ?k) with (bind m k).
    unfold bind. rewrite Hrb. reflexivity.
  - by rewrite app_nil_r.
  - by rewrite app_nil_r.
Qed.

(** ** What batch processing leaves alone *)

Lemma keeps_ret {A} (a : A) : keeps_marks (W:=W) (ret a).
Proof. by intros self. Qed.

Lemma keeps_get : keeps_marks (W:=W) get.
Proof. by intros self. Qed.

Lemma keeps_lift {A} (r : res A) : keeps_marks (W:=W) (lift r).
Proof. by intros self. Qed.

Lemma keeps_bind {A B} (m : M (Engine W) A) (k : A → M (Engine W) B) :
  keeps_marks m → (∀ a, keeps_marks (k a)) → keeps_marks (bind m k).
Proof.
  intros Hm Hk self. unfold bind. specialize (Hm self).
  destruct (m self) as [[a|e] mid]; simpl in *; [|done].
  destruct Hm as [Hp0 He0]. destruct (Hk a mid) as [Hp He].
  split; congruence.
Qed.

Lemma keeps_add_stats d : errors d = [] → keeps_marks (W:=W) (add_stats d).
Proof.
  intros Hd self. unfold add_stats, modify; simpl.
  by rewrite Hd, app_nil_r.
Qed.

Lemma keeps_ensure_writers : keeps_marks (W:=W) ensure_writers.
Proof. by intros self. Qed.

Lemma keeps_call_writer {A} (m : bool → M W A) : keeps_marks (call_writer m).
Proof.
  intros self. unfold call_writer.
  by destruct (m (dry_run self) (world self)).
Qed.

Lemma keeps_for_each {A} (xs : list A) (body : A → M (Engine W) unit) :
  (∀ x, keeps_marks (body x)) → keeps_marks (for_each xs body).
Proof.
  intros Hb. induction xs as [|x xs IH]; simpl.
  - apply keeps_ret.
  - apply keeps_bind; [apply Hb|]. intros _. apply IH.
Qed.

Ltac keeps :=
  repeat first
    [ apply keeps_ret | apply keeps_get | apply keeps_lift
    | apply keeps_ensure_writers | apply keeps_call_writer
    | apply keeps_add_stats; reflexivity
    | apply keeps_bind; [|intros ?]
    | apply keeps_for_each; intros ?
    | progress case_match ].

Lemma keeps_handle_platform_changes (data : json) :
  keeps_marks (_handle_platform_changes data).
Proof. unfold _handle_platform_changes. keeps. Qed.

Lemma keeps_handle_flixpatrol_titles (data : json) :
  keeps_marks (_handle_flixpatrol_titles data).
Proof. unfold _handle_flixpatrol_titles. keeps. Qed.

Lemma keeps_execute_decision (decision : RoutingDecision) (data : json) :
  keeps_marks (_execute_decision decision data).
Proof.
  unfold _execute_decision.
  destruct (String.eqb (action decision) "skip"); [keeps|].
  apply keeps_bind; [keeps|]. intros _.
  destruct (bool_decide (data_type decision = PLATFORM_CHANGES));
    [apply keeps_handle_platform_changes|].
  destruct (bool_decide (data_type decision = FLIXPATROL_TITLES));
    [apply keeps_handle_flixpatrol_titles|].
  keeps.
Qed.

Lemma keeps_route_batch (source batch_type data : json) (filename : string) :
  keeps_marks (_route_batch source batch_type data filename).
Proof.
  unfold _route_batch. apply keeps_bind; [keeps|]. intros count.
  apply keeps_bind; [keeps|]. intros [dt sr].
  apply keeps_bind; [apply keeps_execute_decision|]. intros _. keeps.
Qed.

Lemma keeps_route_batches (dflt : json) (filename : string)
    (batches : list json) :
  keeps_marks (route_batches dflt filename batches).
Proof.
  induction batches as [|batch rest IH]; simpl; [keeps|].
  apply keeps_bind; [keeps|]. intros source.
  apply keeps_bind; [keeps|]. intros batch_type.
  apply keeps_bind; [keeps|]. intros batch_data.
  apply keeps_bind; [apply keeps_route_batch|]. intros decision.
  apply keeps_bind; [apply IH|]. intros decisions. keeps.
Qed.

Lemma keeps_process_json (filepath : File) :
  keeps_marks (_process_json filepath).
Proof.
  unfold _process_json. apply keeps_bind; [keeps|]. intros data.
  destruct data as [| | | | |l|d]; try (by keeps).
  - apply keeps_route_batches.
  - destruct (assoc "results" d).
    + apply keeps_bind; [keeps|]. intros items. apply keeps_route_batches.
    + apply keeps_bind; [apply keeps_route_batch|]. intros ?. keeps.
Qed.

Lemma keeps_process_parquet (filepath : File) :
  keeps_marks (_process_parquet filepath).
Proof.
  unfold _process_parquet. apply keeps_bind; [keeps|]. intros _.
  apply keeps_bind; [keeps|]. intros rows.
  destruct (contains "cranberry_fresh" (name filepath));
    (apply keeps_bind; [apply keeps_execute_decision|]; intros _; keeps).
Qed.

Lemma keeps_process_body (filepath : File) :
  keeps_marks (process_body filepath).
Proof.
  unfold process_body.
  destruct (String.eqb (suffix (name filepath)) ".json");
    [apply keeps_process_json|].
  destruct (String.eqb (suffix (name filepath)) ".parquet");
    [apply keeps_process_parquet|keeps].
Qed.

(** C9, as the code has it. [process_file] marks the file processed
    exactly when the processing of its batches returns without raising,
    whatever the decisions were (skipped batches included): the name
    joins the processed-file set, [files_processed] grows by one and the
    error list is as before. When parsing or a batch raises, the result
    is the empty decision list, the error is appended to the error list
    under the file's name, the processed-file set is exactly as before
    the call (this file is not added, no earlier marking is lost), and
    the counters, results and storage reached before the failure are
    kept. *)
Theorem C9_marking_follows_batch_execution (filepath : File) (self : Engine W) :
  let after := snd (process_file filepath self) in
  match process_body filepath self with
  | (Ok decisions, mid) =>
      fst (process_file filepath self) = Ok decisions
      ∧ processed_files after = {[ name filepath ]} ∪ processed_files self
      ∧ files_processed (stats after) = (files_processed (stats mid) + 1)%Z
      ∧ errors (stats after) = errors (stats self)
  | (Raise e, mid) =>
      fst (process_file filepath self) = Ok []
      ∧ processed_files after = processed_files self
      ∧ errors (stats after)
        = (errors (stats self) ++ [(name filepath, e)])%list
      ∧ files_processed (stats after) = files_processed (stats mid)
      ∧ skipped (stats after) = skipped (stats mid)
      ∧ skip_details (stats after) = skip_details (stats mid)
      ∧ merge_results (stats after) = merge_results (stats mid)
      ∧ world after = world mid
  end.
Proof.
  intros after. subst after.
  destruct (keeps_process_body filepath self) as [Hp He].
  unfold process_file, try_except, bind.
  destruct (process_body filepath self) as [[decisions|e] mid]; simpl in *.
  - rewrite Hp, He. repeat split; try done. by rewrite app_nil_r.
  - rewrite Hp, He. repeat split; try done; try lia;
      by rewrite app_nil_r.
Qed.

(** ** Discovery *)








Lemma discover_unfold (date_filter : option string) (dir : list File) self :
  discover_fresh_files date_filter dir self
  = (Ok (sort_by_mtime
           (fresh_candidates date_filter (processed_files self) dir)),
     {| dry_run := dry_run self; stats := stats self;
        writers_ready := writers_ready self;
        processed_files := processed_files self;
        discovered_files :=
          sort_by_mtime
            (fresh_candidates date_filter (processed_files self) dir);
        all_decisions := all_decisions self; world := world self;
        state_file := state_file self |}).
Proof. reflexivity. Qed.




(** ** Runs *)

Lemma process_file_returns (filepath : File) self :
  ∃ decisions, fst (process_file filepath self) = Ok decisions.
Proof.
  unfold process_file, try_except, bind.
  destruct (process_body filepath self) as [[decisions|e] mid]; simpl; eauto.
Qed.

Lemma process_files_returns (files : list File) self :
  fst (process_files files self) = Ok tt.
Proof.
  revert self. induction files as [|f files IH]; intros self; [done|].
  unfold process_files in *. simpl. unfold bind at 1. unfold bind at 1.
  destruct (process_file_returns f self) as [ds Hds].
  destruct (process_file f self) as [r mid]. simpl in Hds. subst r.
  simpl. apply IH.
Qed.

Lemma run_unfold (today now : string) (writable : bool)
    (date_filter : option string) (process_all : bool) (dir : list File)
    self :
  run today now writable date_filter process_all dir self
  = let d := if negb process_all
             then match date_filter with
                  | None => if negb process_all then Some today else None
                  | Some d => Some d
                  end
             else None in
    let files :=
      sort_by_mtime (fresh_candidates d (processed_files self) dir) in
    let started := snd (discover_fresh_files d dir self) in
    match files with
    | [] => (Ok tt, started)
    | _ => bind (process_files files)
             (fun _ => _save_state now writable) started
    end.
Proof.
  unfold run. unfold bind at 1. cbv zeta. rewrite discover_unfold.
  simpl snd. by destruct (sort_by_mtime _).
Qed.



End EngineFacts.

(* ===================================================================== *)
(** * Closed examples for the routing engine *)
(* ===================================================================== *)

(** C7 at the batch of the specification:
    [{source: "unknown_api", type: "x", data: {}}]. *)
Lemma C7_witness :
  VDB.detect (JStr "unknown_api") (JStr "x") (Some [])
  = Ok (VDB.UNKNOWN, "unknown_source")
  ∧ VDB.skipped (VDB.stats (snd (
      @VDB._route_batch VDB.tag_repr unit VDB.offline_writers
        (JStr "unknown_api") (JStr "x") (JDict []) "fresh_data_1.json"
        (VDB.new_engine false tt VDB.Absent)))) = 1%Z
  ∧ VDB.merge_results (VDB.stats (snd (
      @VDB._route_batch VDB.tag_repr unit VDB.offline_writers
        (JStr "unknown_api") (JStr "x") (JDict []) "fresh_data_1.json"
        (VDB.new_engine false tt VDB.Absent)))) = [].
Proof.
  pose proof (@C7_unknown_source_is_skipped VDB.tag_repr unit
                VDB.offline_writers "unknown_api" (JStr "x")
                "fresh_data_1.json" (VDB.new_engine false tt VDB.Absent)
                eq_refl) as HC.
  cbv zeta in HC.
  destruct HC as (Hdet & _ & _ & _ & Hsk & _ & Hmr & _).
  split; [exact Hdet|]. split; [exact Hsk|exact Hmr].
Defined.

(** C9 as stated fails: [tmdb_20260115.json] parses, its first batch is
    executed (and skipped), its second batch raises [AttributeError]; the
    error is recorded under the file's name, but the file is not in the
    processed-file set afterwards. *)
Lemma C9_counterexample :
  VDB.json_load failing_file
  = Ok (JList [skipped_batch;
               JDict [("source", JInt 5); ("type", JStr "x");
                      ("data", JDict [])]])
  ∧ (VDB.name failing_file
     ∉ VDB.processed_files
         (snd (@VDB.process_file VDB.tag_repr unit VDB.offline_writers
                 failing_file fresh_engine)))
  ∧ VDB.errors (VDB.stats
      (snd (@VDB.process_file VDB.tag_repr unit VDB.offline_writers
              failing_file fresh_engine)))
    = [("tmdb_20260115.json", AttributeError)]
  ∧ VDB.skipped (VDB.stats
      (snd (@VDB.process_file VDB.tag_repr unit VDB.offline_writers
              failing_file fresh_engine))) = 1%Z.
Proof.
  split; [reflexivity|]. split; [by_compute|]. split; reflexivity.
Qed.

(* ===================================================================== *)
(** * Further properties of the cell update *)
(* ===================================================================== *)

Lemma SFeqb_refl (f : spec_float) : float_isnan f = false → SFeqb f f = true.
Proof.
  destruct f as [s|s| |s m e]; simpl; try done.
  - by destruct s.
  - intros _. unfold SFeqb, SFcompare.
    rewrite Z.compare_refl.
    assert (Pos.compare_cont Eq m m = Eq) as -> by apply Pos.compare_refl.
    by destruct s.
Qed.

(** [v == v] holds for every value that [pd.isna] does not flag. *)
Lemma py_eq_refl (v : pyval) : isna v = false → py_eq v v = true.
Proof.
  destruct v as [|b|z|f|s]; simpl; try done.
  - intros _. apply Z.eqb_refl.
  - intros _. apply Z.eqb_refl.
  - apply SFeqb_refl.
  - intros _. apply String.eqb_refl.
Qed.

Lemma put_cell_put_cell (df : DataFrame) (idx : Z) (col : string)
    (v w : pyval) :
  put_cell (put_cell df idx col v) idx col w = put_cell df idx col w.
Proof. unfold put_cell; simpl. f_equal. apply insert_insert_eq. Qed.

(** In an object or string column the value that was just assigned
    settles both policies: the cell holds the value itself, MERGE finds
    it filled and OVERWRITE finds it equal. *)
Lemma policy_writes_settled (is_empty : pyval → bool) (mode : string)
    (d : dtype) (value stored : pyval) :
  d = object_ ∨ d = str_ → setitem d value = Ok stored →
  is_empty value = false → isna value = false →
  stored = value ∧ policy_writes is_empty mode d stored value = Ok false.
Proof.
  intros Hd Hs He Hna.
  assert (stored = value) as ->.
  { destruct Hd as [->| ->]; simpl in Hs; [congruence|].
    destruct value as [|b|z|f|s]; simpl in *; try congruence.
    rewrite Hna in Hs. congruence. }
  split; [done|]. unfold policy_writes.
  destruct (String.eqb mode "MERGE"); [by rewrite He|].
  destruct (String.eqb mode "OVERWRITE"); [|done].
  rewrite Hna, (scalar_ne_python d value value Hd). unfold py_ne.
  by rewrite py_eq_refl.
Qed.

#[local] Arguments cell : simpl never.
#[local] Arguments put_cell : simpl never.
#[local] Arguments has_row : simpl never.
#[local] Arguments has_column : simpl never.
#[local] Arguments dtype_of : simpl never.
#[local] Arguments setitem : simpl never.
#[local] Arguments policy_writes : simpl never.

(** A call either leaves the engine as it was, and does not return
    true, or it has passed the guards, the read and the policy test and
    has stored the column's rendering of the value in the cell. *)
Lemma ingest_update_cases (self : Ingest.Engine) (idx : Z) (column : string)
    (value : pyval) (mode : string) :
  let d := dtype_of (Ingest.bfd self) column in
  let r := Ingest._update_value idx column value mode self in
  (snd r = self ∧ fst r ≠ Ok true)
  ∨ (∃ stored : pyval,
       r = (Ok true,
            Ingest.set_bfd (put_cell (Ingest.bfd self) idx column stored)
              self)
       ∧ setitem d value = Ok stored
       ∧ negb (bool_decide (column ∈ Ingest.bfd_columns self))
         || Ingest.is_empty value = false
       ∧ negb (has_row (Ingest.bfd self) idx
               && has_column (Ingest.bfd self) column) = false
       ∧ policy_writes Ingest.is_empty mode d
           (cell (Ingest.bfd self) idx column) value = Ok true).
Proof.
  cbv zeta. rewrite ingest_update_formula.
  destruct (_ || Ingest.is_empty value); [by left|].
  destruct (negb _); [by left|].
  destruct (policy_writes _ _ _ _ _) as [[]|e]; [|by left|by left].
  destruct (setitem _ value) as [stored|e]; [|by left].
  right. by exists stored.
Qed.

Lemma merger_update_cases (self : MetaMerger.Engine) (idx : Z)
    (column : string) (value : pyval) (mode : string) :
  let col := MetaMerger.to_canonical (MetaMerger.mapper self) column in
  let d := dtype_of (MetaMerger.bfd self) col in
  let r := MetaMerger._update_value idx column value mode self in
  (snd r = self ∧ fst r ≠ Ok true)
  ∨ (∃ stored : pyval,
       r = (Ok true,
            MetaMerger.set_bfd (put_cell (MetaMerger.bfd self) idx col stored)
              self)
       ∧ setitem d value = Ok stored
       ∧ negb (bool_decide (col ∈ MetaMerger.bfd_columns self))
         || MetaMerger.is_empty value = false
       ∧ negb (has_row (MetaMerger.bfd self) idx
               && has_column (MetaMerger.bfd self) col) = false
       ∧ policy_writes MetaMerger.is_empty mode d
           (cell (MetaMerger.bfd self) idx col) value = Ok true).
Proof.
  intros col. cbv zeta. rewrite merger_update_formula. cbv zeta. fold col.
  destruct (_ || MetaMerger.is_empty value); [by left|].
  destruct (negb _); [by left|].
  destruct (policy_writes _ _ _ _ _) as [[]|e]; [|by left|by left].
  destruct (setitem _ value) as [stored|e]; [|by left].
  right. by exists stored.
Qed.

(** X1. Repeating a cell update does not change the table again: the
    second identical call leaves the engine as the first call left it. It
    raises what the first call raised (a refused assignment is refused
    again) and returns false where the first call returned false; and in
    an object or string column it returns false after a first call that
    returned true. Both implementations, every mode. *)
Theorem update_value_idempotent :
  (∀ (self : Ingest.Engine) (idx : Z) (column : string) (value : pyval)
     (mode : string),
     let d := dtype_of (Ingest.bfd self) column in
     let first := Ingest._update_value idx column value mode self in
     let second := Ingest._update_value idx column value mode (snd first) in
     snd second = snd first
     ∧ (∀ e, fst first = Raise e → fst second = Raise e)
     ∧ (fst first = Ok false → fst second = Ok false)
     ∧ (fst first = Ok true → d = object_ ∨ d = str_ →
        fst second = Ok false))
  ∧
  (∀ (self : MetaMerger.Engine) (idx : Z) (column : string) (value : pyval)
     (mode : string),
     let d :=
       dtype_of (MetaMerger.bfd self)
         (MetaMerger.to_canonical (MetaMerger.mapper self) column) in
     let first := MetaMerger._update_value idx column value mode self in
     let second :=
       MetaMerger._update_value idx column value mode (snd first) in
     snd second = snd first
     ∧ (∀ e, fst first = Raise e → fst second = Raise e)
     ∧ (fst first = Ok false → fst second = Ok false)
     ∧ (fst first = Ok true → d = object_ ∨ d = str_ →
        fst second = Ok false)).
Proof.
  split.
  - intros self idx column value mode d first second. subst second first d.
    destruct (ingest_update_cases self idx column value mode)
      as [[Hsame Hnot]|(stored & Hr & Hs & Hg & Hl & Hw)].
    { rewrite Hsame.
      destruct (Ingest._update_value idx column value mode self) as [r s'].
      simpl in *. by repeat split. }
    set (d := dtype_of (Ingest.bfd self) column) in *.
    rewrite Hr. simpl fst. simpl snd. rewrite ingest_update_formula.
    cbn [Ingest.bfd Ingest.set_bfd Ingest.bfd_columns].
    change (has_row (put_cell ?df _ _ _) ?i) with (has_row df i).
    change (has_column (put_cell ?df _ _ _) ?c) with (has_column df c).
    change (dtype_of (put_cell ?df _ _ _) ?c) with (dtype_of df c).
    fold d. rewrite Hg, Hl, cell_put_cell_same, Hs.
    apply orb_false_iff in Hg as [_ Hv].
    pose proof (policy_writes_settled Ingest.is_empty mode d value stored)
      as Hsettled.
    destruct (policy_writes Ingest.is_empty mode d stored value)
      as [[]|e] eqn:Hp; simpl.
    + split.
      { unfold Ingest.set_bfd. simpl. by rewrite put_cell_put_cell. }
      split; [done|]. split; [done|]. intros _ Hd.
      by destruct (Hsettled Hd Hs Hv (ingest_not_empty_not_na _ Hv)).
    + by repeat split.
    + split; [done|]. split; [done|]. split; [done|]. intros _ Hd.
      by destruct (Hsettled Hd Hs Hv (ingest_not_empty_not_na _ Hv)).
  - intros self idx column value mode d first second. subst second first d.
    destruct (merger_update_cases self idx column value mode)
      as [[Hsame Hnot]|(stored & Hr & Hs & Hg & Hl & Hw)].
    { rewrite Hsame.
      destruct (MetaMerger._update_value idx column value mode self)
        as [r s']. simpl in *. by repeat split. }
    set (col := MetaMerger.to_canonical (MetaMerger.mapper self) column)
      in *.
    set (d := dtype_of (MetaMerger.bfd self) col) in *.
    rewrite Hr. simpl fst. simpl snd. rewrite merger_update_formula.
    cbv zeta.
    cbn [MetaMerger.bfd MetaMerger.set_bfd MetaMerger.bfd_columns
         MetaMerger.mapper].
    fold col.
    change (has_row (put_cell ?df _ _ _) ?i) with (has_row df i).
    change (has_column (put_cell ?df _ _ _) ?c) with (has_column df c).
    change (dtype_of (put_cell ?df _ _ _) ?c) with (dtype_of df c).
    fold d. rewrite Hg, Hl, cell_put_cell_same, Hs.
    apply orb_false_iff in Hg as [_ Hv].
    pose proof (policy_writes_settled MetaMerger.is_empty mode d value stored)
      as Hsettled.
    destruct (policy_writes MetaMerger.is_empty mode d stored value)
      as [[]|e] eqn:Hp; simpl.
    + split.
      { unfold MetaMerger.set_bfd. simpl. by rewrite put_cell_put_cell. }
      split; [done|]. split; [done|]. intros _ Hd.
      by destruct (Hsettled Hd Hs Hv (merger_not_empty_not_na _ Hv)).
    + by repeat split.
    + split; [done|]. split; [done|]. split; [done|]. intros _ Hd.
      by destruct (Hsettled Hd Hs Hv (merger_not_empty_not_na _ Hv)).
Qed.

(** X2. What a cell holds after an update of a known column with a
    non-empty value at a known row. A call that raises leaves the engine
    as it was, so the cell holds what it held. A call that returns true
    leaves in the cell what the column stores for the value. In an object
    or string column, after an OVERWRITE that returns the cell is [==] to
    the new value, whatever it held, so the last writer wins; and after a
    MERGE that returns the cell is not empty. Both implementations. *)
Theorem update_value_postcondition :
  (∀ (self : Ingest.Engine) (idx : Z) (column : string) (value : pyval),
     column ∈ Ingest.bfd_columns self →
     Ingest.is_empty value = false →
     has_row (Ingest.bfd self) idx = true →
     has_column (Ingest.bfd self) column = true →
     let d := dtype_of (Ingest.bfd self) column in
     let after := fun mode =>
       Ingest._update_value idx column value mode self in
     let cell_after := fun mode =>
       cell (Ingest.bfd (snd (after mode))) idx column in
     (∀ mode e, fst (after mode) = Raise e → snd (after mode) = self)
     ∧ (∀ mode, fst (after mode) = Ok true →
        setitem d value = Ok (cell_after mode))
     ∧ (d = object_ ∨ d = str_ →
        (∀ b, fst (after "OVERWRITE") = Ok b →
           py_eq (cell_after "OVERWRITE") value = true)
        ∧ (∀ b, fst (after "MERGE") = Ok b →
             Ingest.is_empty (cell_after "MERGE") = false)))
  ∧
  (∀ (self : MetaMerger.Engine) (idx : Z) (column : string) (value : pyval),
     let col := MetaMerger.to_canonical (MetaMerger.mapper self) column in
     col ∈ MetaMerger.bfd_columns self →
     MetaMerger.is_empty value = false →
     has_row (MetaMerger.bfd self) idx = true →
     has_column (MetaMerger.bfd self) col = true →
     let d := dtype_of (MetaMerger.bfd self) col in
     let after := fun mode =>
       MetaMerger._update_value idx column value mode self in
     let cell_after := fun mode =>
       cell (MetaMerger.bfd (snd (after mode))) idx col in
     (∀ mode e, fst (after mode) = Raise e → snd (after mode) = self)
     ∧ (∀ mode, fst (after mode) = Ok true →
        setitem d value = Ok (cell_after mode))
     ∧ (d = object_ ∨ d = str_ →
        (∀ b, fst (after "OVERWRITE") = Ok b →
           py_eq (cell_after "OVERWRITE") value = true)
        ∧ (∀ b, fst (after "MERGE") = Ok b →
             MetaMerger.is_empty (cell_after "MERGE") = false))).
Proof.
  split.
  - intros self idx column value Hin Hv Hr Hc d after cell_after.
    pose proof (ingest_not_empty_not_na _ Hv) as Hna.
    assert (∀ mode,
      after mode
      = match policy_writes Ingest.is_empty mode d
                (cell (Ingest.bfd self) idx column) value with
        | Raise e => (Raise e, self)
        | Ok false => (Ok false, self)
        | Ok true =>
            match setitem d value with
            | Ok stored =>
                (Ok true,
                 Ingest.set_bfd
                   (put_cell (Ingest.bfd self) idx column stored) self)
            | Raise e => (Raise e, self)
            end
        end) as Hform.
    { intros mode. unfold after. rewrite ingest_update_formula.
      by rewrite (bool_decide_eq_true_2 _ Hin), Hv, Hr, Hc. }
    subst cell_after. cbv beta. split; [|split].
    + intros mode e. rewrite Hform.
      destruct (policy_writes _ _ _ _ _) as [[]|e']; try done.
      by destruct (setitem d value).
    + intros mode. rewrite Hform.
      destruct (policy_writes _ _ _ _ _) as [[]|e']; try done.
      destruct (setitem d value) as [stored|e']; [|done].
      intros _. simpl. by rewrite cell_put_cell_same.
    + intros Hd. split.
      * intros b. rewrite Hform. unfold policy_writes. simpl.
        rewrite (scalar_ne_python d _ value Hd).
        destruct (isna (cell (Ingest.bfd self) idx column)) eqn:Hc0;
          [|destruct (py_ne _ value) eqn:Hne].
        -- destruct (setitem d value) as [stored|e'] eqn:Hs; [|done].
           intros _. simpl. rewrite cell_put_cell_same.
           destruct (policy_writes_settled Ingest.is_empty "" d value stored
                       Hd Hs Hv Hna) as [-> _].
           by apply py_eq_refl.
        -- destruct (setitem d value) as [stored|e'] eqn:Hs; [|done].
           intros _. simpl. rewrite cell_put_cell_same.
           destruct (policy_writes_settled Ingest.is_empty "" d value stored
                       Hd Hs Hv Hna) as [-> _].
           by apply py_eq_refl.
        -- intros _. simpl. unfold py_ne in Hne.
           by apply negb_false_iff in Hne.
      * intros b. rewrite Hform. unfold policy_writes. simpl.
        destruct (Ingest.is_empty (cell (Ingest.bfd self) idx column))
          eqn:He; [|done].
        destruct (setitem d value) as [stored|e'] eqn:Hs; [|done].
        intros _. simpl. rewrite cell_put_cell_same.
        by destruct (policy_writes_settled Ingest.is_empty "" d value stored
                       Hd Hs Hv Hna) as [-> _].
  - intros self idx column value col Hin Hv Hr Hc d after cell_after.
    pose proof (merger_not_empty_not_na _ Hv) as Hna.
    assert (∀ mode,
      after mode
      = match policy_writes MetaMerger.is_empty mode d
                (cell (MetaMerger.bfd self) idx col) value with
        | Raise e => (Raise e, self)
        | Ok false => (Ok false, self)
        | Ok true =>
            match setitem d value with
            | Ok stored =>
                (Ok true,
                 MetaMerger.set_bfd
                   (put_cell (MetaMerger.bfd self) idx col stored) self)
            | Raise e => (Raise e, self)
            end
        end) as Hform.
    { intros mode. unfold after. rewrite merger_update_formula. cbv zeta.
      fold col. by rewrite (bool_decide_eq_true_2 _ Hin), Hv, Hr, Hc. }
    subst cell_after. cbv beta. split; [|split].
    + intros mode e. rewrite Hform.
      destruct (policy_writes _ _ _ _ _) as [[]|e']; try done.
      by destruct (setitem d value).
    + intros mode. rewrite Hform.
      destruct (policy_writes _ _ _ _ _) as [[]|e']; try done.
      destruct (setitem d value) as [stored|e']; [|done].
      intros _. simpl. by rewrite cell_put_cell_same.
    + intros Hd. split.
      * intros b. rewrite Hform. unfold policy_writes. simpl.
        rewrite (scalar_ne_python d _ value Hd).
        destruct (isna (cell (MetaMerger.bfd self) idx col)) eqn:Hc0;
          [|destruct (py_ne _ value) eqn:Hne].
        -- destruct (setitem d value) as [stored|e'] eqn:Hs; [|done].
           intros _. simpl. rewrite cell_put_cell_same.
           destruct (policy_writes_settled MetaMerger.is_empty "" d value
                       stored Hd Hs Hv Hna) as [-> _].
           by apply py_eq_refl.
        -- destruct (setitem d value) as [stored|e'] eqn:Hs; [|done].
           intros _. simpl. rewrite cell_put_cell_same.
           destruct (policy_writes_settled MetaMerger.is_empty "" d value
                       stored Hd Hs Hv Hna) as [-> _].
           by apply py_eq_refl.
        -- intros _. simpl. unfold py_ne in Hne.
           by apply negb_false_iff in Hne.
      * intros b. rewrite Hform. unfold policy_writes. simpl.
        destruct (MetaMerger.is_empty (cell (MetaMerger.bfd self) idx col))
          eqn:He; [|done].
        destruct (setitem d value) as [stored|e'] eqn:Hs; [|done].
        intros _. simpl. rewrite cell_put_cell_same.
        by destruct (policy_writes_settled MetaMerger.is_empty "" d value
                       stored Hd Hs Hv Hna) as [-> _].
Qed.

(** The postconditions at the example table: overwriting the title of
    row 0 and merging into the sentinel title of row 1. *)
Lemma update_value_postcondition_witness :
  (py_eq (cell (Ingest.bfd
                  (snd (Ingest._update_value 0 "title" (VStr "X") "OVERWRITE"
                          example_ingest))) 0 "title") (VStr "X") = true
   ∧ Ingest.is_empty
       (cell (Ingest.bfd
                (snd (Ingest._update_value 0 "title" (VStr "X") "MERGE"
                        example_ingest))) 0 "title") = false)
  ∧
  (py_eq (cell (MetaMerger.bfd
                  (snd (MetaMerger._update_value 1 "Title" (VStr "X")
                          "OVERWRITE" example_merger))) 1 "title")
     (VStr "X") = true
   ∧ MetaMerger.is_empty
       (cell (MetaMerger.bfd
                (snd (MetaMerger._update_value 1 "Title" (VStr "X") "MERGE"
                        example_merger))) 1 "title") = false).
Proof.
  destruct update_value_postcondition as [HI HM].
  split.
  - destruct (HI example_ingest 0%Z "title" (VStr "X")) as (_ & _ & Hpy);
      [by_compute | reflexivity | reflexivity | reflexivity |].
    destruct (Hpy (or_intror eq_refl)) as [Ho Hm].
    split; [exact (Ho true eq_refl)|exact (Hm false eq_refl)].
  - destruct (HM example_merger 1%Z "Title" (VStr "X")) as (_ & _ & Hpy);
      [by_compute | reflexivity | reflexivity | reflexivity |].
    destruct (Hpy (or_intror eq_refl)) as [Ho Hm].
    split; [exact (Ho true eq_refl)|exact (Hm true eq_refl)].
Defined.

(** ** Sequences of updates *)

Lemma ingest_updates_cons (u : Update) (us : list Update)
    (self : Ingest.Engine) :
  let first :=
    Ingest._update_value (u_idx u) (u_column u) (u_value u) (u_mode u) self in
  ingest_updates (u :: us) self =
    match fst first with
    | Ok _ => ingest_updates us (snd first)
    | Raise e => (Raise e, snd first)
    end.
Proof.
  intros first. subst first. unfold ingest_updates. simpl.
  unfold bind at 1. unfold bind at 1.
  by destruct (Ingest._update_value _ _ _ _ self) as [[b|e] mid].
Qed.

Lemma merger_updates_cons (u : Update) (us : list Update)
    (self : MetaMerger.Engine) :
  let first :=
    MetaMerger._update_value (u_idx u) (u_column u) (u_value u) (u_mode u)
      self in
  merger_updates (u :: us) self =
    match fst first with
    | Ok _ => merger_updates us (snd first)
    | Raise e => (Raise e, snd first)
    end.
Proof.
  intros first. subst first. unfold merger_updates. simpl.
  unfold bind at 1. unfold bind at 1.
  by destruct (MetaMerger._update_value _ _ _ _ self) as [[b|e] mid].
Qed.

(** A sequence of updates keeps the captured column set, the statistics
    and both label lists of the table. *)
Lemma ingest_updates_frame (us : list Update) (self : Ingest.Engine) :
  let self' := snd (ingest_updates us self) in
  Ingest.bfd_columns self' = Ingest.bfd_columns self
  ∧ Ingest.stats self' = Ingest.stats self
  ∧ df_index (Ingest.bfd self') = df_index (Ingest.bfd self)
  ∧ df_columns (Ingest.bfd self') = df_columns (Ingest.bfd self).
Proof.
  revert self. induction us as [|u us IH]; intros self; [done|].
  cbv zeta. rewrite ingest_updates_cons. cbv zeta.
  destruct (ingest_frame self (u_idx u) (u_column u) (u_value u) (u_mode u))
    as (H1 & H2 & H3 & H4 & _).
  destruct (Ingest._update_value _ _ _ _ self) as [[b|e] mid]; simpl in *.
  - destruct (IH mid) as (I1 & I2 & I3 & I4).
    repeat split; congruence.
  - done.
Qed.

Lemma merger_updates_frame (us : list Update) (self : MetaMerger.Engine) :
  let self' := snd (merger_updates us self) in
  MetaMerger.bfd_columns self' = MetaMerger.bfd_columns self
  ∧ MetaMerger.stats self' = MetaMerger.stats self
  ∧ MetaMerger.mapper self' = MetaMerger.mapper self
  ∧ df_index (MetaMerger.bfd self') = df_index (MetaMerger.bfd self)
  ∧ df_columns (MetaMerger.bfd self') = df_columns (MetaMerger.bfd self).
Proof.
  revert self. induction us as [|u us IH]; intros self; [done|].
  cbv zeta. rewrite merger_updates_cons. cbv zeta.
  destruct (merger_frame self (u_idx u) (u_column u) (u_value u) (u_mode u))
    as (H1 & H2 & H3 & H4 & H5 & _).
  destruct (MetaMerger._update_value _ _ _ _ self) as [[b|e] mid];
    simpl in *.
  - destruct (IH mid) as (I1 & I2 & I3 & I4 & I5).
    repeat split; congruence.
  - done.
Qed.

(** A sequence of updates keeps the dtypes of the columns. *)
Lemma ingest_updates_dtypes (us : list Update) (self : Ingest.Engine) :
  df_dtypes (Ingest.bfd (snd (ingest_updates us self)))
  = df_dtypes (Ingest.bfd self).
Proof.
  revert self. induction us as [|u us IH]; intros self; [done|].
  rewrite ingest_updates_cons. cbv zeta.
  pose proof (ingest_keeps_dtypes self (u_idx u) (u_column u) (u_value u)
                (u_mode u)) as Hd.
  destruct (Ingest._update_value _ _ _ _ self) as [[b|e] mid]; simpl in *;
    [|done].
  by rewrite IH.
Qed.

Lemma merger_updates_dtypes (us : list Update) (self : MetaMerger.Engine) :
  df_dtypes (MetaMerger.bfd (snd (merger_updates us self)))
  = df_dtypes (MetaMerger.bfd self).
Proof.
  revert self. induction us as [|u us IH]; intros self; [done|].
  rewrite merger_updates_cons. cbv zeta.
  pose proof (merger_keeps_dtypes self (u_idx u) (u_column u) (u_value u)
                (u_mode u)) as Hd.
  destruct (MetaMerger._update_value _ _ _ _ self) as [[b|e] mid];
    simpl in *; [|done].
  by rewrite IH.
Qed.

Lemma ingest_merge_keeps (self : Ingest.Engine) (idx : Z) (column : string)
    (value : pyval) (i : Z) (c : string) :
  Ingest.is_empty (cell (Ingest.bfd self) i c) = false →
  cell (Ingest.bfd (snd (Ingest._update_value idx column value "MERGE" self)))
    i c
  = cell (Ingest.bfd self) i c.
Proof.
  intros Hne.
  destruct (ingest_update_cases self idx column value "MERGE")
    as [[-> _]|(stored & -> & _ & _ & _ & Hw)]; [done|].
  simpl. apply cell_put_cell_other. intros [= -> ->].
  unfold policy_writes in Hw. simpl in Hw. congruence.
Qed.

Lemma merger_merge_keeps (self : MetaMerger.Engine) (idx : Z)
    (column : string) (value : pyval) (i : Z) (c : string) :
  MetaMerger.is_empty (cell (MetaMerger.bfd self) i c) = false →
  cell (MetaMerger.bfd
          (snd (MetaMerger._update_value idx column value "MERGE" self))) i c
  = cell (MetaMerger.bfd self) i c.
Proof.
  intros Hne.
  destruct (merger_update_cases self idx column value "MERGE")
    as [[-> _]|(stored & -> & _ & _ & _ & Hw)]; [done|].
  simpl. apply cell_put_cell_other. intros [= -> Hc].
  unfold policy_writes in Hw. simpl in Hw. rewrite <- Hc in Hw. congruence.
Qed.

(** X3. Under MERGE the first writer wins: a cell that is not empty keeps
    its value through every sequence of MERGE updates, whatever rows,
    columns and values they name. Both implementations. *)
Theorem merge_sequence_keeps_filled_cells :
  (∀ (us : list Update) (self : Ingest.Engine) (i : Z) (c : string),
     Forall (fun u => u_mode u = "MERGE") us →
     Ingest.is_empty (cell (Ingest.bfd self) i c) = false →
     cell (Ingest.bfd (snd (ingest_updates us self))) i c
     = cell (Ingest.bfd self) i c)
  ∧
  (∀ (us : list Update) (self : MetaMerger.Engine) (i : Z) (c : string),
     Forall (fun u => u_mode u = "MERGE") us →
     MetaMerger.is_empty (cell (MetaMerger.bfd self) i c) = false →
     cell (MetaMerger.bfd (snd (merger_updates us self))) i c
     = cell (MetaMerger.bfd self) i c).
Proof.
  split.
  - intros us. induction us as [|u us IH]; intros self i c Hall Hne; [done|].
    inversion Hall as [|? ? Hu Hus]; subst.
    rewrite ingest_updates_cons. cbv zeta.
    pose proof (ingest_merge_keeps self (u_idx u) (u_column u) (u_value u)
                  i c Hne) as Hstep.
    rewrite Hu. 
    destruct (Ingest._update_value _ _ _ "MERGE" self) as [[b|e] mid];
      simpl in *; [|done].
    rewrite IH; [done|done|]. by rewrite Hstep.
  - intros us. induction us as [|u us IH]; intros self i c Hall Hne; [done|].
    inversion Hall as [|? ? Hu Hus]; subst.
    rewrite merger_updates_cons. cbv zeta.
    pose proof (merger_merge_keeps self (u_idx u) (u_column u) (u_value u)
                  i c Hne) as Hstep.
    rewrite Hu.
    destruct (MetaMerger._update_value _ _ _ "MERGE" self) as [[b|e] mid];
      simpl in *; [|done].
    rewrite IH; [done|done|]. by rewrite Hstep.
Qed.

(** At the example table: two MERGE updates of the title of row 0 leave
    ["Y"] in place. *)
Lemma merge_sequence_witness :
  cell (Ingest.bfd
          (snd (ingest_updates
                  [ {| u_idx := 0; u_column := "title"; u_value := VStr "A";
                       u_mode := "MERGE" |};
                    {| u_idx := 0; u_column := "title"; u_value := VStr "B";
                       u_mode := "MERGE" |} ] example_ingest))) 0 "title"
  = VStr "Y"
  ∧ cell (MetaMerger.bfd
            (snd (merger_updates
                    [ {| u_idx := 0; u_column := "Title";
                         u_value := VStr "A"; u_mode := "MERGE" |};
                      {| u_idx := 0; u_column := "title";
                         u_value := VStr "B"; u_mode := "MERGE" |} ]
                    example_merger))) 0 "title"
    = VStr "Y".
Proof.
  destruct merge_sequence_keeps_filled_cells as [HI HM].
  split.
  - rewrite HI; [reflexivity|repeat constructor|reflexivity].
  - rewrite HM; [reflexivity|repeat constructor|reflexivity].
Defined.

Lemma put_cell_comm (df : DataFrame) (i1 i2 : Z) (c1 c2 : string)
    (v1 v2 : pyval) :
  (i1, c1) ≠ (i2, c2) →
  put_cell (put_cell df i1 c1 v1) i2 c2 v2
  = put_cell (put_cell df i2 c2 v2) i1 c1 v1.
Proof.
  intros Hne. unfold put_cell; simpl. f_equal. by apply insert_insert_ne.
Qed.

(** A call depends on the engine only through the captured column set,
    the labels and dtypes of the table and the addressed cell. *)
Lemma ingest_update_local (self other : Ingest.Engine) (idx : Z)
    (column : string) (value : pyval) (mode : string) :
  Ingest.bfd_columns other = Ingest.bfd_columns self →
  df_index (Ingest.bfd other) = df_index (Ingest.bfd self) →
  df_columns (Ingest.bfd other) = df_columns (Ingest.bfd self) →
  df_dtypes (Ingest.bfd other) = df_dtypes (Ingest.bfd self) →
  cell (Ingest.bfd other) idx column = cell (Ingest.bfd self) idx column →
  let r := Ingest._update_value idx column value mode self in
  Ingest._update_value idx column value mode other
  = (fst r,
     match fst r, setitem (dtype_of (Ingest.bfd self) column) value with
     | Ok true, Ok stored =>
         Ingest.set_bfd (put_cell (Ingest.bfd other) idx column stored) other
     | _, _ => other
     end).
Proof.
  intros Hc Hi Hcs Hd Hcell. cbv zeta.
  rewrite !ingest_update_formula.
  unfold has_row, has_column, dtype_of. rewrite Hc, Hi, Hcs, Hd, Hcell.
  destruct (_ || Ingest.is_empty value); [done|].
  destruct (negb _); [done|].
  destruct (policy_writes _ _ _ _ _) as [[]|e]; [|done|done].
  by destruct (setitem _ value).
Qed.

Lemma merger_update_local (self other : MetaMerger.Engine) (idx : Z)
    (column : string) (value : pyval) (mode : string) :
  let col := MetaMerger.to_canonical (MetaMerger.mapper self) column in
  MetaMerger.mapper other = MetaMerger.mapper self →
  MetaMerger.bfd_columns other = MetaMerger.bfd_columns self →
  df_index (MetaMerger.bfd other) = df_index (MetaMerger.bfd self) →
  df_columns (MetaMerger.bfd other) = df_columns (MetaMerger.bfd self) →
  df_dtypes (MetaMerger.bfd other) = df_dtypes (MetaMerger.bfd self) →
  cell (MetaMerger.bfd other) idx col = cell (MetaMerger.bfd self) idx col →
  let r := MetaMerger._update_value idx column value mode self in
  MetaMerger._update_value idx column value mode other
  = (fst r,
     match fst r, setitem (dtype_of (MetaMerger.bfd self) col) value with
     | Ok true, Ok stored =>
         MetaMerger.set_bfd (put_cell (MetaMerger.bfd other) idx col stored)
           other
     | _, _ => other
     end).
Proof.
  intros col Hm Hc Hi Hcs Hd Hcell. cbv zeta.
  rewrite !merger_update_formula. cbv zeta. rewrite Hm. fold col.
  unfold has_row, has_column, dtype_of. rewrite Hc, Hi, Hcs, Hd, Hcell.
  destruct (_ || MetaMerger.is_empty value); [done|].
  destruct (negb _); [done|].
  destruct (policy_writes _ _ _ _ _) as [[]|e]; [|done|done].
  by destruct (setitem _ value).
Qed.

(** X4. Updates of different cells commute: each call returns what it
    returns when run first, and the two orders end in the same engine. *)
Theorem updates_of_distinct_cells_commute :
  (∀ (self : Ingest.Engine) (u1 u2 : Update),
     (u_idx u1, u_column u1) ≠ (u_idx u2, u_column u2) →
     let run1 := fun s =>
       Ingest._update_value (u_idx u1) (u_column u1) (u_value u1) (u_mode u1)
         s in
     let run2 := fun s =>
       Ingest._update_value (u_idx u2) (u_column u2) (u_value u2) (u_mode u2)
         s in
     fst (run1 self) = fst (run1 (snd (run2 self)))
     ∧ fst (run2 self) = fst (run2 (snd (run1 self)))
     ∧ snd (run2 (snd (run1 self))) = snd (run1 (snd (run2 self))))
  ∧
  (∀ (self : MetaMerger.Engine) (u1 u2 : Update),
     (u_idx u1, MetaMerger.to_canonical (MetaMerger.mapper self) (u_column u1))
     ≠ (u_idx u2,
        MetaMerger.to_canonical (MetaMerger.mapper self) (u_column u2)) →
     let run1 := fun s =>
       MetaMerger._update_value (u_idx u1) (u_column u1) (u_value u1)
         (u_mode u1) s in
     let run2 := fun s =>
       MetaMerger._update_value (u_idx u2) (u_column u2) (u_value u2)
         (u_mode u2) s in
     fst (run1 self) = fst (run1 (snd (run2 self)))
     ∧ fst (run2 self) = fst (run2 (snd (run1 self)))
     ∧ snd (run2 (snd (run1 self))) = snd (run1 (snd (run2 self)))).
Proof.
  split.
  - intros self [i1 c1 v1 m1] [i2 c2 v2 m2]; simpl. intros Hne. cbv zeta beta.
    assert ((i2, c2) ≠ (i1, c1)) as Hne' by congruence.
    pose proof (ingest_update_local self self i1 c1 v1 m1
                  eq_refl eq_refl eq_refl eq_refl eq_refl) as H1.
    pose proof (ingest_update_local self self i2 c2 v2 m2
                  eq_refl eq_refl eq_refl eq_refl eq_refl) as H2.
    cbv zeta in H1, H2.
    set (r1 := fst (Ingest._update_value i1 c1 v1 m1 self)) in *.
    set (r2 := fst (Ingest._update_value i2 c2 v2 m2 self)) in *.
    set (w1 := setitem (dtype_of (Ingest.bfd self) c1) v1) in *.
    set (w2 := setitem (dtype_of (Ingest.bfd self) c2) v2) in *.
    assert (∀ s1 : Ingest.Engine,
      s1 = snd (Ingest._update_value i1 c1 v1 m1 self) →
      Ingest._update_value i2 c2 v2 m2 s1
      = (r2, match r2, w2 with
             | Ok true, Ok stored =>
                 Ingest.set_bfd (put_cell (Ingest.bfd s1) i2 c2 stored) s1
             | _, _ => s1
             end)) as H21.
    { intros s1 ->. rewrite H1. simpl snd.
      apply ingest_update_local;
        destruct r1 as [[]|], w1; try reflexivity.
      simpl. by apply cell_put_cell_other. }
    assert (∀ s2 : Ingest.Engine,
      s2 = snd (Ingest._update_value i2 c2 v2 m2 self) →
      Ingest._update_value i1 c1 v1 m1 s2
      = (r1, match r1, w1 with
             | Ok true, Ok stored =>
                 Ingest.set_bfd (put_cell (Ingest.bfd s2) i1 c1 stored) s2
             | _, _ => s2
             end)) as H12.
    { intros s2 ->. rewrite H2. simpl snd.
      apply ingest_update_local;
        destruct r2 as [[]|], w2; try reflexivity.
      simpl. by apply cell_put_cell_other. }
    rewrite (H21 _ eq_refl), (H12 _ eq_refl). simpl fst. simpl snd.
    split; [done|]. split; [done|]. rewrite H1, H2. simpl snd.
    destruct r1 as [[]|], w1, r2 as [[]|], w2; try reflexivity.
    unfold Ingest.set_bfd; cbn [Ingest.stats Ingest.bfd_columns Ingest.bfd].
    f_equal. by apply put_cell_comm.
  - intros self [i1 c1 v1 m1] [i2 c2 v2 m2]; simpl.
    set (k1 := MetaMerger.to_canonical (MetaMerger.mapper self) c1).
    set (k2 := MetaMerger.to_canonical (MetaMerger.mapper self) c2).
    intros Hne. cbv zeta beta.
    assert ((i2, k2) ≠ (i1, k1)) as Hne' by congruence.
    pose proof (merger_update_local self self i1 c1 v1 m1
                  eq_refl eq_refl eq_refl eq_refl eq_refl eq_refl) as H1.
    pose proof (merger_update_local self self i2 c2 v2 m2
                  eq_refl eq_refl eq_refl eq_refl eq_refl eq_refl) as H2.
    cbv zeta in H1, H2. fold k1 in H1. fold k2 in H2.
    set (r1 := fst (MetaMerger._update_value i1 c1 v1 m1 self)) in *.
    set (r2 := fst (MetaMerger._update_value i2 c2 v2 m2 self)) in *.
    set (w1 := setitem (dtype_of (MetaMerger.bfd self) k1) v1) in *.
    set (w2 := setitem (dtype_of (MetaMerger.bfd self) k2) v2) in *.
    assert (∀ s1 : MetaMerger.Engine,
      s1 = snd (MetaMerger._update_value i1 c1 v1 m1 self) →
      MetaMerger._update_value i2 c2 v2 m2 s1
      = (r2, match r2, w2 with
             | Ok true, Ok stored =>
                 MetaMerger.set_bfd (put_cell (MetaMerger.bfd s1) i2 k2 stored)
                   s1
             | _, _ => s1
             end)) as H21.
    { intros s1 ->. rewrite H1. simpl snd.
      apply (merger_update_local self);
        destruct r1 as [[]|], w1; try reflexivity.
      simpl. by apply cell_put_cell_other. }
    assert (∀ s2 : MetaMerger.Engine,
      s2 = snd (MetaMerger._update_value i2 c2 v2 m2 self) →
      MetaMerger._update_value i1 c1 v1 m1 s2
      = (r1, match r1, w1 with
             | Ok true, Ok stored =>
                 MetaMerger.set_bfd (put_cell (MetaMerger.bfd s2) i1 k1 stored)
                   s2
             | _, _ => s2
             end)) as H12.
    { intros s2 ->. rewrite H2. simpl snd.
      apply (merger_update_local self);
        destruct r2 as [[]|], w2; try reflexivity.
      simpl. by apply cell_put_cell_other. }
    rewrite (H21 _ eq_refl), (H12 _ eq_refl). simpl fst. simpl snd.
    split; [done|]. split; [done|]. rewrite H1, H2. simpl snd.
    destruct r1 as [[]|], w1, r2 as [[]|], w2; try reflexivity.
    unfold MetaMerger.set_bfd;
      cbn [MetaMerger.stats MetaMerger.bfd_columns MetaMerger.mapper
           MetaMerger.bfd].
    f_equal. by apply put_cell_comm.
Qed.

(** Commutation at the example table: overwriting the title of row 0
    and merging a premiere date into row 1, in either order. *)
Lemma updates_commute_witness :
  snd (Ingest._update_value 1 "premiere_date" (VStr "2026-01-01") "MERGE"
         (snd (Ingest._update_value 0 "title" (VStr "X") "OVERWRITE"
                 example_ingest)))
  = snd (Ingest._update_value 0 "title" (VStr "X") "OVERWRITE"
           (snd (Ingest._update_value 1 "premiere_date" (VStr "2026-01-01")
                   "MERGE" example_ingest)))
  ∧ snd (MetaMerger._update_value 1 "release_date" (VStr "2026-01-01")
           "MERGE"
           (snd (MetaMerger._update_value 0 "title" (VStr "X") "OVERWRITE"
                   example_merger)))
    = snd (MetaMerger._update_value 0 "title" (VStr "X") "OVERWRITE"
             (snd (MetaMerger._update_value 1 "release_date"
                     (VStr "2026-01-01") "MERGE" example_merger))).
Proof.
  destruct updates_of_distinct_cells_commute as [HI HM].
  split.
  - apply (HI example_ingest
             {| u_idx := 0; u_column := "title"; u_value := VStr "X";
                u_mode := "OVERWRITE" |}
             {| u_idx := 1; u_column := "premiere_date";
                u_value := VStr "2026-01-01"; u_mode := "MERGE" |}).
    discriminate.
  - apply (HM example_merger
             {| u_idx := 0; u_column := "title"; u_value := VStr "X";
                u_mode := "OVERWRITE" |}
             {| u_idx := 1; u_column := "release_date";
                u_value := VStr "2026-01-01"; u_mode := "MERGE" |}).
    discriminate.
Defined.

(** X5. No sequence of cell updates can trip the schema guard: after a load
    and any updates, [save] and [save_database] return true and write
    exactly the current table, whose row and column labels are those of
    the loaded table; [save] records as many rows at the end as at the
    start, and the merger's error list stays empty. *)
Theorem save_succeeds_after_updates :
  (∀ (df : DataFrame) (us : list Update) (disk : Ingest.Disk),
     let self := snd (ingest_updates us (Ingest.load_bfd df)) in
     let result := Ingest.save self disk in
     fst (fst result) = true
     ∧ Ingest.bfd_output (snd result) = Some (Ingest.bfd self)
     ∧ df_index (Ingest.bfd self) = df_index df
     ∧ df_columns (Ingest.bfd self) = df_columns df
     ∧ Ingest.bfd_rows_end (Ingest.stats (snd (fst result)))
       = Ingest.bfd_rows_start (Ingest.stats (snd (fst result))))
  ∧
  (∀ (m : MetaMerger.ColumnMapper) (df : DataFrame) (us : list Update)
     (disk : MetaMerger.Disk),
     let self := snd (merger_updates us (MetaMerger.load_database m df)) in
     let result := MetaMerger.save_database self disk in
     fst (fst result) = true
     ∧ MetaMerger.bfd_meta (snd result) = Some (MetaMerger.bfd self)
     ∧ df_index (MetaMerger.bfd self) = df_index df
     ∧ df_columns (MetaMerger.bfd self) = df_columns df
     ∧ MetaMerger.errors (MetaMerger.stats (snd (fst result))) = []).
Proof.
  split.
  - intros df us disk self result.
    destruct (ingest_updates_frame us (Ingest.load_bfd df))
      as (Hc & Hs & Hi & Hcs). fold self in Hc, Hs, Hi, Hcs.
    simpl in Hc, Hi, Hcs.
    assert (column_set (Ingest.bfd self) ∖ Ingest.bfd_columns self = ∅)
      as Hd.
    { apply difference_empty_subseteq. unfold column_set in *.
      by rewrite Hc, Hcs. }
    subst result. unfold Ingest.save. simpl.
    rewrite (bool_decide_eq_true_2 _ Hd). simpl.
    repeat split; try done. rewrite Hs. simpl. unfold len. by rewrite Hi.
  - intros m df us disk self result.
    destruct (merger_updates_frame us (MetaMerger.load_database m df))
      as (Hc & Hs & _ & Hi & Hcs). fold self in Hc, Hs, Hi, Hcs.
    simpl in Hc, Hi, Hcs.
    assert (column_set (MetaMerger.bfd self) ∖ MetaMerger.bfd_columns self
            = ∅) as Hd.
    { apply difference_empty_subseteq. unfold column_set in *.
      by rewrite Hc, Hcs. }
    subst result. unfold MetaMerger.save_database.
    rewrite (bool_decide_eq_true_2 _ Hd). simpl.
    repeat split; try done. by rewrite Hs.
Qed.

(** In an object or string column the policy test is the one of Python
    scalars and raises nothing. *)
Lemma policy_writes_python (is_empty : pyval → bool) (mode : string)
    (d : dtype) (current value : pyval) :
  d = object_ ∨ d = str_ →
  policy_writes is_empty mode d current value
  = Ok (if String.eqb mode "MERGE" then is_empty current
        else if String.eqb mode "OVERWRITE"
             then isna current || py_ne current value
             else false).
Proof.
  intros Hd. unfold policy_writes. rewrite (scalar_ne_python d _ _ Hd).
  destruct (String.eqb mode "MERGE"); [done|].
  destruct (String.eqb mode "OVERWRITE"); [|done].
  by destruct (isna current).
Qed.

(** What can leave the policy test and the assignment as an exception:
    the assignment refused the value, or the comparison of OVERWRITE
    raised. *)
Lemma policy_raises (is_empty : pyval → bool) (mode : string) (d : dtype)
    (current value : pyval) (e : exn) :
  policy_writes is_empty mode d current value = Raise e →
  mode = "OVERWRITE" ∧ scalar_ne d current value = Raise e.
Proof.
  unfold policy_writes.
  destruct (String.eqb_spec mode "MERGE"); [done|].
  destruct (String.eqb_spec mode "OVERWRITE"); [|done].
  destruct (isna current); [done|].
  destruct (scalar_ne d current value) as [b|e']; [done|].
  destruct (is_type_or_value_error e'); [done|]. by intros [= ->].
Qed.

(** X6. The exceptions of [_update_value], on an engine reached from a load
    by cell updates. A call that raises leaves the engine as it was. It
    raises only for a column of the table and a non-empty value, and then
    either [KeyError], the row label not being in the table, or, at a row
    of the table, what the column raised: the assignment refused the
    value or the comparison of OVERWRITE failed. In an object column the
    [KeyError] of an unknown row is the only exception. In a string
    column the other exception is the [TypeError] of a value that is not
    a string, raised exactly when the policy goes on to assign it. Both
    implementations. *)
Theorem update_value_exceptions :
  (∀ (df : DataFrame) (us : list Update) (idx : Z) (column : string)
     (value : pyval) (mode : string) (e : exn),
     let self := snd (ingest_updates us (Ingest.load_bfd df)) in
     let d := dtype_of df column in
     let current := cell (Ingest.bfd self) idx column in
     let result := Ingest._update_value idx column value mode self in
     (fst result = Raise e → snd result = self)
     ∧ (fst result = Raise e →
        column ∈ df_columns df ∧ Ingest.is_empty value = false
        ∧ ((e = KeyError ∧ idx ∉ df_index df)
           ∨ (idx ∈ df_index df
              ∧ (setitem d value = Raise e
                 ∨ (mode = "OVERWRITE"
                    ∧ scalar_ne d current value = Raise e)))))
     ∧ (d = object_ →
        (fst result = Raise e
         ↔ e = KeyError ∧ column ∈ df_columns df
           ∧ Ingest.is_empty value = false ∧ idx ∉ df_index df))
     ∧ (d = str_ →
        (fst result = Raise e
         ↔ column ∈ df_columns df ∧ Ingest.is_empty value = false
           ∧ ((e = KeyError ∧ idx ∉ df_index df)
              ∨ (e = TypeError ∧ idx ∈ df_index df
                 ∧ (∀ s : string, value ≠ VStr s)
                 ∧ (mode = "MERGE" ∧ Ingest.is_empty current = true
                    ∨ mode = "OVERWRITE"
                      ∧ isna current || py_ne current value = true))))))
  ∧
  (∀ (m : MetaMerger.ColumnMapper) (df : DataFrame) (us : list Update)
     (idx : Z) (column : string) (value : pyval) (mode : string) (e : exn),
     let self := snd (merger_updates us (MetaMerger.load_database m df)) in
     let col := MetaMerger.to_canonical m column in
     let d := dtype_of df col in
     let current := cell (MetaMerger.bfd self) idx col in
     let result := MetaMerger._update_value idx column value mode self in
     (fst result = Raise e → snd result = self)
     ∧ (fst result = Raise e →
        col ∈ df_columns df ∧ MetaMerger.is_empty value = false
        ∧ ((e = KeyError ∧ idx ∉ df_index df)
           ∨ (idx ∈ df_index df
              ∧ (setitem d value = Raise e
                 ∨ (mode = "OVERWRITE"
                    ∧ scalar_ne d current value = Raise e)))))
     ∧ (d = object_ →
        (fst result = Raise e
         ↔ e = KeyError ∧ col ∈ df_columns df
           ∧ MetaMerger.is_empty value = false ∧ idx ∉ df_index df))
     ∧ (d = str_ →
        (fst result = Raise e
         ↔ col ∈ df_columns df ∧ MetaMerger.is_empty value = false
           ∧ ((e = KeyError ∧ idx ∉ df_index df)
              ∨ (e = TypeError ∧ idx ∈ df_index df
                 ∧ (∀ s : string, value ≠ VStr s)
                 ∧ (mode = "MERGE" ∧ MetaMerger.is_empty current = true
                    ∨ mode = "OVERWRITE"
                      ∧ isna current || py_ne current value = true)))))).
Proof.
  split.
  - intros df us idx column value mode e self d current result.
    destruct (ingest_updates_frame us (Ingest.load_bfd df))
      as (Hc & _ & Hi & Hcs). fold self in Hc, Hi, Hcs.
    pose proof (ingest_updates_dtypes us (Ingest.load_bfd df)) as Hdt.
    fold self in Hdt. simpl in Hc, Hi, Hcs, Hdt.
    assert (result =
      if negb (bool_decide (column ∈ df_columns df)) || Ingest.is_empty value
      then (Ok false, self)
      else if negb (bool_decide (idx ∈ df_index df))
      then (Raise KeyError, self)
      else match policy_writes Ingest.is_empty mode d current value with
           | Raise e => (Raise e, self)
           | Ok false => (Ok false, self)
           | Ok true =>
               match setitem d value with
               | Ok stored =>
                   (Ok true,
                    Ingest.set_bfd
                      (put_cell (Ingest.bfd self) idx column stored) self)
               | Raise e => (Raise e, self)
               end
           end) as Hform.
    { subst result. rewrite ingest_update_formula. rewrite Hc.
      unfold has_row, has_column, dtype_of. rewrite Hi, Hcs, Hdt.
      fold (dtype_of df column). fold d current.
      rewrite (bool_decide_ext (column ∈ column_set df)
                 (column ∈ df_columns df))
        by (unfold column_set; apply elem_of_list_to_set).
      destruct (bool_decide (column ∈ df_columns df)); [|done].
      by rewrite andb_true_r. }
    clearbody result. subst result.
    destruct (bool_decide (column ∈ df_columns df)) eqn:Hin; simpl.
    2:{ apply bool_decide_eq_false in Hin.
        split; [done|]. split; [done|].
        split; intros _; (split; [done|]); intros H; tauto. }
    apply bool_decide_eq_true in Hin.
    destruct (Ingest.is_empty value) eqn:Hv; simpl.
    { split; [done|]. split; [done|].
      split; intros _; (split; [done|]); intros H;
        [by destruct H as (_ & _ & ? & _)|by destruct H as (_ & ? & _)]. }
    pose proof (ingest_not_empty_not_na _ Hv) as Hna.
    destruct (bool_decide (idx ∈ df_index df)) eqn:Hrow; simpl.
    2:{ apply bool_decide_eq_false in Hrow.
        split; [done|]. split; [intros [= <-]; auto|].
        split; intros _; split.
        - intros [= <-]. auto.
        - by intros (-> & _).
        - intros [= <-]. auto.
        - intros (_ & _ & [[-> _]|(_ & ? & _)]); [done|contradiction]. }
    apply bool_decide_eq_true in Hrow.
    split.
    { destruct (policy_writes _ _ _ _ _) as [[]|e']; try done.
      by destruct (setitem d value). }
    split.
    { destruct (policy_writes _ _ _ _ _) as [[]|e'] eqn:Hp; simpl;
        try done.
      - destruct (setitem d value) as [stored|e'] eqn:Hs; simpl; [done|].
        intros [= <-]. auto 10.
      - intros [= <-]. apply policy_raises in Hp. auto 10. }
    split.
    { intros Hd. rewrite policy_writes_python by by left.
      rewrite Hd. cbn [setitem].
      split; [|by intros (_ & _ & _ & ?)].
      by destruct (if String.eqb mode "MERGE" then _ else _). }
    intros Hd. rewrite policy_writes_python by by right.
    rewrite Hd.
    split.
    + destruct (if String.eqb mode "MERGE" then _ else _) eqn:Hp; [|done].
      destruct (setitem str_ value) as [stored|e'] eqn:Hs; simpl; [done|].
      intros [= <-]. do 2 (split; [done|]). right.
      assert (e' = TypeError ∧ ∀ s : string, value ≠ VStr s) as [-> Hns].
      { destruct value as [|b|z|f|s]; try destruct f;
          cbn [setitem float_isnan] in Hs; simpl in Hna; try done;
          by injection Hs as <-. }
      do 3 (split; [done|]).
      destruct (String.eqb_spec mode "MERGE"); [by left|].
      destruct (String.eqb_spec mode "OVERWRITE"); [by right|done].
    + intros (_ & _ & [[_ ?]|(-> & _ & Hns & Hp)]); [contradiction|].
      rewrite (setitem_str_refuses _ Hna Hns).
      assert ((if String.eqb mode "MERGE" then Ingest.is_empty current
               else if String.eqb mode "OVERWRITE"
                    then isna current || py_ne current value
                    else false) = true) as ->; [|done].
      destruct Hp as [[-> ?]|[-> ?]]; done.
  - intros m df us idx column value mode e self col d current result.
    destruct (merger_updates_frame us (MetaMerger.load_database m df))
      as (Hc & _ & Hm & Hi & Hcs). fold self in Hc, Hm, Hi, Hcs.
    pose proof (merger_updates_dtypes us (MetaMerger.load_database m df))
      as Hdt.
    fold self in Hdt. simpl in Hc, Hm, Hi, Hcs, Hdt.
    assert (result =
      if negb (bool_decide (col ∈ df_columns df)) || MetaMerger.is_empty value
      then (Ok false, self)
      else if negb (bool_decide (idx ∈ df_index df))
      then (Raise KeyError, self)
      else match policy_writes MetaMerger.is_empty mode d current value with
           | Raise e => (Raise e, self)
           | Ok false => (Ok false, self)
           | Ok true =>
               match setitem d value with
               | Ok stored =>
                   (Ok true,
                    MetaMerger.set_bfd
                      (put_cell (MetaMerger.bfd self) idx col stored) self)
               | Raise e => (Raise e, self)
               end
           end) as Hform.
    { subst result. rewrite merger_update_formula. cbv zeta. rewrite Hc, Hm.
      fold col.
      unfold has_row, has_column, dtype_of. rewrite Hi, Hcs, Hdt.
      fold (dtype_of df col). fold d current.
      rewrite (bool_decide_ext (col ∈ column_set df) (col ∈ df_columns df))
        by (unfold column_set; apply elem_of_list_to_set).
      destruct (bool_decide (col ∈ df_columns df)); [|done].
      by rewrite andb_true_r. }
    clearbody result. subst result.
    destruct (bool_decide (col ∈ df_columns df)) eqn:Hin; simpl.
    2:{ apply bool_decide_eq_false in Hin.
        split; [done|]. split; [done|].
        split; intros _; (split; [done|]); intros H; tauto. }
    apply bool_decide_eq_true in Hin.
    destruct (MetaMerger.is_empty value) eqn:Hv; simpl.
    { split; [done|]. split; [done|].
      split; intros _; (split; [done|]); intros H;
        [by destruct H as (_ & _ & ? & _)|by destruct H as (_ & ? & _)]. }
    pose proof (merger_not_empty_not_na _ Hv) as Hna.
    destruct (bool_decide (idx ∈ df_index df)) eqn:Hrow; simpl.
    2:{ apply bool_decide_eq_false in Hrow.
        split; [done|]. split; [intros [= <-]; auto|].
        split; intros _; split.
        - intros [= <-]. auto.
        - by intros (-> & _).
        - intros [= <-]. auto.
        - intros (_ & _ & [[-> _]|(_ & ? & _)]); [done|contradiction]. }
    apply bool_decide_eq_true in Hrow.
    split.
    { destruct (policy_writes _ _ _ _ _) as [[]|e']; try done.
      by destruct (setitem d value). }
    split.
    { destruct (policy_writes _ _ _ _ _) as [[]|e'] eqn:Hp; simpl;
        try done.
      - destruct (setitem d value) as [stored|e'] eqn:Hs; simpl; [done|].
        intros [= <-]. auto 10.
      - intros [= <-]. apply policy_raises in Hp. auto 10. }
    split.
    { intros Hd. rewrite policy_writes_python by by left.
      rewrite Hd. cbn [setitem].
      split; [|by intros (_ & _ & _ & ?)].
      by destruct (if String.eqb mode "MERGE" then _ else _). }
    intros Hd. rewrite policy_writes_python by by right.
    rewrite Hd.
    split.
    + destruct (if String.eqb mode "MERGE" then _ else _) eqn:Hp; [|done].
      destruct (setitem str_ value) as [stored|e'] eqn:Hs; simpl; [done|].
      intros [= <-]. do 2 (split; [done|]). right.
      assert (e' = TypeError ∧ ∀ s : string, value ≠ VStr s) as [-> Hns].
      { destruct value as [|b|z|f|s]; try destruct f;
          cbn [setitem float_isnan] in Hs; simpl in Hna; try done;
          by injection Hs as <-. }
      do 3 (split; [done|]).
      destruct (String.eqb_spec mode "MERGE"); [by left|].
      destruct (String.eqb_spec mode "OVERWRITE"); [by right|done].
    + intros (_ & _ & [[_ ?]|(-> & _ & Hns & Hp)]); [contradiction|].
      rewrite (setitem_str_refuses _ Hna Hns).
      assert ((if String.eqb mode "MERGE" then MetaMerger.is_empty current
               else if String.eqb mode "OVERWRITE"
                    then isna current || py_ne current value
                    else false) = true) as ->; [|done].
      destruct Hp as [[-> ?]|[-> ?]]; done.
Qed.

(* ===================================================================== *)
(** * Further properties of identifier normalisation *)
(* ===================================================================== *)

Lemma rstrip_idemp (s : string) : rstrip (rstrip s) = rstrip s.
Proof.
  induction s as [|c s IH]; [done|]. simpl.
  destruct (rstrip s) as [|d r] eqn:Hr.
  - destruct (isspace c) eqn:Hc; [done|]. simpl. by rewrite Hc.
  - simpl in *. by rewrite IH.
Qed.

Lemma rstrip_cons_nonspace (c : ascii) (s : string) :
  isspace c = false → rstrip (String c s) = String c (rstrip s).
Proof. intros Hc. simpl. destruct (rstrip s); by rewrite ?Hc. Qed.

Lemma lstrip_shape (s : string) :
  lstrip s = "" ∨ ∃ c t, lstrip s = String c t ∧ isspace c = false.
Proof.
  induction s as [|c s IH]; [by left|]. simpl.
  destruct (isspace c) eqn:Hc; [done|]. right. eauto.
Qed.

(** [strip] is idempotent. *)
Lemma strip_idemp (s : string) : strip (strip s) = strip s.
Proof.
  unfold strip. destruct (lstrip_shape s) as [->|(c & t & -> & Hc)]; [done|].
  rewrite (rstrip_cons_nonspace c t Hc). simpl lstrip. rewrite Hc.
  rewrite <- (rstrip_cons_nonspace c t Hc). apply rstrip_idemp.
Qed.

Lemma all_chars_app (p : ascii → bool) (s t : string) :
  all_chars p (s +:+ t) = all_chars p s && all_chars p t.
Proof.
  induction s as [|c s IH]; [done|]. simpl. by rewrite IH, andb_assoc.
Qed.

Lemma all_chars_zeros (n : nat) : all_chars isdigit_char (zeros n) = true.
Proof. induction n; [done|]. simpl. by rewrite IHn. Qed.

(** Zero-padding a digit string gives a digit string. *)
Lemma zfill_digits (w : nat) (s : string) :
  all_chars isdigit_char s = true →
  all_chars isdigit_char (zfill w s) = true.
Proof.
  intros Hs. unfold zfill. destruct (w <=? String.length s)%nat; [done|].
  destruct s as [|c s]; [apply all_chars_zeros|].
  simpl in Hs. apply andb_true_iff in Hs as [Hc Hs].
  assert (Ascii.eqb c "+" || Ascii.eqb c "-" = false) as ->.
  { destruct c as [[] [] [] [] [] [] [] []]; vm_compute in Hc |- *;
      congruence. }
  rewrite all_chars_app, all_chars_zeros. simpl. by rewrite Hc, Hs.
Qed.

(** A string ["tt"] followed by digits is its own stripped form. *)
Lemma strip_tt_digits (s : string) :
  all_chars isdigit_char s = true → strip ("tt" +:+ s) = "tt" +:+ s.
Proof.
  intros Hs. unfold strip. change ("tt" +:+ s) with (String "t" (String "t" s)).
  change (lstrip (String "t" (String "t" s))) with (String "t" (String "t" s)).
  rewrite !rstrip_cons_nonspace by done. by rewrite rstrip_digits.
Qed.

(** The merger's sentinels are those of the ingest engine and
    ["undefined"]. *)
Lemma merger_sentinels (t : string) :
  t ∈ MetaMerger.EMPTY_VALUES ↔ t ∈ Ingest.EMPTY_VALUES ∨ t = "undefined".
Proof.
  unfold Ingest.EMPTY_VALUES, MetaMerger.EMPTY_VALUES.
  rewrite !elem_of_cons, !elem_of_nil. tauto.
Qed.

Lemma ingest_is_empty_merger (v : pyval) :
  Ingest.is_empty v = true → MetaMerger.is_empty v = true.
Proof.
  unfold Ingest.is_empty, MetaMerger.is_empty.
  destruct (isna v); [done|]. destruct v; try done.
  intros Hin%bool_decide_eq_true. apply bool_decide_eq_true.
  apply merger_sentinels. by left.
Qed.

Lemma is_empty_differs (v : pyval) :
  Ingest.is_empty v ≠ MetaMerger.is_empty v
  ↔ ∃ s, v = VStr s ∧ strip s = "undefined".
Proof.
  split.
  - intros Hne. destruct (Ingest.is_empty v) eqn:HI.
    { by rewrite (ingest_is_empty_merger v HI) in Hne. }
    destruct (MetaMerger.is_empty v) eqn:HM; [|done].
    unfold Ingest.is_empty, MetaMerger.is_empty in *.
    destruct (isna v); [done|]. destruct v as [| | | |s]; try done.
    exists s. split; [done|].
    apply bool_decide_eq_true in HM. apply bool_decide_eq_false in HI.
    apply merger_sentinels in HM as [HM|HM]; [contradiction|done].
  - intros (s & -> & Hs). unfold Ingest.is_empty, MetaMerger.is_empty.
    simpl. by rewrite Hs.
Qed.

Section NormalizerFacts.
Context `{PyRepr}.

Lemma normalize_same (v : pyval) :
  Ingest.normalize_imdb_id v = MetaMerger.normalize_imdb_id v.
Proof.
  unfold Ingest.normalize_imdb_id, MetaMerger.normalize_imdb_id.
  destruct (Ingest.is_empty v) eqn:HI.
  { by rewrite (ingest_is_empty_merger v HI). }
  destruct (MetaMerger.is_empty v) eqn:HM; [|done].
  destruct (proj1 (is_empty_differs v)) as (s & -> & Hs); [congruence|].
  simpl. by rewrite Hs.
Qed.

Lemma ingest_normalize_fixed (s : string) :
  startswith s "tt" = true → strip s = s →
  Ingest.normalize_imdb_id (VStr s) = Some s
  ∧ Ingest.is_empty (VStr s) = false.
Proof.
  intros Hp Hs. rewrite ingest_normalize_str. unfold Ingest.is_empty. simpl.
  rewrite Hs. rewrite ingest_not_sentinel by (by right).
  by rewrite (tt_prefix_not_digits _ Hp), Hp.
Qed.

Lemma ingest_normalize_shape (v : pyval) (s : string) :
  Ingest.normalize_imdb_id v = Some s →
  startswith s "tt" = true ∧ strip s = s.
Proof.
  unfold Ingest.normalize_imdb_id.
  destruct (Ingest.is_empty v); [done|]. cbv zeta.
  destruct (isdigit (strip (py_str v))) eqn:Hd.
  - intros [= <-]. split.
    { unfold startswith. simpl. by destruct (zfill _ _). }
    apply strip_tt_digits, zfill_digits. by apply isdigit_all_chars.
  - destruct (startswith (strip (py_str v)) "tt") eqn:Hp; [|done].
    intros [= <-]. split; [done|]. apply strip_idemp.
Qed.

(** X7. The two copies of [is_empty] disagree exactly on the strings whose
    stripped form is ["undefined"] (a sentinel of the merger only), and
    [normalize_imdb_id] is nevertheless the same function in both
    files. *)
Theorem normalizers_of_both_files_agree :
  (∀ v : pyval,
     Ingest.is_empty v ≠ MetaMerger.is_empty v
     ↔ ∃ s, v = VStr s ∧ strip s = "undefined")
  ∧ (∀ v : pyval,
       Ingest.normalize_imdb_id v = MetaMerger.normalize_imdb_id v).
Proof. split; [apply is_empty_differs|apply normalize_same]. Qed.

(** X8. An identifier that [normalize_imdb_id] returns starts with ["tt"],
    carries no surrounding whitespace, is not empty for [is_empty], is
    returned unchanged when normalised again (by either copy), and is
    returned unchanged by [convert_imdb_id]. *)
Theorem normalize_imdb_id_idempotent (v : pyval) (s : string) :
  Ingest.normalize_imdb_id v = Some s →
  startswith s "tt" = true
  ∧ strip s = s
  ∧ Ingest.is_empty (VStr s) = false
  ∧ Ingest.normalize_imdb_id (VStr s) = Some s
  ∧ MetaMerger.normalize_imdb_id (VStr s) = Some s
  ∧ VDB.convert_imdb_id (JStr s) = Ok (Some s).
Proof.
  intros Hv. destruct (ingest_normalize_shape v s Hv) as [Hp Hs].
  destruct (ingest_normalize_fixed s Hp Hs) as [Hn He].
  repeat split; try done.
  - by rewrite <- normalize_same.
  - unfold VDB.convert_imdb_id. by rewrite Hp.
Qed.

End NormalizerFacts.

(** Idempotence at the identifier of the specification: [" 76759 "] is
    normalised to ["tt0076759"], which is a fixed point. *)
Lemma normalize_imdb_id_idempotent_witness :
  @Ingest.normalize_imdb_id VDB.tag_repr (VStr " 76759 ") = Some "tt0076759"
  ∧ @Ingest.normalize_imdb_id VDB.tag_repr (VStr "tt0076759")
    = Some "tt0076759".
Proof.
  split; [reflexivity|].
  apply (@normalize_imdb_id_idempotent VDB.tag_repr (VStr " 76759 ")
           "tt0076759" eq_refl).
Defined.

(** ** Numbers and their decimal text *)

Lemma pretty_N_char_value (d : N) :
  (d < 10)%N →
  (Z.of_nat (nat_of_ascii (pretty_N_char d)) - 48)%Z = Z.of_N d.
Proof.
  intros Hd.
  assert (d = 0 ∨ d = 1 ∨ d = 2 ∨ d = 3 ∨ d = 4 ∨ d = 5 ∨ d = 6 ∨ d = 7
          ∨ d = 8 ∨ d = 9)%N as Hcases by lia.
  repeat destruct Hcases as [->|Hcases]; try reflexivity.
  by subst d.
Qed.

(** Reading back the digits that [str] writes. *)
Lemma parse_pretty_N_go (x : N) (s : string) (seen : bool) :
  parse_digits 0 seen (pretty_N_go x s)
  = if decide (x = 0%N) then parse_digits 0 seen s
    else parse_digits (Z.of_N x) true s.
Proof.
  revert s seen. induction (N.lt_wf_0 x) as [x _ IH]; intros s seen.
  destruct (decide (x = 0%N)) as [->|Hx]; [by rewrite pretty_N_go_0|].
  rewrite pretty_N_go_step by lia.
  rewrite IH by (apply N.div_lt; lia).
  assert (x `mod` 10 < 10)%N as Hm by (apply N.mod_lt; lia).
  pose proof (N.div_mod x 10 ltac:(lia)) as Hdm.
  simpl parse_digits. rewrite pretty_N_char_digit.
  rewrite (pretty_N_char_value _ Hm).
  destruct (decide (x `div` 10 = 0)%N) as [Hq|Hq]; f_equal; lia.
Qed.

(** The digits and the sign are not whitespace for [int()]. *)
Lemma digit_not_space_c (c : ascii) :
  isdigit_char c = true → isspace_c c = false.
Proof.
  destruct c as [[] [] [] [] [] [] [] []]; vm_compute; congruence.
Qed.

Lemma rstrip_c_digits (s : string) :
  all_chars isdigit_char s = true → rstrip_c s = s.
Proof.
  induction s as [|c s IH]; [done|]. simpl.
  intros [Hc Hs]%andb_true_iff. rewrite (IH Hs).
  destruct s; [|done]. by rewrite (digit_not_space_c c Hc).
Qed.

Lemma strip_c_digits (s : string) :
  all_chars isdigit_char s = true → rstrip_c (lstrip_c s) = s.
Proof.
  intros Hs.
  assert (lstrip_c s = s) as ->; [|by apply rstrip_c_digits].
  destruct s as [|c s]; [done|]. simpl in *.
  apply andb_true_iff in Hs as [Hc _]. by rewrite (digit_not_space_c c Hc).
Qed.

Lemma rstrip_c_cons_nonspace (c : ascii) (s : string) :
  isspace_c c = false → rstrip_c (String c s) = String c (rstrip_c s).
Proof. intros Hc. simpl. destruct (rstrip_c s); [by rewrite Hc|done]. Qed.

Lemma int_of_str_digits (s : string) :
  isdigit s = true →
  int_of_str s = match parse_digits 0 false s with
                 | Some n => Ok n
                 | None => Raise ValueError
                 end.
Proof.
  intros Hd. unfold int_of_str.
  rewrite (strip_c_digits _ (isdigit_all_chars _ Hd)).
  destruct s as [|c s]; [done|]. simpl in Hd.
  apply andb_true_iff in Hd as [Hc _].
  assert (Ascii.eqb c "-" = false ∧ Ascii.eqb c "+" = false) as [-> ->].
  { destruct c as [[] [] [] [] [] [] [] []]; vm_compute in Hc |- *;
      split; congruence. }
  reflexivity.
Qed.

Lemma pretty_positive_digits (p : positive) :
  isdigit (pretty (N.pos p)) = true.
Proof. apply (str_of_int_isdigit (Z.pos p)). lia. Qed.

(** [int(str(z)) == z] *)
Lemma int_of_str_of_int (z : Z) : int_of_str (str_of_int z) = Ok z.
Proof.
  unfold str_of_int, pretty, pretty_Z. destruct z as [|p|p]; [done| |].
  - change (pretty p) with (pretty (N.pos p)).
    rewrite int_of_str_digits by apply pretty_positive_digits.
    unfold pretty, pretty_N. rewrite decide_False by done.
    rewrite parse_pretty_N_go. by rewrite decide_False.
  - change (pretty p) with (pretty (N.pos p)).
    pose proof (pretty_positive_digits p) as Hd.
    unfold int_of_str.
    assert (rstrip_c (lstrip_c ("-" +:+ pretty (N.pos p)))
            = String "-" (pretty (N.pos p))) as ->.
    { change ("-" +:+ ?t) with (String "-" t).
      change (lstrip_c (String "-" ?t)) with (String "-" t).
      rewrite rstrip_c_cons_nonspace by done.
      by rewrite (rstrip_c_digits _ (isdigit_all_chars _ Hd)). }
    change (Ascii.eqb "-" "-") with true. cbv iota beta.
    unfold pretty, pretty_N. rewrite decide_False by done.
    rewrite parse_pretty_N_go. by rewrite decide_False.
Qed.

Lemma str_of_int_not_tt (z : Z) : startswith (str_of_int z) "tt" = false.
Proof.
  unfold str_of_int, pretty, pretty_Z. destruct z as [|p|p]; [done| |].
  - change (pretty p) with (pretty (N.pos p)).
    destruct (startswith (pretty (N.pos p)) "tt") eqn:Hp; [|done].
    apply tt_prefix_not_digits in Hp.
    by rewrite pretty_positive_digits in Hp.
  - reflexivity.
Qed.

Lemma str_of_int_negative (z : Z) :
  (z < 0)%Z →
  isdigit (str_of_int z) = false ∧ strip (str_of_int z) = str_of_int z.
Proof.
  intros Hz. unfold str_of_int, pretty, pretty_Z.
  destruct z as [|p|p]; [lia|lia|].
  change (pretty p) with (pretty (N.pos p)).
  pose proof (pretty_positive_digits p) as Hd.
  change ("-" +:+ ?t) with (String "-" t). split; [done|].
  unfold strip. change (lstrip (String "-" ?t)) with (String "-" t).
  rewrite rstrip_cons_nonspace by done.
  by rewrite (rstrip_digits _ (isdigit_all_chars _ Hd)).
Qed.

Section NumberFacts.
Context `{PyRepr}.

(** X9. A number and its decimal text give the same identifier: in
    [convert_imdb_id] for every int (the text is read back by [int()]),
    in [normalize_imdb_id] as well. For a non-negative int the two
    functions return the same identifier; for a negative int
    [normalize_imdb_id] returns [None] while [convert_imdb_id] still
    returns a string, ["tt"] followed by the signed number. *)
Theorem identifier_of_number_and_of_its_text (z : Z) :
  VDB.convert_imdb_id (JStr (str_of_int z)) = VDB.convert_imdb_id (JInt z)
  ∧ Ingest.normalize_imdb_id (VStr (str_of_int z))
    = Ingest.normalize_imdb_id (VInt z)
  ∧ ((0 ≤ z)%Z →
     VDB.convert_imdb_id (JInt z) = Ok (Ingest.normalize_imdb_id (VInt z)))
  ∧ ((z < 0)%Z →
     Ingest.normalize_imdb_id (VInt z) = None
     ∧ VDB.convert_imdb_id (JInt z) = Ok (Some ("tt" +:+ format_07d z))).
Proof.
  split; [|split; [|split]].
  - unfold VDB.convert_imdb_id.
    by rewrite str_of_int_not_tt, int_of_str_of_int.
  - unfold Ingest.normalize_imdb_id, Ingest.is_empty. simpl.
    destruct (bool_decide (strip (str_of_int z) ∈ Ingest.EMPTY_VALUES))
      eqn:Hs; [|done].
    apply bool_decide_eq_true in Hs.
    pose proof ingest_sentinel_shape as HF. rewrite Forall_forall in HF.
    destruct (HF _ Hs) as (_ & Hd & Hp). by rewrite Hd, Hp.
  - intros Hz. unfold Ingest.normalize_imdb_id. simpl.
    pose proof (str_of_int_isdigit z Hz) as Hd.
    rewrite (strip_digits _ (isdigit_all_chars _ Hd)). by rewrite Hd.
  - intros Hz. split; [|done].
    unfold Ingest.normalize_imdb_id. simpl.
    destruct (str_of_int_negative z Hz) as [Hd ->].
    by rewrite Hd, str_of_int_not_tt.
Qed.

End NumberFacts.

(* ===================================================================== *)
(** * Further properties of the detector and the router *)
(* ===================================================================== *)

Lemma assoc_elem_of {A} (k : string) (d : list (string * A)) (v : A) :
  VDB.assoc k d = Some v → (k, v) ∈ d.
Proof.
  induction d as [|[k' v'] d IH]; [done|]. simpl.
  destruct (String.eqb k k') eqn:Hk.
  - apply String.eqb_eq in Hk as ->. intros [= ->]. left.
  - intros Hd. right. by apply IH.
Qed.

(** No entry of [SOURCE_MAPPING] is [UNKNOWN]. *)
Lemma source_mapping_known (src t : string)
    (type_map : list (string * VDB.DataType)) (dt : VDB.DataType) :
  VDB.assoc src VDB.SOURCE_MAPPING = Some type_map →
  VDB.assoc t type_map = Some dt → dt ≠ VDB.UNKNOWN.
Proof.
  intros Hs%assoc_elem_of Ht%assoc_elem_of.
  assert (Forall (fun stm => Forall (fun tdt => snd tdt ≠ VDB.UNKNOWN)
                               (snd stm)) VDB.SOURCE_MAPPING) as Hall.
  { unfold VDB.SOURCE_MAPPING. repeat constructor; simpl; discriminate. }
  rewrite Forall_forall in Hall. specialize (Hall _ Hs). simpl in Hall.
  rewrite Forall_forall in Hall. apply (Hall _ Ht).
Qed.

Lemma lower_char_idemp (c : ascii) : lower_char (lower_char c) = lower_char c.
Proof. destruct c as [[] [] [] [] [] [] [] []]; reflexivity. Qed.

Lemma lower_idemp (s : string) : lower (lower s) = lower s.
Proof.
  induction s as [|c s IH]; [done|]. simpl. by rewrite lower_char_idemp, IH.
Qed.

Lemma from_content_outcome (data : option (list (string * json)))
    (dt : VDB.DataType) (reason : string) :
  match data with
  | Some (kv :: d) =>
      let dt := VDB._detect_from_content (kv :: d) in
      if bool_decide (dt = VDB.UNKNOWN) then Ok (dt, "unknown_data_type")
      else Ok (dt, "")
  | _ => Ok (VDB.UNKNOWN, "unknown_source")
  end = Ok (dt, reason) →
  (dt = VDB.UNKNOWN
   ∧ ((reason = "unknown_source" ∧ (data = None ∨ data = Some []))
      ∨ (reason = "unknown_data_type" ∧ ∃ kv d, data = Some (kv :: d))))
  ∨ (dt ≠ VDB.UNKNOWN ∧ reason = "").
Proof.
  destruct data as [[|kv d]|]; cbv zeta.
  - intros [= <- <-]. left. split; [done|]. left. auto.
  - destruct (bool_decide (VDB._detect_from_content (kv :: d) = VDB.UNKNOWN))
      eqn:Hu.
    + apply bool_decide_eq_true in Hu. intros [= <- <-]. left.
      split; [done|]. right. eauto.
    + apply bool_decide_eq_false in Hu. intros [= <- <-]. by right.
  - intros [= <- <-]. left. split; [done|]. left. auto.
Qed.

(** What [detect] can return. *)
Lemma detect_outcome (source data_type : json)
    (data : option (list (string * json))) (dt : VDB.DataType)
    (reason : string) :
  VDB.detect source data_type data = Ok (dt, reason) →
  (dt = VDB.UNKNOWN
   ∧ ((reason = "unknown_source" ∧ (data = None ∨ data = Some []))
      ∨ (reason = "unknown_data_type" ∧ ∃ kv d, data = Some (kv :: d))))
  ∨ (dt ≠ VDB.UNKNOWN ∧ reason = "").
Proof.
  unfold VDB.detect. destruct source as [| | | |src| |]; try done.
  cbv zeta.
  destruct (VDB.assoc (lower src) VDB.SOURCE_MAPPING) as [type_map|] eqn:Hsrc;
    [|apply from_content_outcome].
  assert (match VDB.assoc "default" type_map with
          | Some dt0 => Ok (dt0, "")
          | None =>
              match data with
              | Some (kv :: d) =>
                  let dt0 := VDB._detect_from_content (kv :: d) in
                  if bool_decide (dt0 = VDB.UNKNOWN)
                  then Ok (dt0, "unknown_data_type")
                  else Ok (dt0, "")
              | _ => Ok (VDB.UNKNOWN, "unknown_source")
              end
          end = Ok (dt, reason) →
          (dt = VDB.UNKNOWN
           ∧ ((reason = "unknown_source" ∧ (data = None ∨ data = Some []))
              ∨ (reason = "unknown_data_type"
                 ∧ ∃ kv d, data = Some (kv :: d))))
          ∨ (dt ≠ VDB.UNKNOWN ∧ reason = "")) as Hdefault.
  { destruct (VDB.assoc "default" type_map) as [dt0|] eqn:Hd;
      [|apply from_content_outcome].
    intros [= <- <-]. right. split; [|done].
    by apply (source_mapping_known _ _ _ _ Hsrc Hd). }
  destruct (VDB.truthy data_type); [|exact Hdefault].
  destruct (VDB.type_lookup data_type type_map) as [[dt0|]|e] eqn:Hl;
    [|exact Hdefault|done].
  assert (dt0 ≠ VDB.UNKNOWN) as Hk.
  { destruct data_type; simpl in Hl; try done.
    injection Hl as Hl. by apply (source_mapping_known _ _ _ _ Hsrc Hl). }
  rewrite bool_decide_eq_false_2 by done. intros [= <- <-]. by right.
Qed.

(** When [detect] raises. *)
Lemma detect_raises (source data_type : json)
    (data : option (list (string * json))) (e : exn) :
  VDB.detect source data_type data = Raise e ↔
  (e = AttributeError ∧ ∀ src, source ≠ JStr src)
  ∨ (e = TypeError
     ∧ (∃ src, source = JStr src
               ∧ is_Some (VDB.assoc (lower src) VDB.SOURCE_MAPPING))
     ∧ ((∃ x l, data_type = JList (x :: l))
        ∨ (∃ x l, data_type = JDict (x :: l)))).
Proof.
  destruct source as [| | | |src| |];
    try (split; [intros [= <-]; by left|];
         intros [[-> _]|(_ & (src & Hsrc & _) & _)]; done).
  assert ((∃ p, VDB.detect (JStr src) data_type data = Ok p)
          ∨ (VDB.detect (JStr src) data_type data = Raise TypeError
             ∧ is_Some (VDB.assoc (lower src) VDB.SOURCE_MAPPING)
             ∧ ((∃ x l, data_type = JList (x :: l))
                ∨ (∃ x l, data_type = JDict (x :: l))))) as Hcases.
  { unfold VDB.detect. cbv zeta.
    assert (∃ p, match data with
                 | Some (kv :: d0) =>
                     if bool_decide
                          (VDB._detect_from_content (kv :: d0) = VDB.UNKNOWN)
                     then Ok (VDB._detect_from_content (kv :: d0),
                              "unknown_data_type")
                     else Ok (VDB._detect_from_content (kv :: d0), "")
                 | _ => Ok (VDB.UNKNOWN, "unknown_source")
                 end = Ok p) as Hcontent.
    { destruct data as [[|kv d0]|]; try case_match; eauto. }
    destruct (VDB.assoc (lower src) VDB.SOURCE_MAPPING) as [type_map|];
      [|by left].
    assert (∃ p, match VDB.assoc "default" type_map with
                 | Some dt0 => Ok (dt0, "")
                 | None =>
                     match data with
                     | Some (kv :: d0) =>
                         if bool_decide
                              (VDB._detect_from_content (kv :: d0)
                               = VDB.UNKNOWN)
                         then Ok (VDB._detect_from_content (kv :: d0),
                                  "unknown_data_type")
                         else Ok (VDB._detect_from_content (kv :: d0), "")
                     | _ => Ok (VDB.UNKNOWN, "unknown_source")
                     end
                 end = Ok p) as Hdefault.
    { destruct (VDB.assoc "default" type_map); eauto. }
    destruct (VDB.truthy data_type) eqn:Ht; [|by left].
    destruct data_type as [|b|z|f|s|l|d]; simpl VDB.type_lookup;
      cbv iota beta; try (left; exact Hdefault).
    - left. destruct (VDB.assoc s type_map); cbv iota beta;
        [destruct (bool_decide _); eauto|exact Hdefault].
    - destruct l as [|x l]; [done|]. right. split; [done|].
      split; [done|]. left. eauto.
    - destruct d as [|x d]; [done|]. right. split; [done|].
      split; [done|]. right. eauto. }
  split.
  - intros Hr. destruct Hcases as [[p Hp]|(Ht & Hs & Hd)]; [congruence|].
    rewrite Ht in Hr. injection Hr as <-. right. split; [done|].
    split; [|done]. eauto.
  - intros [[_ Hn]|(-> & (src0 & [= <-] & [type_map Hs]) & Hd)];
      [by destruct (Hn src)|].
    unfold VDB.detect. cbv zeta. rewrite Hs.
    by destruct Hd as [(x & l & ->)|(x & l & ->)].
Qed.

(** X10. [detect] classifies coherently. A result is either a known data
    type with the empty skip reason, or [UNKNOWN] with one of the two
    reasons; the reason is ["unknown_source"] only when the payload is
    absent or empty (whether or not the source is mapped), and
    ["unknown_data_type"] only when it is a non-empty dict. [detect]
    raises [AttributeError] exactly when the source is not a string, and
    [TypeError] exactly when the source is mapped and the batch type is a
    non-empty list or dict. The source name is matched without regard to
    case. *)
Theorem detect_classification_is_coherent (source data_type : json)
    (data : option (list (string * json))) :
  (∀ (dt : VDB.DataType) (reason : string),
     VDB.detect source data_type data = Ok (dt, reason) →
     (dt = VDB.UNKNOWN
      ∧ ((reason = "unknown_source" ∧ (data = None ∨ data = Some []))
         ∨ (reason = "unknown_data_type"
            ∧ ∃ kv d, data = Some (kv :: d))))
     ∨ (dt ≠ VDB.UNKNOWN ∧ reason = ""))
  ∧ (∀ e : exn,
       VDB.detect source data_type data = Raise e ↔
       (e = AttributeError ∧ ∀ src, source ≠ JStr src)
       ∨ (e = TypeError
          ∧ (∃ src, source = JStr src
                    ∧ is_Some (VDB.assoc (lower src) VDB.SOURCE_MAPPING))
          ∧ ((∃ x l, data_type = JList (x :: l))
             ∨ (∃ x l, data_type = JDict (x :: l)))))
  ∧ (∀ src, source = JStr src →
       VDB.detect (JStr (lower src)) data_type data
       = VDB.detect source data_type data).
Proof.
  split; [|split].
  - apply detect_outcome.
  - apply detect_raises.
  - intros src ->. unfold VDB.detect. by rewrite lower_idemp.
Qed.

(** X11. A batch of a source whose table has a ["default"] entry
    (flixpatrol, seeking_alpha, reuters, disney_plus, imdb) is never
    skipped: whatever the batch type (short of an unhashable one) and
    the payload, [detect] returns a known data type with no skip reason,
    taken from the table, and [route] gives an action other than
    ["skip"]. *)
Theorem source_with_default_is_never_skipped (src : string)
    (type_map : list (string * VDB.DataType)) (dflt : VDB.DataType)
    (batch_type : json) (data : option (list (string * json)))
    (filename : string) (count : Z) :
  VDB.assoc (lower src) VDB.SOURCE_MAPPING = Some type_map →
  VDB.assoc "default" type_map = Some dflt →
  (∀ e, VDB.type_lookup batch_type type_map ≠ Raise e) →
  ∃ dt, VDB.detect (JStr src) batch_type data = Ok (dt, "")
        ∧ dt ≠ VDB.UNKNOWN
        ∧ (dt = dflt ∨ ∃ t, batch_type = JStr t
                            ∧ VDB.assoc t type_map = Some dt)
        ∧ VDB.action (VDB.route dt filename count "") ≠ "skip".
Proof.
  intros Hsrc Hdflt Hhash.
  assert (∀ dt, dt ≠ VDB.UNKNOWN →
            VDB.action (VDB.route dt filename count "") ≠ "skip") as Hact.
  { intros dt Hdt. by destruct dt. }
  pose proof (source_mapping_known _ _ _ _ Hsrc Hdflt) as Hk.
  unfold VDB.detect. cbv zeta. rewrite Hsrc, Hdflt.
  destruct (VDB.truthy batch_type); [|exists dflt; auto].
  destruct (VDB.type_lookup batch_type type_map) as [[dt|]|e] eqn:Hl.
  - assert (∃ t, batch_type = JStr t ∧ VDB.assoc t type_map = Some dt)
      as (t & -> & Ht).
    { destruct batch_type; simpl in Hl; try done. injection Hl as Hl. eauto. }
    pose proof (source_mapping_known _ _ _ _ Hsrc Ht) as Hdt.
    rewrite bool_decide_eq_false_2 by done.
    exists dt. split; [done|]. split; [done|]. split; [|auto]. right. eauto.
  - exists dflt. auto.
  - by destruct (Hhash e).
Qed.

(** At a FlixPatrol batch of an unlisted type with no payload. *)
Lemma source_with_default_witness :
  ∃ dt, VDB.detect (JStr "FlixPatrol") (JStr "weekly") None = Ok (dt, "")
        ∧ dt ≠ VDB.UNKNOWN
        ∧ (dt = VDB.FLIXPATROL_TITLES
           ∨ ∃ t, JStr "weekly" = JStr t
                  ∧ VDB.assoc t
                      [("titles", VDB.FLIXPATROL_TITLES);
                       ("default", VDB.FLIXPATROL_TITLES);
                       ("rankings", VDB.VIEWERSHIP_DATA);
                       ("points", VDB.VIEWERSHIP_DATA);
                       ("top10", VDB.VIEWERSHIP_DATA)] = Some dt)
        ∧ VDB.action (VDB.route dt "flixpatrol_1.json" 1 "") ≠ "skip".
Proof.
  apply (source_with_default_is_never_skipped "FlixPatrol" _
           VDB.FLIXPATROL_TITLES (JStr "weekly") None "flixpatrol_1.json" 1).
  - reflexivity.
  - reflexivity.
  - intros e. discriminate.
Defined.

(* ===================================================================== *)
(** * Further properties of file processing and of runs *)
(* ===================================================================== *)

Lemma coherent_route (dt : VDB.DataType) (filename : string) (count : Z)
    (skip_reason : string) :
  (dt = VDB.UNKNOWN ∧ (skip_reason = "unknown_source"
                       ∨ skip_reason = "unknown_data_type")
   ∨ dt ≠ VDB.UNKNOWN ∧ skip_reason = "") →
  coherent filename (VDB.route dt filename count skip_reason).
Proof.
  intros Hr. unfold coherent.
  destruct dt; simpl; (split; [done|]); (split; [done|]);
    destruct Hr as [[? ?]|[? ?]]; done.
Qed.

Lemma coherent_with_reason (filename r : string) (d : VDB.RoutingDecision) :
  coherent filename d → coherent filename (VDB.with_reason r d).
Proof. by intros H. Qed.

(** A coherent decision is a skip exactly when its data type is
    [UNKNOWN], that is, exactly when it carries a skip reason. *)
Lemma coherent_skip (filename : string) (d : VDB.RoutingDecision) :
  coherent filename d →
  (VDB.action d = "skip" ↔ VDB.data_type d = VDB.UNKNOWN)
  ∧ (VDB.action d = "skip" ↔ VDB.skip_reason d ≠ "")
  ∧ (VDB.action d = "skip" ↔ VDB.target_db d = "SKIP").
Proof.
  intros (_ & Ht & Hr).
  destruct (VDB.data_type d); simpl in *; injection Ht as Ht1 Ht2 Ht3;
    rewrite Ht1, Ht2; try rewrite Hr; try done.
  repeat split; try done. all: intros _; by destruct Hr as [->| ->].
Qed.

Lemma skip_total_app (ds1 ds2 : list VDB.RoutingDecision) :
  skip_total (ds1 ++ ds2) = (skip_total ds1 + skip_total ds2)%Z.
Proof.
  induction ds1 as [|d ds1 IH]; [done|]. simpl. rewrite IH.
  destruct (String.eqb _ _); lia.
Qed.

Lemma skip_rows_app (ds1 ds2 : list VDB.RoutingDecision) :
  skip_rows (ds1 ++ ds2) = (skip_rows ds1 ++ skip_rows ds2)%list.
Proof. unfold skip_rows. apply flat_map_app. Qed.

#[local] Arguments skip_total : simpl never.
#[local] Arguments skip_rows : simpl never.

Section RunFacts.
Context `{PyRepr} {W : Type} `{VDB.DatabaseWriters W}.
Import VDB.

Implicit Types (self : Engine W) (d : ProcessingStats).

Lemma steady_ret {A} (a : A) : steady (W:=W) (ret a).
Proof. by intros self. Qed.

Lemma steady_lift {A} (r : res A) : steady (W:=W) (lift r).
Proof. by intros self. Qed.

Lemma steady_bind {A B} (m : M (Engine W) A) (k : A → M (Engine W) B) :
  steady m → (∀ a, steady (k a)) → steady (bind m k).
Proof.
  intros Hm Hk self. unfold bind. specialize (Hm self).
  destruct (m self) as [[a|e] mid]; simpl in *; [|done].
  destruct Hm as [Hl0 Hs0]. destruct (Hk a mid) as [Hl Hs].
  split; congruence.
Qed.

Lemma steady_add_stats d :
  files_processed d = 0%Z → errors d = [] → skipped d = 0%Z →
  skip_details d = [] → steady (W:=W) (add_stats d).
Proof.
  intros Hf He Hs Hd self.
  unfold add_stats, modify, ledger, skip_ledger; simpl.
  by rewrite Hf, He, Hs, Hd, !app_nil_r, !Z.add_0_r.
Qed.

Lemma steady_ensure_writers : steady (W:=W) ensure_writers.
Proof. by intros self. Qed.

Lemma steady_call_writer {A} (m : bool → M W A) : steady (call_writer m).
Proof.
  intros self. unfold call_writer.
  by destruct (m (dry_run self) (world self)).
Qed.

Lemma steady_for_each {A} (xs : list A) (body : A → M (Engine W) unit) :
  (∀ x, steady (body x)) → steady (for_each xs body).
Proof.
  intros Hb. induction xs as [|x xs IH]; simpl.
  - apply steady_ret.
  - apply steady_bind; [apply Hb|]. intros _. apply IH.
Qed.

Ltac steady :=
  repeat first
    [ apply steady_ret | apply steady_lift
    | apply steady_ensure_writers | apply steady_call_writer
    | apply steady_add_stats; reflexivity
    | apply steady_bind; [|intros ?]
    | apply steady_for_each; intros ?
    | progress case_match ].

Lemma steady_handle_platform_changes (data : json) :
  steady (_handle_platform_changes data).
Proof. unfold _handle_platform_changes. steady. Qed.

Lemma steady_handle_flixpatrol_titles (data : json) :
  steady (_handle_flixpatrol_titles data).
Proof. unfold _handle_flixpatrol_titles. steady. Qed.

(** A decision that is not a skip leaves the skip counter alone. *)
Lemma steady_execute_decision (decision : RoutingDecision) (data : json) :
  String.eqb (action decision) "skip" = false →
  steady (_execute_decision decision data).
Proof.
  intros Hact. unfold _execute_decision. rewrite Hact.
  apply steady_bind; [steady|]. intros _.
  destruct (bool_decide (data_type decision = PLATFORM_CHANGES));
    [apply steady_handle_platform_changes|].
  destruct (bool_decide (data_type decision = FLIXPATROL_TITLES));
    [apply steady_handle_flixpatrol_titles|].
  steady.
Qed.

Lemma execute_decision_effect (decision : RoutingDecision) (data : json)
    self :
  let after := snd (_execute_decision decision data self) in
  ledger after = ledger self
  ∧ skip_ledger after
    = ((skipped (stats self) + skip_total [decision])%Z,
       (skip_details (stats self) ++ skip_rows [decision])%list).
Proof.
  cbv zeta. destruct (String.eqb (action decision) "skip") eqn:Hact.
  - unfold _execute_decision, skip_total, skip_rows. simpl.
    rewrite Hact. unfold add_stats, modify, ledger, skip_ledger. simpl.
    by rewrite !app_nil_r, !Z.add_0_r.
  - destruct (steady_execute_decision decision data Hact self) as [Hl Hs].
    split; [done|]. rewrite Hs. unfold skip_total, skip_rows. simpl.
    rewrite Hact. unfold skip_ledger. by rewrite app_nil_r, Z.add_0_r.
Qed.

Lemma route_batch_effect (source batch_type data : json)
    (filename : string) self :
  let result := _route_batch source batch_type data filename self in
  ledger (snd result) = ledger self
  ∧ ∀ decision, fst result = Ok decision →
      coherent filename decision
      ∧ skip_ledger (snd result)
        = ((skipped (stats self) + skip_total [decision])%Z,
           (skip_details (stats self) ++ skip_rows [decision])%list).
Proof.
  cbv zeta. unfold _route_batch, bind, lift.
  destruct (batch_count data) as [count|e]; [|done].
  destruct (detect source batch_type
              match data with JDict d => Some d | _ => None end)
    as [[dt sr]|e] eqn:Hdet; [|done].
  set (decision := with_reason _ (route dt filename count sr)).
  destruct (execute_decision_effect decision data self) as [Hl Hs].
  destruct (_execute_decision decision data self) as [[[]|e] after];
    simpl in *; [|done].
  split; [done|]. intros ? [= <-]. split; [|done].
  apply coherent_with_reason, coherent_route.
  destruct (detect_outcome _ _ _ _ _ Hdet) as [[-> [[-> _]|[-> _]]]|[? ->]];
    auto.
Qed.

Lemma accounted_ret_nil (filename : string) :
  accounted (W:=W) filename (ret []).
Proof.
  intros self. split; [done|]. intros ds [= <-]. split; [constructor|].
  unfold skip_ledger. simpl. by rewrite app_nil_r, Z.add_0_r.
Qed.

Lemma accounted_steady_bind {A} (filename : string) (m : M (Engine W) A)
    (k : A → M (Engine W) (list RoutingDecision)) :
  steady m → (∀ a, accounted filename (k a)) → accounted filename (bind m k).
Proof.
  intros Hm Hk self. unfold bind. destruct (Hm self) as [Hl Hs].
  destruct (m self) as [[a|e] mid]; simpl in *;
    [|by split; [|intros ? [=]]].
  destruct (Hk a mid) as [Hl' Hd']. split; [congruence|].
  intros ds Hds. destruct (Hd' ds Hds) as [Hc Hs']. split; [done|].
  rewrite Hs'. unfold skip_ledger in Hs. by injection Hs as -> ->.
Qed.

Lemma accounted_lift_bind {A} (filename : string) (r : res A)
    (k : A → M (Engine W) (list RoutingDecision)) :
  (∀ a, accounted filename (k a)) → accounted filename (bind (lift r) k).
Proof. apply accounted_steady_bind, steady_lift. Qed.

Lemma accounted_execute (filename : string) (decision : RoutingDecision)
    (data : json) :
  coherent filename decision →
  accounted filename
    (let! _ := _execute_decision decision data in ret [decision]).
Proof.
  intros Hc self. unfold bind, ret.
  destruct (execute_decision_effect decision data self) as [Hl Hs].
  destruct (_execute_decision decision data self) as [[[]|e] after];
    simpl in *; [|by split; [|intros ? [=]]].
  split; [done|]. intros ? [= <-]. split; [|done]. by constructor.
Qed.

Lemma accounted_cons (filename : string) (m : M (Engine W) RoutingDecision)
    (k : M (Engine W) (list RoutingDecision)) :
  (∀ self,
     ledger (snd (m self)) = ledger self
     ∧ ∀ decision, fst (m self) = Ok decision →
         coherent filename decision
         ∧ skip_ledger (snd (m self))
           = ((skipped (stats self) + skip_total [decision])%Z,
              (skip_details (stats self) ++ skip_rows [decision])%list)) →
  accounted filename k →
  accounted filename
    (let! decision := m in let! decisions := k in ret (decision :: decisions)).
Proof.
  intros Hm Hk self. unfold bind, ret.
  destruct (Hm self) as [Hl Hd].
  destruct (m self) as [[decision|e] mid]; simpl in *;
    [|by split; [|intros ? [=]]].
  destruct (Hd decision eq_refl) as [Hc Hs]. clear Hd.
  destruct (Hk mid) as [Hl' Hd'].
  destruct (k mid) as [[ds|e] after]; simpl in *;
    [|split; [congruence|intros ? [=]]].
  split; [congruence|]. intros ? [= <-].
  destruct (Hd' ds eq_refl) as [Hcs Hs']. split; [by constructor|].
  rewrite Hs'. unfold skip_ledger in Hs. injection Hs as Hs1 Hs2.
  rewrite Hs1, Hs2.
  change (decision :: ds) with ([decision] ++ ds)%list.
  by rewrite skip_total_app, skip_rows_app, Z.add_assoc, app_assoc.
Qed.

Lemma accounted_single (source batch_type data : json) (filename : string) :
  accounted filename
    (let! decision := _route_batch source batch_type data filename in
     ret [decision]).
Proof.
  intros self. unfold bind, ret.
  destruct (route_batch_effect source batch_type data filename self)
    as [Hl Hd].
  destruct (_route_batch source batch_type data filename self)
    as [[decision|e] mid]; simpl in *; [|by split; [|intros ? [=]]].
  split; [done|]. intros ds [= <-].
  destruct (Hd decision eq_refl) as [Hc Hs]. split; [|done].
  by constructor.
Qed.

Lemma accounted_route_batches (dflt : json) (filename : string)
    (batches : list json) :
  accounted filename (route_batches dflt filename batches).
Proof.
  induction batches as [|batch rest IH]; [apply accounted_ret_nil|].
  simpl. apply accounted_lift_bind. intros source.
  apply accounted_lift_bind. intros batch_type.
  apply accounted_lift_bind. intros batch_data.
  apply accounted_cons; [|exact IH]. intros self.
  apply route_batch_effect.
Qed.

Lemma accounted_process_json (filepath : File) :
  accounted (name filepath) (_process_json filepath).
Proof.
  unfold _process_json. apply accounted_lift_bind. intros data.
  destruct data as [| | | | |l|d]; try apply accounted_ret_nil.
  - apply accounted_route_batches.
  - destruct (assoc "results" d).
    + apply accounted_lift_bind. intros items. apply accounted_route_batches.
    + apply accounted_single.
Qed.

Lemma accounted_process_parquet (filepath : File) :
  accounted (name filepath) (_process_parquet filepath).
Proof.
  unfold _process_parquet.
  apply accounted_steady_bind; [apply steady_ensure_writers|]. intros _.
  apply accounted_steady_bind; [apply steady_call_writer|]. intros rows.
  destruct (contains "cranberry_fresh" (name filepath));
    apply accounted_execute, coherent_route.
  - right. by split.
  - left. split; [done|]. by right.
Qed.

Lemma accounted_process_body (filepath : File) :
  accounted (name filepath) (process_body filepath).
Proof.
  unfold process_body.
  destruct (String.eqb (suffix (name filepath)) ".json");
    [apply accounted_process_json|].
  destruct (String.eqb (suffix (name filepath)) ".parquet");
    [apply accounted_process_parquet|apply accounted_ret_nil].
Qed.

(** The effect of [process_file]: either the body returned, and the file
    is marked and counted, or it raised, and the error is recorded under
    the file's name. *)
Lemma process_file_effect (filepath : File) self :
  let result := process_file filepath self in
  let after := snd result in
  state_file after = state_file self
  ∧ dry_run after = dry_run self
  ∧ discovered_files after = discovered_files self
  ∧ all_decisions after = all_decisions self
  ∧ ((∃ ds, fst result = Ok ds
            ∧ Forall (coherent (name filepath)) ds
            ∧ processed_files after
              = {[ name filepath ]} ∪ processed_files self
            ∧ files_processed (stats after)
              = (files_processed (stats self) + 1)%Z
            ∧ errors (stats after) = errors (stats self)
            ∧ skipped (stats after)
              = (skipped (stats self) + skip_total ds)%Z
            ∧ skip_details (stats after)
              = (skip_details (stats self) ++ skip_rows ds)%list)
     ∨ (fst result = Ok []
        ∧ processed_files after = processed_files self
        ∧ files_processed (stats after) = files_processed (stats self)
        ∧ ∃ e, errors (stats after)
               = (errors (stats self) ++ [(name filepath, e)])%list)).
Proof.
  cbv zeta. destruct (accounted_process_body filepath self) as [Hl Hd].
  unfold process_file, try_except, bind.
  destruct (process_body filepath self) as [[ds|e] mid]; simpl in *;
    unfold ledger in Hl; injection Hl as Hp Hsf Hdr Hdf Had Hfp He.
  - destruct (Hd ds eq_refl) as [Hc Hs]. unfold skip_ledger in Hs.
    injection Hs as Hs1 Hs2.
    repeat split; try done. left. exists ds.
    rewrite Hp, Hfp, He, Hs1, Hs2, !app_nil_r, !Z.add_0_r. done.
  - repeat split; try done. right.
    rewrite Hp, Hfp, He, Z.add_0_r. eauto.
Qed.

Lemma process_files_cons (f : File) (files : list File) self :
  process_files (f :: files) self
  = process_files files
      (extend_decisions
         (match fst (process_file f self) with Ok ds => ds | Raise _ => [] end)
         (snd (process_file f self))).
Proof.
  unfold process_files. simpl. unfold bind at 1. unfold bind at 1.
  destruct (process_file_returns f self) as [ds Hds].
  destruct (process_file f self) as [r mid]. simpl in Hds. subst r.
  reflexivity.
Qed.

(** The effect of the loop of [run] over a list of files. *)
Lemma process_files_effect (files : list File) self :
  let after := snd (process_files files self) in
  state_file after = state_file self
  ∧ dry_run after = dry_run self
  ∧ discovered_files after = discovered_files self
  ∧ processed_files self ⊆ processed_files after
  ∧ processed_files after
    ⊆ processed_files self ∪ list_to_set (name <$> files)
  ∧ (∀ f, f ∈ files →
       name f ∈ processed_files after
       ∨ ∃ e, (name f, e) ∈ errors (stats after))
  ∧ ∃ new_errors ds,
      errors (stats after) = (errors (stats self) ++ new_errors)%list
      ∧ all_decisions after = (all_decisions self ++ ds)%list
      ∧ (files_processed (stats after) + Z.of_nat (length new_errors)
         = files_processed (stats self) + Z.of_nat (length files))%Z
      ∧ Forall (fun dec => ∃ f, f ∈ files ∧ coherent (name f) dec) ds
      ∧ (new_errors = [] →
         skipped (stats after) = (skipped (stats self) + skip_total ds)%Z
         ∧ skip_details (stats after)
           = (skip_details (stats self) ++ skip_rows ds)%list).
Proof.
  cbv zeta. revert self. induction files as [|f files IH]; intros self.
  - simpl. do 4 (split; [done|]). split; [apply union_subseteq_l|].
    split; [intros f Hf; by apply elem_of_nil in Hf|].
    exists [], []. rewrite !app_nil_r. do 2 (split; [done|]).
    split; [simpl; lia|]. split; [constructor|]. intros _.
    unfold skip_total, skip_rows. simpl. by rewrite Z.add_0_r.
  - rewrite process_files_cons.
    destruct (process_file_effect f self)
      as (Hsf & Hdr & Hdf & Had & Hcase).
    set (ds0 := match fst (process_file f self) with
                | Ok ds => ds | Raise _ => [] end) in *.
    set (mid := snd (process_file f self)) in *.
    destruct (IH (extend_decisions ds0 mid))
      as (Hsf' & Hdr' & Hdf' & Hsub & Hsup & Hall & new' & ds' & He' & Had'
          & Hcount & Hcoh & Hskip).
    simpl in Hsf', Hdr', Hdf', Hsub, Hsup, He', Had', Hcount, Hskip.
    set (after := snd (process_files files (extend_decisions ds0 mid))) in *.
    assert (processed_files self ⊆ processed_files mid) as Hmono.
    { destruct Hcase as [(ds & _ & _ & -> & _)|(_ & -> & _)];
        [apply union_subseteq_r|done]. }
    assert (processed_files mid ⊆ processed_files self ∪ {[ name f ]})
      as Hbound.
    { destruct Hcase as [(ds & _ & _ & -> & _)|(_ & -> & _)].
      - intros x. rewrite !elem_of_union. tauto.
      - apply union_subseteq_l. }
    split; [congruence|]. split; [congruence|]. split; [congruence|].
    split; [by etrans|]. split.
    { intros x Hx. apply Hsup in Hx. rewrite fmap_cons, list_to_set_cons.
      apply elem_of_union in Hx as [Hx|Hx].
      - apply Hbound in Hx. revert Hx. rewrite !elem_of_union. tauto.
      - rewrite !elem_of_union. tauto. }
    split.
    { intros g [->|Hg]%elem_of_cons; [|by apply Hall].
      destruct Hcase as [(ds & _ & _ & Hp & _)|(_ & _ & _ & e & Herr)].
      - left. apply Hsub. rewrite Hp. apply elem_of_union_l.
        by apply elem_of_singleton.
      - right. exists e. rewrite He', Herr.
        apply elem_of_app. left. apply elem_of_app. right.
        left. }
    destruct Hcase as [(ds & Hr & Hc & Hp & Hfp & Herr & Hs1 & Hs2)
                      |(Hr & Hp & Hfp & e & Herr)].
    + exists new', (ds ++ ds')%list.
      assert (ds0 = ds) as -> by (unfold ds0; by rewrite Hr).
      rewrite He', Had', Herr, Had, app_assoc.
      split; [done|]. split; [done|]. split.
      { rewrite Hfp in Hcount. simpl. lia. }
      split.
      { apply Forall_app. split.
        - eapply Forall_impl; [exact Hc|]. intros dec Hd. exists f.
          split; [left|done].
        - eapply Forall_impl; [exact Hcoh|]. intros dec (g & Hg & Hd).
          exists g. split; [by right|done]. }
      intros Hnone. destruct (Hskip Hnone) as [-> ->].
      by rewrite Hs1, Hs2, skip_total_app, skip_rows_app, Z.add_assoc,
        app_assoc.
    + exists ((name f, e) :: new'), ds'.
      assert (ds0 = []) as -> by (unfold ds0; by rewrite Hr).
      rewrite He', Had', Herr, Had, app_nil_r, <- app_assoc.
      split; [done|]. split; [done|]. split.
      { rewrite Hfp in Hcount. simpl length. lia. }
      split; [|done].
      eapply Forall_impl; [exact Hcoh|]. intros dec (g & Hg & Hd).
      exists g. split; [by right|done].
Qed.

(** The shape of [run]: discovery, then the loop over the discovered
    files, then [_save_state] unless nothing was discovered. *)
Lemma run_shape (today now : string) (writable : bool)
    (date_filter : option string) (process_all : bool) (dir : list File)
    self :
  ∃ (files : list File) (started : Engine W),
    processed_files started = processed_files self
    ∧ state_file started = state_file self
    ∧ dry_run started = dry_run self
    ∧ stats started = stats self
    ∧ all_decisions started = all_decisions self
    ∧ discovered_files started = files
    ∧ run today now writable date_filter process_all dir self
      = (Ok tt,
         match files with
         | [] => started
         | _ => snd (_save_state now writable
                       (snd (process_files files started)))
         end).
Proof.
  rewrite run_unfold. cbv zeta. rewrite discover_unfold. simpl snd.
  match goal with
  | |- context [match ?l with [] => (Ok tt, ?s) | _ => _ end] =>
      exists l, s
  end.
  do 6 (split; [reflexivity|]).
  destruct (sort_by_mtime _) as [|f files] eqn:Hfiles; [done|].
  unfold bind.
  match goal with
  | |- context [process_files ?l ?s] =>
      pose proof (process_files_returns l s) as Hret;
      destruct (process_files l s) as [r mid]
  end.
  simpl in Hret. subst r. reflexivity.
Qed.

(** X12. [run] accounts for every file it discovers. It never raises: an
    exception while a file is parsed, routed or written is caught by
    [process_file]. Afterwards every discovered file is either in the
    processed-file set or has an entry under its name in the error list;
    the files counted as processed and the new errors together number
    the discovered files; no earlier marking is lost and only discovered
    files are newly marked; and the mode is as before. *)
Theorem run_accounts_for_every_file (today now : string) (writable : bool)
    (date_filter : option string) (process_all : bool) (dir : list File)
    self :
  let result := run today now writable date_filter process_all dir self in
  let after := snd result in
  fst result = Ok tt
  ∧ dry_run after = dry_run self
  ∧ processed_files self ⊆ processed_files after
  ∧ processed_files after
    ⊆ processed_files self ∪ list_to_set (name <$> discovered_files after)
  ∧ (∀ f, f ∈ discovered_files after →
       name f ∈ processed_files after
       ∨ ∃ e, (name f, e) ∈ errors (stats after))
  ∧ ∃ new_errors,
      errors (stats after) = (errors (stats self) ++ new_errors)%list
      ∧ (files_processed (stats after) + Z.of_nat (length new_errors)
         = files_processed (stats self)
           + Z.of_nat (length (discovered_files after)))%Z.
Proof.
  cbv zeta.
  destruct (run_shape today now writable date_filter process_all dir self)
    as (files & started & Hp & Hsf & Hdr & Hst & Had & Hdf & ->).
  simpl fst. simpl snd. split; [done|].
  destruct files as [|f files].
  - rewrite Hp, Hdr, Hdf, Hst. split; [done|]. split; [done|].
    split; [apply union_subseteq_l|].
    split; [intros f Hf; by apply elem_of_nil in Hf|].
    exists []. rewrite app_nil_r. split; [done|]. simpl. lia.
  - destruct (process_files_effect (f :: files) started)
      as (_ & Hdr' & Hdf' & Hsub & Hsup & Hall & new_errors & ds & He & _
          & Hcount & _).
    unfold _save_state, modify. simpl snd.
    set (mid := snd (process_files (f :: files) started)) in *.
    simpl. rewrite Hdf', Hdf, Hdr', Hdr. rewrite Hp in Hsub, Hsup.
    rewrite Hst in He, Hcount. split; [done|]. split; [done|].
    split; [done|]. split; [done|]. by exists new_errors.
Qed.

(** X13. The processed-file set survives a restart. After a run that
    discovered at least one file, with a writable state file,
    [Paths.ENGINE_STATE] holds the processed-file set, and an engine
    started on it (in any mode, on any storage) has exactly that set;
    this is so in a dry run as well. When nothing was discovered, or the
    state file cannot be written, the state file is as it was. *)
Theorem state_file_round_trip (today now : string) (writable : bool)
    (date_filter : option string) (process_all : bool) (dir : list File)
    self :
  let after :=
    snd (run today now writable date_filter process_all dir self) in
  (discovered_files after ≠ [] → writable = true →
   state_file after = Stored (elements (processed_files after)) now
   ∧ ∀ (dry : bool) (w : W),
       processed_files (new_engine dry w (state_file after))
       = processed_files after)
  ∧ (discovered_files after = [] ∨ writable = false →
     state_file after = state_file self).
Proof.
  cbv zeta.
  destruct (run_shape today now writable date_filter process_all dir self)
    as (files & started & Hp & Hsf & Hdr & Hst & Had & Hdf & ->).
  simpl snd. destruct files as [|f files].
  - rewrite Hdf. split; [done|]. by intros _.
  - destruct (process_files_effect (f :: files) started)
      as (Hsf' & _ & Hdf' & _).
    unfold _save_state, modify. simpl snd.
    set (mid := snd (process_files (f :: files) started)) in *.
    simpl. rewrite Hdf', Hdf. split.
    + intros _ ->. split; [done|]. intros dry w. simpl.
      apply list_to_set_elements_L.
    + intros [?| ->]; [done|]. congruence.
Qed.

(** The decisions of a run of a new engine all come from [_route_batch]
    or [_process_parquet] on a discovered file. *)
Lemma run_decisions (dry : bool) (w : W) (sf : StateFile)
    (today now : string) (writable : bool) (date_filter : option string)
    (process_all : bool) (dir : list File) :
  let after :=
    snd (run today now writable date_filter process_all dir
           (new_engine dry w sf)) in
  Forall (fun dec => ∃ f, f ∈ discovered_files after ∧ coherent (name f) dec)
    (all_decisions after)
  ∧ (errors (stats after) = [] →
     skipped (stats after) = skip_total (all_decisions after)
     ∧ skip_details (stats after) = skip_rows (all_decisions after)).
Proof.
  cbv zeta.
  destruct (run_shape today now writable date_filter process_all dir
              (new_engine dry w sf))
    as (files & started & Hp & Hsf & Hdr & Hst & Had & Hdf & ->).
  simpl snd. simpl in Hst, Had. destruct files as [|f files].
  - rewrite Had, Hst. split; [constructor|]. by intros _.
  - destruct (process_files_effect (f :: files) started)
      as (_ & _ & Hdf' & _ & _ & _ & new_errors & ds & He & Had' & _ & Hcoh
          & Hskip).
    unfold _save_state, modify. simpl snd.
    set (mid := snd (process_files (f :: files) started)) in *.
    simpl. rewrite Hdf', Hdf, Had', Had. simpl.
    split; [done|]. rewrite He, Hst. simpl. intros ->.
    destruct (Hskip eq_refl) as [-> ->]. rewrite Hst. simpl.
    split; [lia|done].
Qed.

End RunFacts.

(* ===================================================================== *)
(** * Properties of the audit report *)
(* ===================================================================== *)

Lemma skipped_batches_total (ds : list VDB.RoutingDecision) :
  foldr (fun si acc => (Audit.si_records_count si + acc)%Z) 0%Z
    (Audit.skipped_batches ds)
  = skip_total ds.
Proof.
  unfold skip_total, Audit.skipped_batches.
  induction ds as [|d ds IH]; [done|]. cbn [flat_map foldr].
  rewrite foldr_app, IH. by destruct (String.eqb (VDB.action d) "skip").
Qed.

Lemma skipped_batches_rows (ds : list VDB.RoutingDecision) :
  map (fun si => {| VDB.sd_source := Audit.si_source_file si;
                    VDB.sd_type := Audit.si_data_type si;
                    VDB.sd_count := Audit.si_records_count si;
                    VDB.sd_reason := Audit.si_skip_reason_code si |})
    (Audit.skipped_batches ds)
  = skip_rows ds.
Proof.
  unfold skip_rows, Audit.skipped_batches.
  induction ds as [|d ds IH]; [done|]. cbn [flat_map].
  rewrite map_app, IH. by destruct (String.eqb (VDB.action d) "skip").
Qed.

Lemma skipped_batches_explained (ds : list VDB.RoutingDecision) :
  Forall (fun dec => ∃ filename, coherent filename dec) ds →
  Forall (fun si =>
            Audit.si_data_type si = "unknown"
            ∧ VDB.assoc (Audit.si_skip_reason_code si) Audit.SKIP_REASONS
              = Some (Audit.si_skip_reason_explanation si)
            ∧ Audit.si_recommendation si
              ≠ "Review data structure and determine appropriate routing.")
    (Audit.skipped_batches ds).
Proof.
  induction 1 as [|d ds [filename Hc] _ IH]; [constructor|].
  unfold Audit.skipped_batches in *. simpl.
  destruct (String.eqb (VDB.action d) "skip") eqn:Hact; [|exact IH].
  simpl. constructor; [|exact IH]. simpl.
  apply String.eqb_eq in Hact.
  destruct (coherent_skip filename d Hc) as (Hu & _).
  apply Hu in Hact. destruct Hc as (_ & _ & Hr). rewrite Hact in *.
  simpl in Hr. split; [done|]. by destruct Hr as [-> | ->].
Qed.

Section AuditFacts.
Context `{PyRepr} {W : Type} `{VDB.DatabaseWriters W}.
Import VDB.

(** X14. Every decision of a run of a new engine belongs to a discovered
    file, has the target, action and key of [ROUTING_TABLE] for its data
    type, and is a skip exactly when its data type is [UNKNOWN], which is
    exactly when it carries a skip reason. Every skipped batch of the
    audit report then has data type ["unknown"], an explanation taken
    from [SKIP_REASONS] (never the fallback ["Unknown reason"]) and a
    recommendation other than the fallback one. *)
Theorem audit_explains_every_skip (dry : bool) (w : W) (sf : StateFile)
    (today now : string) (writable : bool) (date_filter : option string)
    (process_all : bool) (dir : list File) :
  let after :=
    snd (run today now writable date_filter process_all dir
           (new_engine dry w sf)) in
  Forall (fun dec =>
            (∃ f, f ∈ discovered_files after ∧ source_file dec = name f)
            ∧ (target_db dec, action dec, key_field dec)
              = (let '(tgt, act, key) := ROUTING_TABLE (data_type dec) in
                 (tgt, act, default "" key))
            ∧ (action dec = "skip" ↔ data_type dec = UNKNOWN)
            ∧ (action dec = "skip" ↔ skip_reason dec ≠ ""))
    (all_decisions after)
  ∧ Forall (fun si =>
              Audit.si_data_type si = "unknown"
              ∧ assoc (Audit.si_skip_reason_code si) Audit.SKIP_REASONS
                = Some (Audit.si_skip_reason_explanation si)
              ∧ Audit.si_skip_reason_explanation si ≠ "Unknown reason"
              ∧ Audit.si_recommendation si
                ≠ "Review data structure and determine appropriate routing.")
      (Audit.skipped_batches (all_decisions after)).
Proof.
  cbv zeta.
  destruct (run_decisions dry w sf today now writable date_filter
              process_all dir) as [Hcoh _].
  split.
  - eapply Forall_impl; [exact Hcoh|]. intros dec (f & Hf & Hc).
    destruct (coherent_skip _ _ Hc) as (Hu & Hr & _).
    destruct Hc as (Hsrc & Htab & _). split; [eauto|]. done.
  - eapply Forall_impl.
    + apply skipped_batches_explained.
      eapply Forall_impl; [exact Hcoh|]. intros dec (f & _ & Hc). eauto.
    + intros si (Ht & Hexp & Hrec). repeat split; try done.
      intros Heq. rewrite Heq in Hexp.
      apply assoc_elem_of in Hexp. unfold Audit.SKIP_REASONS in Hexp.
      rewrite !elem_of_cons, elem_of_nil in Hexp.
      repeat destruct Hexp as [Hexp|Hexp]; try discriminate. done.
Qed.

(** X15. On a run of a new engine in which no file failed, the skip counter
    is the sum of the record counts of the skipped batches that the
    audit report lists, and the skip details are those batches, in
    order. *)
Theorem audit_skipped_batches_match_counter (dry : bool) (w : W)
    (sf : StateFile) (today now : string) (writable : bool)
    (date_filter : option string) (process_all : bool) (dir : list File) :
  let after :=
    snd (run today now writable date_filter process_all dir
           (new_engine dry w sf)) in
  errors (stats after) = [] →
  skipped (stats after)
  = foldr (fun si acc => (Audit.si_records_count si + acc)%Z) 0%Z
      (Audit.skipped_batches (all_decisions after))
  ∧ skip_details (stats after)
    = map (fun si => {| sd_source := Audit.si_source_file si;
                        sd_type := Audit.si_data_type si;
                        sd_count := Audit.si_records_count si;
                        sd_reason := Audit.si_skip_reason_code si |})
        (Audit.skipped_batches (all_decisions after)).
Proof.
  cbv zeta. intros Herr.
  destruct (run_decisions dry w sf today now writable date_filter
              process_all dir) as [_ Hskip].
  destruct (Hskip Herr) as [-> ->].
  by rewrite skipped_batches_total, skipped_batches_rows.
Qed.

End AuditFacts.

(** At the example file, whose one batch is skipped: the run has no
    error, one record is skipped and the report lists one skipped
    batch of one record. *)
Lemma audit_skipped_batches_witness :
  VDB.skipped (VDB.stats
    (snd (@VDB.run VDB.tag_repr unit VDB.offline_writers
            "20260115" "2026-01-15T11:00:00" true None false
            [example_file] fresh_engine)))
  = foldr (fun si acc => (Audit.si_records_count si + acc)%Z) 0%Z
      (Audit.skipped_batches (VDB.all_decisions
        (snd (@VDB.run VDB.tag_repr unit VDB.offline_writers
                "20260115" "2026-01-15T11:00:00" true None false
                [example_file] fresh_engine))))
  ∧ VDB.skipped (VDB.stats
      (snd (@VDB.run VDB.tag_repr unit VDB.offline_writers
              "20260115" "2026-01-15T11:00:00" true None false
              [example_file] fresh_engine))) = 1%Z.
Proof.
  split; [|by vm_compute].
  apply (@audit_skipped_batches_match_counter VDB.tag_repr unit
           VDB.offline_writers false tt VDB.Absent
           "20260115" "2026-01-15T11:00:00" true None false [example_file]).
  by vm_compute.
Defined.

Lemma dict_add_sum (key : string) (n : Z) (d : list (string * Z)) :
  foldr (fun kv acc => (snd kv + acc)%Z) 0%Z (Audit.dict_add key n d)
  = (foldr (fun kv acc => (snd kv + acc)%Z) 0%Z d + n)%Z.
Proof.
  induction d as [|[k v] d IH]; simpl; [lia|].
  destruct (String.eqb key k); simpl; [lia|]. rewrite IH. lia.
Qed.

Lemma dict_add_keys (key : string) (n : Z) (d : list (string * Z)) :
  (Audit.dict_add key n d).*1
  = if bool_decide (key ∈ d.*1) then d.*1 else (d.*1 ++ [key])%list.
Proof.
  induction d as [|[k v] d IH]; [done|]. cbn [Audit.dict_add].
  destruct (String.eqb key k) eqn:Hk; rewrite !fmap_cons; cbn [fst].
  - apply String.eqb_eq in Hk as ->.
    rewrite bool_decide_eq_true_2; [done|left].
  - apply String.eqb_neq in Hk. rewrite IH.
    destruct (bool_decide (key ∈ d.*1)) eqn:Hin.
    + apply bool_decide_eq_true in Hin.
      rewrite bool_decide_eq_true_2; [done|by right].
    + apply bool_decide_eq_false in Hin.
      rewrite bool_decide_eq_false_2; [done|].
      intros [?|?]%elem_of_cons; done.
Qed.

Lemma dict_add_NoDup (key : string) (n : Z) (d : list (string * Z)) :
  NoDup d.*1 → NoDup (Audit.dict_add key n d).*1.
Proof.
  intros Hd. rewrite dict_add_keys.
  destruct (bool_decide (key ∈ d.*1)) eqn:Hin; [done|].
  apply bool_decide_eq_false in Hin. apply NoDup_app.
  split; [done|]. split; [|apply NoDup_singleton].
  intros x Hx [->|Hn]%elem_of_cons; [done|by apply elem_of_nil in Hn].
Qed.

(** X16. The audit report conserves what it summarises: the keys of
    [routing_summary] are distinct and its counts add up to
    [total_records_in], which is the sum of the record counts of the
    decisions; and every merge result is listed exactly once, under the
    merges when its action is ["merge"] or ["update"] and under the
    appends otherwise. *)
Theorem audit_report_conserves_records
    (all_decisions : list VDB.RoutingDecision)
    (merge_results : list VDB.MergeResult) :
  NoDup (Audit.routing_summary all_decisions).*1
  ∧ foldr (fun kv acc => (snd kv + acc)%Z) 0%Z
      (Audit.routing_summary all_decisions)
    = Audit.total_in all_decisions
  ∧ Audit.total_in all_decisions
    = foldr (fun dec acc => (VDB.records_count dec + acc)%Z) 0%Z
        all_decisions
  ∧ (Audit.successful_merges merge_results
     ++ Audit.successful_appends merge_results)%list ≡ₚ merge_results.
Proof.
  assert (∀ summary total,
            NoDup summary.*1 →
            foldr (fun kv acc => (snd kv + acc)%Z) 0%Z summary = total →
            let summary' :=
              fold_left
                (fun summary d =>
                   Audit.dict_add
                     (VDB.value (VDB.data_type d) +:+ " -> "
                      +:+ VDB.target_db d)
                     (VDB.records_count d) summary)
                all_decisions summary in
            let total' :=
              fold_left (fun total d => (total + VDB.records_count d)%Z)
                all_decisions total in
            NoDup summary'.*1
            ∧ foldr (fun kv acc => (snd kv + acc)%Z) 0%Z summary' = total'
            ∧ total'
              = (total + foldr (fun dec acc =>
                                  (VDB.records_count dec + acc)%Z) 0%Z
                           all_decisions)%Z) as Hloop.
  { induction all_decisions as [|d ds IH]; intros summary total Hnd Hsum;
      cbv zeta; simpl.
    - split; [done|]. split; [done|]. lia.
    - destruct (IH (Audit.dict_add
                      (VDB.value (VDB.data_type d) +:+ " -> "
                       +:+ VDB.target_db d)
                      (VDB.records_count d) summary)
                  (total + VDB.records_count d)%Z) as (Hn & Hs & Ht).
      + by apply dict_add_NoDup.
      + rewrite dict_add_sum. by rewrite Hsum.
      + split; [done|]. split; [done|]. rewrite Ht. lia. }
  destruct (Hloop [] 0%Z) as (Hn & Hs & Ht); [constructor|done|].
  split; [exact Hn|]. split; [exact Hs|]. split; [exact Ht|].
  unfold Audit.successful_merges, Audit.successful_appends.
  induction merge_results as [|mr mrs IH]; [done|]. simpl.
  destruct (bool_decide (VDB.mr_action mr ∈ ["merge"; "update"])); simpl.
  - by rewrite IH.
  - rewrite <- Permutation_middle. by rewrite IH.
Qed.
(** The round trip at the example directory: the first run marks
    [fresh_data_20260115.json], and the engine started on the state file
    it leaves has the same processed-file set. *)
Lemma state_file_round_trip_witness :
  VDB.processed_files second_run_engine
  = VDB.processed_files first_run_engine.
Proof.
  destruct (@state_file_round_trip VDB.tag_repr unit VDB.offline_writers
              "20260115" "2026-01-15T11:00:00" true None false
              [example_file; failing_file] fresh_engine) as [Hsaved _].
  destruct Hsaved as [_ Hrestart]; [by vm_compute|reflexivity|].
  exact (Hrestart false tt).
Defined.

(* ===================================================================== *)
(** * Properties of file discovery *)
(* ===================================================================== *)

Lemma prefix_two (a b : ascii) (p nm : string) :
  String.prefix (String a (String b p)) nm = true →
  ∃ r, nm = String a (String b r).
Proof.
  destruct nm as [|c [|c2 r]]; simpl.
  - done.
  - destruct (ascii_dec a c); done.
  - destruct (ascii_dec a c) as [->|]; [|done].
    destruct (ascii_dec b c2) as [->|]; [|done]. eauto.
Qed.

(** A file name matches at most one of the patterns of
    [discover_fresh_files]. *)
Lemma pattern_exclusive (p q : string * string) (nm : string) :
  p ∈ VDB.patterns → q ∈ VDB.patterns →
  VDB.glob_match p nm = true → VDB.glob_match q nm = true → p = q.
Proof.
  unfold VDB.glob_match, startswith.
  intros Hp Hq [[Hpn _]%andb_true_iff _]%andb_true_iff
    [[Hqn _]%andb_true_iff _]%andb_true_iff.
  unfold VDB.patterns in Hp, Hq.
  rewrite !elem_of_cons, elem_of_nil in Hp.
  rewrite !elem_of_cons, elem_of_nil in Hq.
  repeat destruct Hp as [Hp|Hp]; try done; subst p;
    apply prefix_two in Hpn as [r ->];
    repeat destruct Hq as [Hq|Hq]; try done; subst q;
    apply prefix_two in Hqn as [r' Hr']; done.
Qed.

Lemma elem_of_names_filter (P : VDB.File → bool) (l : list VDB.File)
    (nm : string) :
  nm ∈ VDB.name <$> List.filter P l →
  ∃ f, f ∈ l ∧ P f = true ∧ VDB.name f = nm.
Proof.
  intros (f & -> & Hf)%list_elem_of_fmap.
  apply list_elem_of_In, List.filter_In in Hf as [Hf HP].
  exists f. split; [by apply list_elem_of_In|done].
Qed.

Lemma NoDup_names_filter (P : VDB.File → bool) (l : list VDB.File) :
  NoDup (VDB.name <$> l) → NoDup (VDB.name <$> List.filter P l).
Proof.
  induction l as [|f l IH]; [done|]. rewrite fmap_cons.
  intros [Hf Hl]%NoDup_cons. simpl. destruct (P f); [|by apply IH].
  rewrite fmap_cons. apply NoDup_cons. split; [|by apply IH].
  intros (g & Hg & _ & Heq)%elem_of_names_filter. apply Hf.
  rewrite <- Heq. by apply list_elem_of_fmap_2.
Qed.

Lemma NoDup_names_glob (dir : list VDB.File) (pats : list (string * string)) :
  NoDup pats → (∀ p, p ∈ pats → p ∈ VDB.patterns) →
  NoDup (VDB.name <$> dir) →
  NoDup (VDB.name <$> flat_map (VDB.glob dir) pats).
Proof.
  intros Hpats Hsub Hdir.
  induction pats as [|p pats IH]; [constructor|]. simpl.
  apply NoDup_cons in Hpats as [Hp Hpats]. rewrite fmap_app.
  apply NoDup_app. split; [by apply NoDup_names_filter|]. split.
  - intros nm (f & _ & Hpf & <-)%elem_of_names_filter
      (g & Heq & Hg)%list_elem_of_fmap.
    rewrite Heq in Hpf.
    apply list_elem_of_In, in_flat_map in Hg as (q & Hq & Hg).
    apply List.filter_In in Hg as [_ Hqg].
    apply list_elem_of_In in Hq.
    assert (p = q) as ->; [|done].
    apply (pattern_exclusive p q (VDB.name g)); try done.
    + apply Hsub. left.
    + apply Hsub. by right.
  - apply IH; [done|]. intros q Hq. apply Hsub. by right.
Qed.

Lemma insert_by_mtime_Permutation (f : VDB.File) (l : list VDB.File) :
  VDB.insert_by_mtime f l ≡ₚ f :: l.
Proof.
  induction l as [|g l IH]; [done|]. simpl.
  destruct (VDB.st_mtime g <? VDB.st_mtime f)%Z; [done|].
  rewrite IH. apply Permutation_swap.
Qed.

Lemma sort_by_mtime_Permutation (l : list VDB.File) :
  VDB.sort_by_mtime l ≡ₚ l.
Proof.
  unfold VDB.sort_by_mtime.
  assert (∀ acc,
            fold_left (fun acc f => VDB.insert_by_mtime f acc) l acc
            ≡ₚ (l ++ acc)%list) as Hgen.
  { induction l as [|f l IH]; intros acc; [done|]. simpl.
    rewrite IH, insert_by_mtime_Permutation.
    by rewrite Permutation_middle. }
  by rewrite Hgen, app_nil_r.
Qed.

Lemma insert_by_mtime_sorted (f : VDB.File) (l : list VDB.File) :
  StronglySorted (fun a b => (VDB.st_mtime b ≤ VDB.st_mtime a)%Z) l →
  StronglySorted (fun a b => (VDB.st_mtime b ≤ VDB.st_mtime a)%Z)
    (VDB.insert_by_mtime f l).
Proof.
  induction 1 as [|g l Hl IH Hg]; simpl.
  - repeat constructor.
  - destruct (VDB.st_mtime g <? VDB.st_mtime f)%Z eqn:Hlt.
    + apply Z.ltb_lt in Hlt. constructor; [by constructor|].
      constructor; [lia|]. eapply Forall_impl; [exact Hg|].
      intros x Hx. simpl in Hx. lia.
    + apply Z.ltb_ge in Hlt. constructor; [done|].
      rewrite insert_by_mtime_Permutation. by constructor.
Qed.

Lemma sort_by_mtime_sorted (l : list VDB.File) :
  StronglySorted (fun a b => (VDB.st_mtime b ≤ VDB.st_mtime a)%Z)
    (VDB.sort_by_mtime l).
Proof.
  unfold VDB.sort_by_mtime.
  assert (∀ acc,
            StronglySorted
              (fun a b => (VDB.st_mtime b ≤ VDB.st_mtime a)%Z) acc →
            StronglySorted
              (fun a b => (VDB.st_mtime b ≤ VDB.st_mtime a)%Z)
              (fold_left (fun acc f => VDB.insert_by_mtime f acc) l acc))
    as Hgen.
  { induction l as [|f l IH]; intros acc Hacc; [done|]. simpl.
    by apply IH, insert_by_mtime_sorted. }
  apply Hgen. constructor.
Qed.

Lemma NoDup_patterns : NoDup VDB.patterns.
Proof. by_compute. Qed.

Section DiscoveryFacts.
Context `{PyRepr} {W : Type} `{VDB.DatabaseWriters W}.
Import VDB.

(** X17. [discover_fresh_files] lists each fresh file once, newest first. Of
    a directory with distinct file names it returns (and stores in
    [discovered_files]) exactly the files whose name matches one of the
    patterns, contains the date filter when one is given, and is not in
    the processed-file set; no name occurs twice in the result, since a
    name matches at most one pattern; and the result is sorted by
    modification time, latest first. The rest of the engine is
    untouched. *)
Theorem discovery_lists_each_fresh_file_once (date_filter : option string)
    (dir : list File) (self : Engine W) :
  NoDup (name <$> dir) →
  ∃ files,
    fst (discover_fresh_files date_filter dir self) = Ok files
    ∧ discovered_files (snd (discover_fresh_files date_filter dir self))
      = files
    ∧ processed_files (snd (discover_fresh_files date_filter dir self))
      = processed_files self
    ∧ stats (snd (discover_fresh_files date_filter dir self)) = stats self
    ∧ (∀ f, f ∈ files ↔
            f ∈ dir
            ∧ (∃ pat, pat ∈ patterns ∧ glob_match pat (name f) = true)
            ∧ (∀ d, date_filter = Some d → d ≠ "" →
                 contains d (name f) = true)
            ∧ name f ∉ processed_files self)
    ∧ NoDup (name <$> files)
    ∧ StronglySorted (fun a b => (st_mtime b ≤ st_mtime a)%Z) files.
Proof.
  intros Hdir. rewrite discover_unfold. simpl.
  eexists. do 4 (split; [reflexivity|]).
  set (globbed := flat_map (glob dir) patterns).
  assert (∀ f, f ∈ globbed ↔
               f ∈ dir ∧ ∃ pat, pat ∈ patterns
                                ∧ glob_match pat (name f) = true)
    as Hglob.
  { intros f. unfold globbed. rewrite list_elem_of_In, in_flat_map. split.
    - intros (pat & Hpat & Hf). unfold glob in Hf.
      apply List.filter_In in Hf as [Hf Hm].
      split; [by apply list_elem_of_In|]. exists pat.
      split; [by apply list_elem_of_In|done].
    - intros (Hf & pat & Hpat & Hm). exists pat.
      split; [by apply list_elem_of_In|]. apply List.filter_In.
      split; [by apply list_elem_of_In|done]. }
  assert (NoDup (name <$> globbed)) as Hnd.
  { apply NoDup_names_glob; [apply NoDup_patterns|done|done]. }
  split; [|split].
  - intros f. rewrite sort_by_mtime_Permutation. unfold fresh_candidates.
    fold globbed. rewrite list_elem_of_In, List.filter_In.
    rewrite negb_true_iff, bool_decide_eq_false.
    destruct date_filter as [d|].
    + destruct (String.eqb d "") eqn:Hd; simpl.
      * apply String.eqb_eq in Hd as ->.
        rewrite <- list_elem_of_In, Hglob. split.
        -- intros [[Hf Hp] Hn]. repeat split; try done.
           intros d [= <-] Hne. done.
        -- intros (Hf & Hp & _ & Hn). done.
      * apply String.eqb_neq in Hd.
        rewrite List.filter_In, <- list_elem_of_In, Hglob. split.
        -- intros [[[Hf Hp] Hc] Hn]. repeat split; try done.
           by intros ? [= <-] _.
        -- intros (Hf & Hp & Hc & Hn). repeat split; try done.
           by apply Hc.
    + rewrite <- list_elem_of_In, Hglob. split.
      * intros [[Hf Hp] Hn]. repeat split; try done.
      * intros (Hf & Hp & _ & Hn). done.
  - rewrite sort_by_mtime_Permutation. unfold fresh_candidates.
    fold globbed. apply NoDup_names_filter.
    destruct date_filter as [d|]; [|done].
    destruct (negb (String.eqb d "")); [|done].
    by apply NoDup_names_filter.
  - apply sort_by_mtime_sorted.
Qed.

End DiscoveryFacts.

(** Discovery at the example directory, whose two files are fresh:
    the later one, [tmdb_20260115.json], comes first. *)
Lemma discovery_witness :
  ∃ files,
    fst (@VDB.discover_fresh_files unit None [example_file; failing_file]
           fresh_engine) = Ok files
    ∧ files = [failing_file; example_file]
    ∧ NoDup (VDB.name <$> files)
    ∧ StronglySorted (fun a b => (VDB.st_mtime b ≤ VDB.st_mtime a)%Z) files.
Proof.
  destruct (@discovery_lists_each_fresh_file_once unit None
              [example_file; failing_file] fresh_engine)
    as (files & Hfst & _ & _ & _ & _ & Hnd & Hsorted); [by_compute|].
  exists files. split; [exact Hfst|]. split; [|done].
  vm_compute in Hfst. by injection Hfst as <-.
Defined.

(* ===================================================================== *)
(** * The idempotency boundary between two runs *)
(* ===================================================================== *)

Section RerunFacts.
Context `{PyRepr} {W : Type} `{VDB.DatabaseWriters W}.
Import VDB.

Implicit Types (self : Engine W).







End RerunFacts.



(* ===================================================================== *)
(** * Properties of record normalisation and of the BFD writers *)
(* ===================================================================== *)

Section RecordFacts.
Context `{PyRepr} {W : Type} `{VDB.DatabaseWriters W}.
Import VDB.

Lemma records_of_list_dicts (l : list json) :
  Forall (fun r => ∃ d, r = JDict d) (records_of_list l)
  ∧ (length (records_of_list l) ≤ length l)%nat.
Proof.
  unfold records_of_list. induction l as [|item l [IH1 IH2]].
  - split; [constructor|done].
  - cbn [flat_map]. rewrite length_app. split.
    + apply Forall_app. split; [|done].
      destruct item as [| | | | | |d]; try constructor.
      destruct (assoc "data" d) as [[| | | | | |inner]|];
        repeat constructor; eauto.
    + assert (length
                match item with
                | JDict d =>
                    match assoc "data" d with
                    | Some (JDict inner) => [JDict inner]
                    | _ => [item]
                    end
                | _ => []
                end ≤ 1)%nat as Hone.
      { destruct item as [| | | | | |d]; simpl; try lia.
        destruct (assoc "data" d) as [[| | | | | |inner]|]; simpl; lia. }
      simpl length. lia.
Qed.

Lemma normalize_to_records_dicts (data : json) :
  Forall (fun r => ∃ d, r = JDict d) (_normalize_to_records data).
Proof.
  destruct data as [| | | | |l|d]; simpl; try constructor.
  - apply records_of_list_dicts.
  - destruct (assoc "data" d) as [[| | | | |l|inner]|];
      try apply records_of_list_dicts;
      (destruct (assoc "results" d) as [[| | | | |l'|inner']|];
       try apply records_of_list_dicts; repeat constructor; eauto).
Qed.

Lemma sample_keys_of_dicts (keys : list string) (rs : list json) :
  Forall (fun r => ∃ d, r = JDict d) rs →
  ∃ ks, Writers.sample_keys_of keys rs = Ok ks
        ∧ (length ks ≤ length rs)%nat.
Proof.
  induction 1 as [|r rs [d ->] _ (ks & IH & Hlen)]; [by exists []|].
  cbn [Writers.sample_keys_of]. rewrite IH.
  destruct (truthy _); eexists; (split; [reflexivity|]); simpl; lia.
Qed.

(** X18. The generic merge path cannot fail on the shape of its input.
    [_normalize_to_records] returns dicts only, whatever the payload,
    and never more records than a list payload has items; on such
    records [merge_to_bfd] returns, in a dry run and in a live one,
    with [total_records] the number of records, a third of them
    (rounded down) counted as new and the rest as updated, none skipped
    and at most five sample keys; and the two modes differ in the
    [reason] text only. *)
Theorem merge_to_bfd_accepts_normalized_records (data : json)
    (key_field : string) :
  let records := _normalize_to_records data in
  Forall (fun r => ∃ d, r = JDict d) records
  ∧ (∀ l, data = JList l → (length records ≤ length l)%nat)
  ∧ ∃ sample : list string,
      (length sample ≤ 5)%nat
      ∧ ∀ dry : bool,
          ∃ reason : string,
            Writers.merge_to_bfd dry records key_field
            = Ok {| target := "Cranberry_BFD_V18.06.parquet";
                    mr_action := "merge";
                    total_records := Z.of_nat (length records);
                    new_records := Z.of_nat (length records) / 3;
                    updated_records :=
                      Z.of_nat (length records)
                      - Z.of_nat (length records) / 3;
                    skipped_records := 0;
                    mr_key_field := key_field;
                    sample_keys := sample;
                    fields_updated :=
                      ["tmdb_popularity"; "tmdb_score"; "tmdb_vote_count";
                       "title"; "overview"];
                    mr_reason := reason |}.
Proof.
  cbv zeta. pose proof (normalize_to_records_dicts data) as Hd.
  split; [done|]. split.
  { intros l ->. apply records_of_list_dicts. }
  revert Hd. generalize (_normalize_to_records data). intros records Hd.
  destruct (sample_keys_of_dicts [key_field; "id"; "tmdb_id"; "imdb_id"]
              (take 5 records)) as (ks & Hks & Hlen);
    [by apply Forall_take|].
  exists (match records with [] => [] | _ => ks end). split.
  { rewrite length_take in Hlen. destruct records; simpl; lia. }
  intros dry. unfold Writers.merge_to_bfd.
  destruct records as [|r rs]; [by eexists|]. rewrite Hks. by eexists.
Qed.

End RecordFacts.
Section WriterFacts.
Context `{PyRepr}.
Import VDB.

Lemma sample_keys_of_raises (keys : list string) (rs : list json) (e : exn) :
  Writers.sample_keys_of keys rs = Raise e
  ↔ e = AttributeError ∧ Exists (fun r => ∀ d, r ≠ JDict d) rs.
Proof.
  revert e. induction rs as [|r rs IH]; intros e.
  - split; [done|]. intros [_ Hex]. by apply Exists_nil in Hex.
  - cbn [Writers.sample_keys_of].
    destruct r as [| | | | | |d];
      try (split; [intros [= <-]; split; [done|]; by left|by intros [-> _]]).
    destruct (Writers.sample_keys_of keys rs) as [ks|e'] eqn:Hrs.
    + split; [done|]. intros [He [Hr|Hex]%Exists_cons].
      * by destruct (Hr d).
      * pose proof (proj2 (IH e) (conj He Hex)). done.
    + destruct (proj1 (IH e') eq_refl) as [-> Hex]. split.
      * intros [= <-]. split; [done|]. by right.
      * by intros [-> _].
Qed.

(** X19. [merge_to_bfd] looks at the first five records only. Two batches of
    the same length that agree on their first five records give the same
    result; and the call raises exactly when one of the first five
    records is not a dict, the exception being [AttributeError]: a
    malformed record further down does not stop the merge. *)
Theorem merge_to_bfd_inspects_five_records (dry : bool)
    (key_field : string) :
  (∀ records records' : list json,
     length records = length records' →
     take 5 records = take 5 records' →
     Writers.merge_to_bfd dry records key_field
     = Writers.merge_to_bfd dry records' key_field)
  ∧ (∀ (records : list json) (e : exn),
       Writers.merge_to_bfd dry records key_field = Raise e
       ↔ e = AttributeError
         ∧ Exists (fun r => ∀ d, r ≠ JDict d) (take 5 records)).
Proof.
  split.
  - intros records records' Hlen Htake. unfold Writers.merge_to_bfd.
    rewrite Hlen, Htake.
    destruct records as [|r rs], records' as [|r' rs']; done.
  - intros records e. unfold Writers.merge_to_bfd.
    destruct records as [|r rs].
    + split; [done|]. intros [_ Hex]. by apply Exists_nil in Hex.
    + rewrite <- (sample_keys_of_raises
                    [key_field; "id"; "tmdb_id"; "imdb_id"]).
      destruct (Writers.sample_keys_of _ _); split; congruence.
Qed.

Lemma dict_set_keys (k : string) (v : json) (d : list (string * json)) :
  (Writers.dict_set k v d).*1
  = if bool_decide (k ∈ d.*1) then d.*1 else (d.*1 ++ [k])%list.
Proof.
  induction d as [|[k' v'] d IH]; [done|]. cbn [Writers.dict_set].
  destruct (String.eqb k k') eqn:Hk; rewrite !fmap_cons; cbn [fst].
  - apply String.eqb_eq in Hk as ->.
    rewrite bool_decide_eq_true_2; [done|left].
  - apply String.eqb_neq in Hk. rewrite IH.
    destruct (bool_decide (k ∈ d.*1)) eqn:Hin.
    + apply bool_decide_eq_true in Hin.
      rewrite bool_decide_eq_true_2; [done|by right].
    + apply bool_decide_eq_false in Hin.
      rewrite bool_decide_eq_false_2; [done|].
      intros [?|?]%elem_of_cons; done.
Qed.

Lemma assoc_dict_set (k k' : string) (v : json) (d : list (string * json)) :
  assoc k' (Writers.dict_set k v d)
  = if String.eqb k' k then Some v else assoc k' d.
Proof.
  induction d as [|[k0 v0] d IH]; simpl.
  - by destruct (String.eqb k' k).
  - destruct (String.eqb k k0) eqn:Hk; simpl.
    + apply String.eqb_eq in Hk as ->. by destruct (String.eqb k' k0).
    + rewrite IH. destruct (String.eqb k' k0) eqn:Hk0; [|done].
      apply String.eqb_eq in Hk0 as ->.
      by rewrite String.eqb_sym, Hk.
Qed.

(** What the field loop keeps true of the mapped record: its keys are
    distinct and among [allowed], and its ["imdb_id"], when set, is
    [None] or a string. *)
Lemma map_fields_invariant (allowed : list string)
    (fields : list (string * string)) (r : json)
    (mapped result : list (string * json)) :
  Forall (fun sd => snd sd ∈ allowed
                    ∧ (snd sd = "imdb_id" → fst sd = "imdbId")) fields →
  Writers.map_fields fields r mapped = Ok result →
  NoDup mapped.*1 ∧ mapped.*1 ⊆ allowed
  ∧ (∀ v, assoc "imdb_id" mapped = Some v → v = JNull ∨ ∃ s, v = JStr s) →
  NoDup result.*1 ∧ result.*1 ⊆ allowed
  ∧ (∀ v, assoc "imdb_id" result = Some v → v = JNull ∨ ∃ s, v = JStr s).
Proof.
  intros Hfields. revert mapped.
  induction Hfields as [|[src dst] fields [Hdst Himdb] _ IH];
    intros mapped Hres Hinv; simpl in *.
  - by injection Hres as <-.
  - destruct (Writers.field_in src r) as [[]|]; [|by apply (IH mapped)|done].
    destruct (Writers.item r src) as [v|]; [|done].
    assert (∀ v', NoDup (Writers.dict_set dst v' mapped).*1
                  ∧ (Writers.dict_set dst v' mapped).*1 ⊆ allowed) as Hkeys.
    { intros v'. destruct Hinv as (Hnd & Hsub & _). rewrite dict_set_keys.
      destruct (bool_decide (dst ∈ mapped.*1)) eqn:Hin; [done|].
      apply bool_decide_eq_false in Hin. split.
      - apply NoDup_app. split; [done|]. split; [|apply NoDup_singleton].
        intros x Hx [->|Hn]%elem_of_cons; [done|by apply elem_of_nil in Hn].
      - intros x [Hx|Hx]%elem_of_app; [by apply Hsub|].
        apply elem_of_cons in Hx as [->|Hx]; [done|].
        by apply elem_of_nil in Hx. }
    destruct (String.eqb src "imdbId") eqn:Hsrc.
    + destruct (convert_imdb_id v) as [[s|]|]; [| |done].
      * apply (IH _ Hres). destruct (Hkeys (JStr s)) as [? ?].
        split; [done|]. split; [done|].
        intros v'. rewrite assoc_dict_set.
        destruct (String.eqb "imdb_id" dst);
          [intros [= <-]; eauto|apply Hinv].
      * apply (IH _ Hres). destruct (Hkeys JNull) as [? ?].
        split; [done|]. split; [done|].
        intros v'. rewrite assoc_dict_set.
        destruct (String.eqb "imdb_id" dst);
          [intros [= <-]; eauto|apply Hinv].
    + apply (IH _ Hres). destruct (Hkeys v) as [? ?].
      split; [done|]. split; [done|].
      intros v'. rewrite assoc_dict_set.
      destruct (String.eqb "imdb_id" dst) eqn:Hd; [|apply Hinv].
      apply String.eqb_eq in Hd. symmetry in Hd.
      simpl in Himdb. rewrite (Himdb Hd) in Hsrc. done.
Qed.

Lemma field_map_shape :
  Forall (fun sd => snd sd ∈ map snd Writers.FLIXPATROL_FIELD_MAP
                    ∧ (snd sd = "imdb_id" → fst sd = "imdbId"))
    Writers.FLIXPATROL_FIELD_MAP.
Proof.
  unfold Writers.FLIXPATROL_FIELD_MAP.
  repeat constructor; simpl; try discriminate;
    rewrite !elem_of_cons; tauto.
Qed.

Lemma transform_effect (records transformed : list json) (skipped : Z) :
  Writers.transform records = Ok (transformed, skipped) →
  (Z.of_nat (length transformed) + skipped = Z.of_nat (length records))%Z
  ∧ (0 ≤ skipped)%Z
  ∧ Forall
      (fun t =>
         ∃ mapped,
           t = JDict mapped
           ∧ NoDup mapped.*1
           ∧ mapped.*1 ⊆ map snd Writers.FLIXPATROL_FIELD_MAP
           ∧ (∀ v, assoc "imdb_id" mapped = Some v →
                v = JNull ∨ ∃ s, v = JStr s)
           ∧ (truthy (default JNull (assoc "imdb_id" mapped))
              || truthy (default JNull (assoc "tmdb_id" mapped))) = true)
      transformed.
Proof.
  revert transformed skipped.
  induction records as [|r records IH]; intros transformed skipped;
    cbn [Writers.transform].
  - intros [= <- <-]. split; [done|]. split; [done|constructor].
  - destruct (Writers.map_fields Writers.FLIXPATROL_FIELD_MAP r [])
      as [mapped|] eqn:Hmap; [|done].
    destruct (Writers.transform records) as [[t s]|]; [|done].
    destruct (IH t s eq_refl) as (Hlen & Hs & Hall).
    destruct (map_fields_invariant _ _ _ _ _ field_map_shape Hmap)
      as (Hnd & Hsub & Hid).
    { split; [constructor|]. split; [|done].
      intros x Hx. by apply elem_of_nil in Hx. }
    destruct (truthy (default JNull (assoc "imdb_id" mapped))
              || truthy (default JNull (assoc "tmdb_id" mapped))) eqn:Hkey.
    + intros [= <- <-]. split; [simpl length; lia|]. split; [done|].
      constructor; [|done]. exists mapped. done.
    + intros [= <- <-]. split; [simpl length; lia|]. split; [lia|done].
Qed.

(** X20. [merge_flixpatrol_to_bfd] accounts for every record: when it
    returns, the new, updated and skipped records together number the
    records received, half of the kept ones (rounded down) being counted
    as new. [total_records] is the number received in a dry run but the
    number kept in a live one, so the two modes report different totals
    as soon as a record lacks both identifiers. At most five sample keys
    are reported. *)
Theorem merge_flixpatrol_accounts_for_every_record (dry : bool)
    (records : list json) (result : MergeResult) :
  Writers.merge_flixpatrol_to_bfd dry records = Ok result →
  let n := Z.of_nat (length records) in
  (new_records result + updated_records result + skipped_records result
   = n)%Z
  ∧ (0 ≤ skipped_records result ≤ n)%Z
  ∧ new_records result = ((n - skipped_records result) / 2)%Z
  ∧ (0 ≤ new_records result ≤ updated_records result)%Z
  ∧ total_records result
    = (if dry then n else n - skipped_records result)%Z
  ∧ (length (sample_keys result) ≤ 5)%nat
  ∧ target result = "Cranberry_BFD_V18.06.parquet"
  ∧ mr_action result = "merge"
  ∧ mr_key_field result = "imdb_id".
Proof.
  unfold Writers.merge_flixpatrol_to_bfd. cbv zeta.
  destruct records as [|r0 rs].
  { intros [= <-]. simpl. destruct dry; repeat split; lia. }
  set (records := r0 :: rs).
  destruct (Writers.transform records) as [[transformed skipped]|] eqn:Ht;
    [|done].
  destruct (transform_effect _ _ _ Ht) as (Hlen & Hs & Hall).
  destruct (sample_keys_of_dicts ["imdb_id"; "tmdb_id"] (take 5 transformed))
    as (ks & Hks & Hklen).
  { apply Forall_take. eapply Forall_impl; [exact Hall|].
    intros t (mapped & -> & _). eauto. }
  rewrite Hks. rewrite length_take in Hklen.
  set (m := Z.of_nat (length transformed)) in *.
  assert (0 ≤ m)%Z as Hm by (unfold m; lia).
  assert (0 ≤ m / 2 ∧ m / 2 ≤ m - m / 2)%Z as [Hn1 Hn2].
  { pose proof (Z.div_mod m 2 ltac:(lia)).
    pose proof (Z.mod_pos_bound m 2 ltac:(lia)). lia. }
  assert (Z.of_nat (length records) - skipped = m)%Z as Hkept by lia.
  clearbody records m.
  destruct dry; intros [= <-];
    cbn [new_records updated_records skipped_records total_records
         sample_keys target mr_action mr_key_field];
    rewrite ?Hkept; repeat split; try done; lia.
Qed.

(** X21. The records that [merge_flixpatrol_to_bfd] keeps carry mapped
    fields only. Every transformed record is a dict whose keys are
    distinct BFD column names of [FLIXPATROL_FIELD_MAP], whose
    ["imdb_id"], when present, is [None] or a string (the result of
    [convert_imdb_id]), and which has a truthy ["imdb_id"] or
    ["tmdb_id"]; the kept and the skipped records together number the
    records received. *)
Theorem flixpatrol_transform_keeps_mapped_fields_only
    (records transformed : list json) (skipped : Z) :
  Writers.transform records = Ok (transformed, skipped) →
  (Z.of_nat (length transformed) + skipped = Z.of_nat (length records))%Z
  ∧ Forall
      (fun t =>
         ∃ mapped,
           t = JDict mapped
           ∧ NoDup mapped.*1
           ∧ mapped.*1 ⊆ map snd Writers.FLIXPATROL_FIELD_MAP
           ∧ (∀ v, assoc "imdb_id" mapped = Some v →
                v = JNull ∨ ∃ s, v = JStr s)
           ∧ (truthy (default JNull (assoc "imdb_id" mapped))
              || truthy (default JNull (assoc "tmdb_id" mapped))) = true)
      transformed.
Proof.
  intros Ht. destruct (transform_effect _ _ _ Ht) as (Hlen & _ & Hall).
  done.
Qed.

Lemma map_fields_raises (fields : list (string * string)) (r : json)
    (mapped : list (string * json)) (e : exn) :
  Writers.map_fields fields r mapped = Raise e →
  ((∀ d, r ≠ JDict d) ∧ e = TypeError)
  ∨ (∃ d f, r = JDict d ∧ assoc "imdbId" d = Some (JFloat f)
            ∧ int_of_float f = Raise e).
Proof.
  revert mapped. induction fields as [|[src dst] fields IH]; intros mapped;
    cbn [Writers.map_fields]; [done|].
  destruct r as [| | | | s | l | d];
    try (intros [= <-]; by left).
  - cbn [Writers.field_in Writers.item].
    destruct (contains src s); [intros [= <-]; by left|apply IH].
  - cbn [Writers.field_in Writers.item].
    destruct (existsb _ l); [intros [= <-]; by left|apply IH].
  - cbn [Writers.field_in Writers.item].
    destruct (assoc src d) as [v|] eqn:Hv.
    2:{ rewrite bool_decide_eq_false_2 by (by intros [? ?]). apply IH. }
    rewrite bool_decide_eq_true_2 by eauto.
    destruct (String.eqb src "imdbId") eqn:Hsrc; [|apply IH].
    apply String.eqb_eq in Hsrc as ->.
    destruct (convert_imdb_id v) as [[s|]|e'] eqn:Hc; try apply IH.
    intros [= <-]. right. exists d.
    unfold convert_imdb_id in Hc.
    destruct v as [| | |f|s| |]; try done.
    + exists f. split; [done|]. split; [done|].
      destruct (int_of_float f); congruence.
    + destruct (startswith s "tt"); [done|]. by destruct (int_of_str s).
Qed.

Lemma transform_raises (records : list json) (e : exn) :
  Writers.transform records = Raise e →
  Exists (fun r =>
            ((∀ d, r ≠ JDict d) ∧ e = TypeError)
            ∨ (∃ d f, r = JDict d ∧ assoc "imdbId" d = Some (JFloat f)
                      ∧ int_of_float f = Raise e)) records.
Proof.
  induction records as [|r records IH]; cbn [Writers.transform]; [done|].
  destruct (Writers.map_fields Writers.FLIXPATROL_FIELD_MAP r [])
    as [mapped|e'] eqn:Hmap.
  - destruct (Writers.transform records) as [[t s]|e'].
    + by destruct (_ || _).
    + intros [= <-]. right. by apply IH.
  - intros [= <-]. left. by apply (map_fields_raises _ _ _ _ Hmap).
Qed.

(** X22. [merge_flixpatrol_to_bfd] fails on malformed records only. When it
    raises, some record is not a dict (the exception is then
    [TypeError]), or is a dict whose ["imdbId"] is a float that [int()]
    rejects (NaN or an infinity; the exception is that of [int()]). On
    dicts whose ["imdbId"] is not a float it always returns. *)
Theorem merge_flixpatrol_fails_only_on_malformed_records (dry : bool)
    (records : list json) :
  (∀ e, Writers.merge_flixpatrol_to_bfd dry records = Raise e →
        Exists (fun r =>
                  ((∀ d, r ≠ JDict d) ∧ e = TypeError)
                  ∨ (∃ d f, r = JDict d
                            ∧ assoc "imdbId" d = Some (JFloat f)
                            ∧ int_of_float f = Raise e)) records)
  ∧ (Forall (fun r => ∃ d, r = JDict d
                           ∧ ∀ f, assoc "imdbId" d ≠ Some (JFloat f))
       records →
     ∃ result, Writers.merge_flixpatrol_to_bfd dry records = Ok result).
Proof.
  assert (∀ e, Writers.merge_flixpatrol_to_bfd dry records = Raise e →
               Writers.transform records = Raise e) as Hfrom.
  { intros e. unfold Writers.merge_flixpatrol_to_bfd.
    destruct records as [|r0 rs]; [done|].
    destruct (Writers.transform (r0 :: rs)) as [[transformed skipped]|e']
      eqn:Ht; [|congruence].
    destruct (transform_effect _ _ _ Ht) as (_ & _ & Hall).
    destruct (sample_keys_of_dicts ["imdb_id"; "tmdb_id"]
                (take 5 transformed)) as (ks & Hks & _).
    { apply Forall_take. eapply Forall_impl; [exact Hall|].
      intros t (mapped & -> & _). eauto. }
    rewrite Hks. by destruct dry. }
  split.
  - intros e He. by apply transform_raises, Hfrom.
  - intros Hall.
    destruct (Writers.merge_flixpatrol_to_bfd dry records) as [result|e]
      eqn:Hm; [eauto|].
    exfalso. pose proof (transform_raises _ _ (Hfrom e eq_refl)) as Hex.
    apply Exists_exists in Hex as (r & Hr & Hbad).
    rewrite Forall_forall in Hall. destruct (Hall r Hr) as (d & -> & Hnf).
    destruct Hbad as [[Hnd _]|(d' & f & [= <-] & Hf & _)].
    + by destruct (Hnd d).
    + by destruct (Hnf f).
Qed.

End WriterFacts.

(** Two FlixPatrol records, the second without identifier: one is kept
    (its numeric IMDb identifier converted), one is skipped, and the
    live run reports a total of one record where the dry run reports
    two. *)
Lemma merge_flixpatrol_witness :
  ∃ live dry_result,
    @Writers.merge_flixpatrol_to_bfd VDB.tag_repr false
      [JDict [("imdbId", JInt 76759); ("title", JStr "Star Wars")];
       JDict [("title", JStr "Untitled")]] = Ok live
    ∧ @Writers.merge_flixpatrol_to_bfd VDB.tag_repr true
        [JDict [("imdbId", JInt 76759); ("title", JStr "Star Wars")];
         JDict [("title", JStr "Untitled")]] = Ok dry_result
    ∧ (VDB.new_records live + VDB.updated_records live
       + VDB.skipped_records live = 2)%Z
    ∧ VDB.skipped_records live = 1%Z
    ∧ VDB.total_records live = 1%Z
    ∧ VDB.total_records dry_result = 2%Z
    ∧ VDB.sample_keys live = ["tt0076759"].
Proof.
  eexists _, _. split; [reflexivity|]. split; [reflexivity|].
  split; [|by vm_compute].
  apply (@merge_flixpatrol_accounts_for_every_record VDB.tag_repr false
           [JDict [("imdbId", JInt 76759); ("title", JStr "Star Wars")];
            JDict [("title", JStr "Untitled")]] _ eq_refl).
Defined.

(** A record with an unmapped field ["rank"]: the field is dropped, the
    identifier is converted. *)
Lemma flixpatrol_transform_witness :
  ∃ transformed,
    @Writers.transform VDB.tag_repr
      [JDict [("imdbId", JInt 76759); ("title", JStr "Star Wars");
              ("rank", JInt 1)];
       JDict [("title", JStr "Untitled")]]
    = Ok (transformed, 1%Z)
    ∧ transformed
      = [JDict [("imdb_id", JStr "tt0076759"); ("title", JStr "Star Wars")]]
    ∧ (Z.of_nat (length transformed) + 1 = 2)%Z.
Proof.
  eexists. split; [reflexivity|]. split; [reflexivity|].
  apply (@flixpatrol_transform_keeps_mapped_fields_only VDB.tag_repr
           [JDict [("imdbId", JInt 76759); ("title", JStr "Star Wars");
                   ("rank", JInt 1)];
            JDict [("title", JStr "Untitled")]] _ 1%Z eq_refl).
Defined.

(* ===================================================================== *)
(** * Properties of the column mapper *)
(* ===================================================================== *)

(** X23. Column names are matched loosely. Two non-empty names with the same
    lower-cased, stripped form, when that form is an alias of the
    translation map or a canonical column, have the same canonical
    column, and a cell update through either name is the same
    operation. The empty name is its own canonical form. *)
Theorem column_names_are_matched_loosely (m : MetaMerger.ColumnMapper)
    (c1 c2 : string) :
  c1 ≠ "" → c2 ≠ "" →
  strip (lower c1) = strip (lower c2) →
  is_Some (MetaMerger.translation_map m !! strip (lower c1))
  ∨ strip (lower c1) ∈ MetaMerger.canonical_columns m →
  MetaMerger.to_canonical m c1 = MetaMerger.to_canonical m c2
  ∧ MetaMerger.to_canonical m "" = ""
  ∧ ∀ (self : MetaMerger.Engine) (idx : Z) (value : pyval) (mode : string),
      MetaMerger.mapper self = m →
      MetaMerger._update_value idx c1 value mode self
      = MetaMerger._update_value idx c2 value mode self.
Proof.
  intros H1 H2 Hsame Hknown.
  assert (MetaMerger.to_canonical m c1 = MetaMerger.to_canonical m c2) as Hc.
  { unfold MetaMerger.to_canonical.
    apply String.eqb_neq in H1, H2. rewrite H1, H2. cbv zeta.
    rewrite <- Hsame.
    destruct (MetaMerger.translation_map m !! strip (lower c1)) as [c|];
      [done|].
    destruct Hknown as [[? ?]|Hcan]; [done|].
    by rewrite bool_decide_eq_true_2. }
  split; [done|]. split; [done|].
  intros self idx value mode <-. unfold MetaMerger._update_value.
  unfold bind, get. cbv zeta. by rewrite Hc.
Qed.

(** With the example mapper: [" Release_Date"] and ["release_date"] both
    name the column ["premiere_date"]. *)
Lemma column_names_witness :
  MetaMerger.to_canonical example_mapper " Release_Date"
  = MetaMerger.to_canonical example_mapper "release_date"
  ∧ MetaMerger.to_canonical example_mapper "release_date" = "premiere_date".
Proof.
  split; [|by vm_compute].
  apply (column_names_are_matched_loosely example_mapper " Release_Date"
           "release_date"); [done|done|reflexivity|].
  left. vm_compute. eauto.
Defined.

(* ===================================================================== *)
(** * Further properties of batch routing *)
(* ===================================================================== *)

Lemma meets_iff (ws keys : list string) :
  existsb (fun k => bool_decide (k ∈ ws)) keys = true
  ↔ ∃ k, k ∈ keys ∧ k ∈ ws.
Proof.
  rewrite existsb_exists. split.
  - intros (k & Hk & Hw). exists k. split; [by apply list_elem_of_In|].
    by apply bool_decide_eq_true in Hw.
  - intros (k & Hk & Hw). exists k. split; [by apply list_elem_of_In|].
    by apply bool_decide_eq_true.
Qed.

Lemma meets_app (ws1 ws2 keys : list string) :
  existsb (fun k => bool_decide (k ∈ (ws1 ++ ws2)%list)) keys
  = existsb (fun k => bool_decide (k ∈ ws1)) keys
    || existsb (fun k => bool_decide (k ∈ ws2)) keys.
Proof.
  induction keys as [|k keys IH]; [done|]. simpl. rewrite IH.
  assert (bool_decide (k ∈ (ws1 ++ ws2)%list)
          = bool_decide (k ∈ ws1) || bool_decide (k ∈ ws2)) as ->.
  { destruct (bool_decide (k ∈ ws1)) eqn:H1.
    - apply bool_decide_eq_true in H1. apply bool_decide_eq_true.
      apply elem_of_app. by left.
    - apply bool_decide_eq_false in H1.
      destruct (bool_decide (k ∈ ws2)) eqn:H2.
      + apply bool_decide_eq_true in H2. apply bool_decide_eq_true.
        apply elem_of_app. by right.
      + apply bool_decide_eq_false in H2. apply bool_decide_eq_false.
        intros [?|?]%elem_of_app; done. }
  by destruct (bool_decide (k ∈ ws1)), (bool_decide (k ∈ ws2)),
    (existsb _ keys), (existsb _ keys).
Qed.

Lemma meets_singleton (w : string) (keys : list string) :
  existsb (fun k => bool_decide (k ∈ [w])) keys = bool_decide (w ∈ keys).
Proof.
  destruct (existsb _ keys) eqn:Hm.
  - apply meets_iff in Hm as (k & Hk & ->%list_elem_of_singleton).
    symmetry. by apply bool_decide_eq_true.
  - symmetry. apply bool_decide_eq_false. intros Hw.
    assert (existsb (fun k => bool_decide (k ∈ [w])) keys = true) as Hex.
    { apply meets_iff. exists w. split; [done|]. left. }
    congruence.
Qed.

(** X24. Detection from the payload has a fixed order and range. A dict with
    a viewership key is [VIEWERSHIP_DATA] whatever else it holds;
    [PLATFORM_CHANGES] needs a ["changes"] key; the result is never
    [FLIXPATROL_TITLES], [NEWS_EVENTS] or [TRENDING_DATA], which only
    [SOURCE_MAPPING] can give; and it is [UNKNOWN] exactly when no key,
    in lower case, is one of the listed words (["shows"] alone does not
    count). *)
Theorem content_detection_range (data : list (string * json)) :
  let keys := map (fun kv => lower (fst kv)) data in
  let dt := VDB._detect_from_content data in
  (dt ∉ [VDB.FLIXPATROL_TITLES; VDB.NEWS_EVENTS; VDB.TRENDING_DATA])
  ∧ ((∃ k, k ∈ keys
           ∧ k ∈ ["views"; "hours_viewed"; "points"; "ranking"; "watch_time"])
     → dt = VDB.VIEWERSHIP_DATA)
  ∧ (dt = VDB.PLATFORM_CHANGES → "changes" ∈ keys)
  ∧ (dt = VDB.UNKNOWN ↔
     ∀ k, k ∈ keys →
          k ∉ ["views"; "hours_viewed"; "points"; "ranking"; "watch_time";
               "imdb_id"; "tmdb_id"; "title"; "premiere"; "genres";
               "services"; "streaming"; "platform"; "availability";
               "countrycode"; "changes";
               "trending"; "trends"; "hashtags"; "mentions"; "sentiment";
               "revenue"; "subscribers"; "stock"; "market_cap"; "earnings"]).
Proof.
  cbv zeta. unfold VDB._detect_from_content. cbv zeta.
  set (keys := map (fun kv => lower (fst kv)) data).
  set (all_words :=
         ["views"; "hours_viewed"; "points"; "ranking"; "watch_time";
          "imdb_id"; "tmdb_id"; "title"; "premiere"; "genres";
          "services"; "streaming"; "platform"; "availability";
          "countrycode"; "changes";
          "trending"; "trends"; "hashtags"; "mentions"; "sentiment";
          "revenue"; "subscribers"; "stock"; "market_cap"; "earnings"]).
  assert ((∀ k, k ∈ keys → k ∉ all_words)
          ↔ existsb (fun k => bool_decide (k ∈ all_words)) keys = false)
    as Hnone.
  { split.
    - intros Hall. destruct (existsb _ keys) eqn:Hm; [|done].
      apply meets_iff in Hm as (k & Hk & Hw). by destruct (Hall k Hk).
    - intros Hm k Hk Hw.
      assert (existsb (fun k => bool_decide (k ∈ all_words)) keys = true)
        as Hex by (apply meets_iff; eauto).
      congruence. }
  rewrite Hnone.
  change all_words
    with (["views"; "hours_viewed"; "points"; "ranking"; "watch_time"]
          ++ ["imdb_id"; "tmdb_id"; "title"; "premiere"; "genres"]
          ++ ["services"; "streaming"; "platform"; "availability";
              "countrycode"]
          ++ ["changes"]
          ++ ["trending"; "trends"; "hashtags"; "mentions"; "sentiment"]
          ++ ["revenue"; "subscribers"; "stock"; "market_cap"; "earnings"])
         %list.
  rewrite !meets_app, meets_singleton.
  assert (bool_decide ("changes" ∈ keys) = true →
          existsb (fun k => bool_decide (k ∈ ["changes"; "shows"])) keys
          = true) as Hch.
  { intros Hc%bool_decide_eq_true. apply meets_iff. exists "changes".
    split; [done|]. left. }
  split; [|split; [|split]].
  - repeat match goal with
           | |- context [if ?b then _ else _] => destruct b
           end; by_compute.
  - intros Hv%meets_iff. by rewrite Hv.
  - destruct (bool_decide ("changes" ∈ keys)) eqn:Hc.
    + intros _. by apply bool_decide_eq_true in Hc.
    + rewrite andb_false_r.
      repeat match goal with
             | |- context [if ?b then _ else _] => destruct b
             end; discriminate.
  - destruct (bool_decide ("changes" ∈ keys)) eqn:Hc.
    + rewrite (Hch eq_refl).
      repeat match goal with
             | |- context [existsb ?f keys] => destruct (existsb f keys)
             end; simpl; split; discriminate.
    + rewrite andb_false_r.
      repeat match goal with
             | |- context [existsb ?f keys] => destruct (existsb f keys)
             end; simpl; split; (discriminate || done).
Qed.

Lemma split_first_word (w t : string) :
  all_chars (fun c => negb (Ascii.eqb c "_")) w = true →
  split_first "_" (w +:+ String "_" t) = w.
Proof.
  induction w as [|c w IH]; [done|].
  change (String c w +:+ String "_" t) with (String c (w +:+ String "_" t)).
  cbn [all_chars split_first]. intros [Hc Hw]%andb_true_iff.
  apply negb_true_iff in Hc. by rewrite Hc, IH.
Qed.

Lemma split_first_substring (w t : string) (i : nat) :
  all_chars (fun c => negb (Ascii.eqb c "_")) w = true →
  (String.length w < i)%nat →
  split_first "_" (String.substring 0 i (w +:+ String "_" t)) = w.
Proof.
  revert i. induction w as [|c w IH]; intros i Hw Hi.
  - destruct i as [|i]; [simpl in Hi; lia|]. reflexivity.
  - change (String c w +:+ String "_" t)
      with (String c (w +:+ String "_" t)).
    destruct i as [|i]; [simpl in Hi; lia|].
    cbn [all_chars] in Hw. apply andb_true_iff in Hw as [Hc Hw].
    apply negb_true_iff in Hc. cbn [String.substring split_first].
    rewrite Hc. f_equal. apply IH; [done|]. simpl in Hi. lia.
Qed.

Lemma rfind_dot_bound (k : nat) (s : string) (j : nat) :
  VDB.rfind_dot k s = Some j →
  (k ≤ j)%nat ∧ String.get (j - k) s = Some "."%char.
Proof.
  revert k j. induction s as [|c s IH]; intros k j; [done|].
  cbn [VDB.rfind_dot].
  destruct (VDB.rfind_dot (S k) s) as [j'|] eqn:Hr.
  - intros [= <-]. destruct (IH _ _ Hr) as [Hle Hget]. split; [lia|].
    replace (j' - k)%nat with (S (j' - S k)) by lia. exact Hget.
  - destruct (Ascii.eqb c ".") eqn:Hc; [|done]. intros [= <-].
    apply Ascii.eqb_eq in Hc as ->. split; [lia|].
    by rewrite Nat.sub_diag.
Qed.

Lemma dot_after_word (w t : string) (j : nat) :
  all_chars (fun c => negb (Ascii.eqb c ".")) w = true →
  String.get j (w +:+ String "_" t) = Some "."%char →
  (String.length w < j)%nat.
Proof.
  revert j. induction w as [|c w IH]; intros j Hw Hget.
  - destruct j as [|j]; [done|]. simpl. lia.
  - change (String c w +:+ String "_" t)
      with (String c (w +:+ String "_" t)) in Hget.
    cbn [all_chars] in Hw. apply andb_true_iff in Hw as [Hc Hw].
    apply negb_true_iff, Ascii.eqb_neq in Hc.
    destruct j as [|j]; [simpl in Hget; congruence|].
    simpl in Hget. specialize (IH j Hw Hget). simpl. lia.
Qed.

(** The source that [_process_json] takes from a file name is its first
    word: for a name [w_t] whose first word [w] has no dot,
    [filepath.stem.split('_')[0]] is [w]. *)
Lemma stem_first_word (w t : string) :
  all_chars (fun c => negb (Ascii.eqb c "_")) w = true →
  all_chars (fun c => negb (Ascii.eqb c ".")) w = true →
  split_first "_" (VDB.stem (w +:+ String "_" t)) = w.
Proof.
  intros Hu Hd. unfold VDB.stem.
  destruct (VDB.rfind_dot 0 (w +:+ String "_" t)) as [i|] eqn:Hr;
    [|by apply split_first_word].
  destruct (_ && _); [|by apply split_first_word].
  apply rfind_dot_bound in Hr as [_ Hget]. rewrite Nat.sub_0_r in Hget.
  apply split_first_substring; [done|]. by eapply dot_after_word.
Qed.

(** X25. Of the sources that [_process_json] derives from file names, only
    the one-word ones reach [SOURCE_MAPPING]. For a file named [w_t]
    (first word [w], free of dots) the derived source is [w]; for the
    discovery patterns [fresh_data_], [streaming_availability_],
    [twitter_trends_], [seeking_alpha_], [disney_plus_] and
    [cranberry_fresh_] this word is no key of [SOURCE_MAPPING], so the
    batch type is ignored and the data type comes from the payload
    alone, whereas [tmdb], [flixpatrol], [reuters] and [imdb] are
    keys. *)
Theorem filename_source_is_first_word (w t : string) :
  all_chars (fun c => negb (Ascii.eqb c "_")) w = true →
  all_chars (fun c => negb (Ascii.eqb c ".")) w = true →
  let source := split_first "_" (VDB.stem (w +:+ String "_" t)) in
  source = w
  ∧ (w ∈ ["fresh"; "streaming"; "twitter"; "seeking"; "disney"; "cranberry"]
     → VDB.assoc (lower source) VDB.SOURCE_MAPPING = None
       ∧ ∀ batch_type batch_type' data,
           VDB.detect (JStr source) batch_type data
           = VDB.detect (JStr source) batch_type' data)
  ∧ (w ∈ ["tmdb"; "flixpatrol"; "reuters"; "imdb"]
     → is_Some (VDB.assoc (lower source) VDB.SOURCE_MAPPING)).
Proof.
  intros Hu Hd. cbv zeta. rewrite (stem_first_word w t Hu Hd).
  split; [done|]. split.
  - intros Hw.
    assert (VDB.assoc (lower w) VDB.SOURCE_MAPPING = None) as Hnone.
    { rewrite !elem_of_cons, elem_of_nil in Hw.
      repeat destruct Hw as [->|Hw]; done. }
    split; [done|]. intros batch_type batch_type' data.
    unfold VDB.detect. by rewrite Hnone.
  - intros Hw. rewrite !elem_of_cons, elem_of_nil in Hw.
    repeat destruct Hw as [->|Hw]; try done; vm_compute; eauto.
Qed.

(** At a Disney+ file name: the derived source is ["disney"], which is
    no key of [SOURCE_MAPPING] (the key is ["disney_plus"]). *)
Lemma filename_source_witness :
  split_first "_" (VDB.stem "disney_plus_20260115.json") = "disney"
  ∧ VDB.assoc "disney" VDB.SOURCE_MAPPING = None
  ∧ is_Some (VDB.assoc "disney_plus" VDB.SOURCE_MAPPING).
Proof.
  destruct (filename_source_is_first_word "disney" "plus_20260115.json"
              eq_refl eq_refl) as (Hsrc & Hnone & _).
  split; [exact Hsrc|]. split; [|vm_compute; eauto].
  destruct Hnone as [Hnone _]; [by_compute|].
  rewrite Hsrc in Hnone. exact Hnone.
Defined.

Section RoutingFacts.
Context `{PyRepr} {W : Type} `{VDB.DatabaseWriters W}.
Import VDB.

(** X26. A skipped batch never reaches a writer. When [_route_batch] returns
    a decision whose action is ["skip"], the engine afterwards is the
    engine before with the record count added to [stats.skipped] and one
    entry appended to [stats.skip_details]: the storage, the writers and
    every other counter and result are as they were. When the decision
    is not a skip, the skip counter and the skip details are as they
    were. *)
Theorem skipped_batch_never_reaches_a_writer (source batch_type data : json)
    (filename : string) (self : Engine W) (decision : RoutingDecision) :
  fst (_route_batch source batch_type data filename self) = Ok decision →
  let after := snd (_route_batch source batch_type data filename self) in
  (action decision = "skip" →
   after
   = set_stats
       (fun st =>
          stats_add st
            (d_skipped (records_count decision)
               {| sd_source := filename;
                  sd_type := value (data_type decision);
                  sd_count := records_count decision;
                  sd_reason := skip_reason decision |})) self
   ∧ world after = world self
   ∧ writers_ready after = writers_ready self
   ∧ merge_results (stats after) = merge_results (stats self)
   ∧ records_routed (stats after) = records_routed (stats self))
  ∧ (action decision ≠ "skip" →
     skipped (stats after) = skipped (stats self)
     ∧ skip_details (stats after) = skip_details (stats self)).
Proof.
  cbv zeta. unfold _route_batch, bind, lift.
  destruct (batch_count data) as [count|e]; [|done].
  destruct (detect source batch_type
              match data with JDict d => Some d | _ => None end)
    as [[dt sr]|e] eqn:Hdet; [|done].
  set (made := with_reason _ (route dt filename count sr)).
  assert (source_file made = filename) as Hfile by (by destruct dt).
  destruct (String.eqb (action made) "skip") eqn:Hact.
  - assert (_execute_decision made data self
            = (Ok tt,
               set_stats
                 (fun st =>
                    stats_add st
                      (d_skipped (records_count made)
                         {| sd_source := source_file made;
                            sd_type := value (data_type made);
                            sd_count := records_count made;
                            sd_reason := skip_reason made |})) self))
      as ->.
    { unfold _execute_decision. by rewrite Hact. }
    unfold ret. intros [= <-]. split.
    + intros _. rewrite Hfile. split; [reflexivity|]. simpl.
      rewrite app_nil_r. repeat split. lia.
    + intros Hne. apply String.eqb_eq in Hact. done.
  - pose proof (steady_execute_decision made data Hact self) as [_ Hs].
    destruct (_execute_decision made data self) as [[[]|e] after];
      [|done].
    unfold ret. intros [= <-]. split.
    + intros Hskip. apply String.eqb_neq in Hact. done.
    + intros _. unfold skip_ledger in Hs. simpl in Hs |- *.
      by injection Hs as -> ->.
Qed.

End RoutingFacts.

(** At the batch of the specification: it is skipped, and the storage
    and the merge results are untouched. *)
Lemma skipped_batch_witness :
  VDB.world (snd (@VDB._route_batch VDB.tag_repr unit VDB.offline_writers
                    (JStr "unknown_api") (JStr "x") (JDict [])
                    "fresh_data_1.json" fresh_engine)) = tt
  ∧ VDB.writers_ready
      (snd (@VDB._route_batch VDB.tag_repr unit VDB.offline_writers
              (JStr "unknown_api") (JStr "x") (JDict [])
              "fresh_data_1.json" fresh_engine)) = false
  ∧ VDB.merge_results (VDB.stats
      (snd (@VDB._route_batch VDB.tag_repr unit VDB.offline_writers
              (JStr "unknown_api") (JStr "x") (JDict [])
              "fresh_data_1.json" fresh_engine))) = [].
Proof.
  destruct (@skipped_batch_never_reaches_a_writer VDB.tag_repr unit
              VDB.offline_writers (JStr "unknown_api") (JStr "x") (JDict [])
              "fresh_data_1.json" fresh_engine
              (@VDB.unknown_source_decision VDB.tag_repr "unknown_api"
                 (JStr "x") "fresh_data_1.json") eq_refl) as [Hskip _].
  destruct (Hskip eq_refl) as (_ & Hw & Hr & Hm & _).
  split; [exact Hw|]. split; [exact Hr|exact Hm].
Defined.
